(** * elements-highlighter: the overlay / annotation core of [src/content/index.ts]

    A shallow embedding of the content script: the annotation store with its
    two-level labelling, the geometry of frames and badges, the selector
    generator, the per-URL snapshot in [localStorage] and the restore done
    when edit mode starts.

    Conventions of the embedding.
    - A JavaScript [number] that holds a pixel quantity or a counter is a [Z];
      the floats of the browser agree with it on integers below 2^53.
    - A JavaScript string is a [string]; one character stands for one code
      unit, so [label.length] is [String.length].
    - [null] is [None]; the truthiness tests of the source ([if (x)],
      [x || d]) are written out with [truthy].  A property that an entry of
      an older snapshot can lack is optional ([padding]) or has a value of
      its own for [undefined] ([parentId]).
    - Module-level [let] variables of the script are the fields of [State];
      every function of the script that touches them is a function
      [State -> State].  [Date.now()] and [Math.random()] are inputs:
      [generateId] takes their values, and [selectElement] the identifier
      made of them.
    - The page is a tree of elements with the attributes the script reads;
      [CSS.escape], the selector engine of [document.querySelector] and the
      JSON codec are parameters ([Browser]).
    - The page is a tree of elements; the overlay container and the panel
      are children of its body while edit mode is on.  What they hold is
      kept in [overlayContainer] and [panel].
    - Left out: the rasterisation of the export, the dragging of the panel,
      scrolling, and the class names the script puts on page elements
      ([wdh-editing-mode], [wdh-focused-element]), which [getSelector]
      filters out. *)

From Stdlib Require Import ZArith Lia Ascii String List Bool.
From Stdlib Require Import DecimalString DecimalPos.
From stdpp Require Import gmap strings list.

Local Open Scope Z_scope.

(** ** JavaScript strings and numbers *)

Module Js.

Definition length (s : string) : Z := Z.of_nat (String.length s).

Definition chars (s : string) : list ascii := list_ascii_of_string s.
Definition of_chars (l : list ascii) : string := string_of_list_ascii l.

Definition code (c : ascii) : Z := Z.of_nat (nat_of_ascii c).

(** [\d] *)
Definition is_digit (c : ascii) : bool := (48 <=? code c) && (code c <=? 57).

(** [\w] *)
Definition is_word (c : ascii) : bool :=
  is_digit c
  || ((65 <=? code c) && (code c <=? 90))
  || ((97 <=? code c) && (code c <=? 122))
  || (code c =? 95).

(** White space skipped by [parseInt] (the code units below 256). *)
Definition is_space (c : ascii) : bool :=
  ((9 <=? code c) && (code c <=? 13)) || (code c =? 32) || (code c =? 160).

(** ASCII white space, the separator of the tokens of a class attribute. *)
Definition is_ascii_space (c : ascii) : bool :=
  (code c =? 9) || (code c =? 10) || (code c =? 12) || (code c =? 13)
  || (code c =? 32).

(** The lower-case form of a code unit below 256: the letters [A]-[Z] and
    the accented capitals of Latin-1. *)
Definition lower_char (c : ascii) : ascii :=
  if ((65 <=? code c) && (code c <=? 90))
     || ((192 <=? code c) && (code c <=? 222) && negb (code c =? 215))
  then ascii_of_nat (nat_of_ascii c + 32) else c.

(** [s.toLowerCase()] *)
Definition toLowerCase (s : string) : string :=
  of_chars (map lower_char (chars s)).

(** [s.startsWith(p)] *)
Definition startsWith (p s : string) : bool := String.prefix p s.

(** [String(n)] and the interpolation of a number in a template literal. *)
Definition of_number (n : Z) : string :=
  NilZero.string_of_int (Z.to_int n).

Definition digit_val (c : ascii) : Z := code c - 48.

(** Value of a run of decimal digits, most significant first. *)
Definition digits_val (ds : list ascii) : Z :=
  fold_left (fun acc c => 10 * acc + digit_val c) ds 0.

Fixpoint take_digits (l : list ascii) : list ascii :=
  match l with
  | c :: r => if is_digit c then c :: take_digits r else []
  | [] => []
  end.

Fixpoint skip_space (l : list ascii) : list ascii :=
  match l with
  | c :: r => if is_space c then skip_space r else l
  | [] => []
  end.

(** [parseInt(s, 10)]; [None] is [NaN]. *)
Definition parseInt (s : string) : option Z :=
  let l := skip_space (chars s) in
  let '(neg, body) :=
    match l with
    | "-"%char :: r => (true, r)
    | "+"%char :: r => (false, r)
    | _ => (false, l)
    end in
  match take_digits body with
  | [] => None
  | ds => Some (if neg : bool then - digits_val ds else digits_val ds)
  end.

(** [s.match(/-(\d+)$/)]: the captured group, [None] when there is no
    match.  The digits must run to the end of the input, so the only
    candidate is the maximal run of digits that ends the string. *)
Definition match_dash_digits (s : string) : option string :=
  let r := rev (chars s) in
  let ds := take_digits r in
  match ds, drop (List.length ds) r with
  | _ :: _, "-"%char :: _ => Some (of_chars (rev ds))
  | _, _ => None
  end.

(** [s.split(' ')] *)
Fixpoint split_on (sep : ascii) (cur : list ascii) (l : list ascii)
  : list string :=
  match l with
  | [] => [of_chars (rev cur)]
  | c :: r =>
      if Ascii.eqb c sep then of_chars (rev cur) :: split_on sep [] r
      else split_on sep (c :: cur) r
  end.

Definition split_space (s : string) : list string :=
  split_on " "%char [] (chars s).

(** [parts.join(sep)] *)
Fixpoint join (sep : string) (parts : list string) : string :=
  match parts with
  | [] => ""
  | [p] => p
  | p :: rest => p +:+ sep +:+ join sep rest
  end.

(** [arr.slice(-n)] *)
Definition slice_last {A} (n : nat) (l : list A) : list A :=
  drop (List.length l - n)%nat l.

(** [Number.isSafeInteger(n)] on an integer: the integers a number holds
    exactly, on which the arithmetic of the script is that of [Z]. *)
Definition isSafeInteger (n : Z) : bool := Z.abs n <? 2 ^ 53.

(** Truthiness of a value of type [string | null]. *)
Definition truthy (o : option string) : bool :=
  match o with
  | Some s => negb (String.eqb s "")
  | None => false
  end.

End Js.

(** ** Data model ([src/types/index.ts]) *)

Inductive FrameColor := red | blue | green | yellow | black.

Global Instance FrameColor_eq_dec : EqDecision FrameColor.
Proof. solve_decision. Defined.

Record ColorEntry := { value : FrameColor; hex : string }.

(** The palette; the display label of an entry is left out. *)
Definition FRAME_COLORS : list ColorEntry :=
  [ {| value := red;    hex := "#ff0000" |};
    {| value := blue;   hex := "#0066ff" |};
    {| value := green;  hex := "#00aa00" |};
    {| value := yellow; hex := "#ffaa00" |};
    {| value := black;  hex := "#333333" |} ].

Record Rect := { top : Z; left : Z; width : Z; height : Z }.

(** The value of the property [parentId]: [null] on a top-level annotation,
    the id of the parent on a sub-annotation, and [undefined] on an entry of
    a snapshot that has no such property, which [restoreElements] copies as
    it finds it. *)
Inductive ParentId := Undefined | Null | Parent (i : string).

Global Instance ParentId_eq_dec : EqDecision ParentId.
Proof. solve_decision. Defined.

(** A variable of type [string | null] as a value [parentId] is compared
    with by [===], or assigned from. *)
Definition of_nullable (v : option string) : ParentId :=
  match v with
  | Some i => Parent i
  | None => Null
  end.

(** [SelectedElement].  The script reads [padding] through [?? 0] wherever it
    uses it, so the field is optional here as it is there. *)
Record SelectedElement := {
  id : string;
  label : string;
  parentId : ParentId;
  selector : string;
  tagName : string;
  color : FrameColor;
  padding : option Z;
  rect : Rect }.

Definition with_label (l : string) (e : SelectedElement) : SelectedElement :=
  {| id := id e; label := l; parentId := parentId e; selector := selector e;
     tagName := tagName e; color := color e; padding := padding e;
     rect := rect e |}.

Definition with_color (c : FrameColor) (e : SelectedElement) : SelectedElement :=
  {| id := id e; label := label e; parentId := parentId e;
     selector := selector e; tagName := tagName e; color := c;
     padding := padding e; rect := rect e |}.

Definition with_padding (p : Z) (e : SelectedElement) : SelectedElement :=
  {| id := id e; label := label e; parentId := parentId e;
     selector := selector e; tagName := tagName e; color := color e;
     padding := Some p; rect := rect e |}.

Definition with_rect (r : Rect) (e : SelectedElement) : SelectedElement :=
  {| id := id e; label := label e; parentId := parentId e;
     selector := selector e; tagName := tagName e; color := color e;
     padding := padding e; rect := r |}.

(** [x ?? 0] *)
Definition or0 (o : option Z) : Z := default 0 o.

(** ** Geometry of the overlays *)

Inductive BoxSizing := content_box | border_box.

(** The positional part of the inline style of a frame. *)
Record FrameStyle := {
  frameTop : Z; frameLeft : Z; frameWidth : Z; frameHeight : Z;
  frameBorderWidth : Z; frameBorderColor : string; frameBoxSizing : BoxSizing }.

(** The positional part of the inline style of a badge, with its text
    colour. *)
Record BadgeStyle := {
  badgeTop : Z; badgeLeft : Z; badgeWidth : Z; badgeHeight : Z;
  badgeColor : string;
  badgeBorderWidth : Z; badgeBorderColor : string;
  badgeBoxSizing : BoxSizing }.

(** A child of the overlay container: a frame carries [data-wdh-frame], a
    badge [data-wdh-badge] and its text. *)
Inductive OverlayNode :=
| FrameNode (wdhFrame : string) (s : FrameStyle)
| BadgeNode (wdhBadge : string) (textContent : string) (s : BadgeStyle).

Definition getColorHex (c : FrameColor) : string :=
  match find (fun e => bool_decide (value e = c)) FRAME_COLORS with
  | Some e => if Js.truthy (Some (hex e)) then hex e else "#ff0000"
  | None => "#ff0000"
  end.

Definition borderWidth : Z := 3.

Definition createFrameOverlay (id : string) (top left width height : Z)
    (color : FrameColor) (padding : Z) : OverlayNode :=
  let hex := getColorHex color in
  let frameTop := top - borderWidth - padding in
  let frameLeft := left - borderWidth - padding in
  let frameWidth := width + padding * 2 in
  let frameHeight := height + padding * 2 in
  FrameNode id
    {| frameTop := frameTop; frameLeft := frameLeft;
       frameWidth := frameWidth; frameHeight := frameHeight;
       frameBorderWidth := borderWidth; frameBorderColor := hex;
       frameBoxSizing := content_box |}.

Definition calculateBadgeWidth (label : string) : Z :=
  if Js.length label <=? 2 then 28 else Z.max 28 (Js.length label * 10 + 12).

Definition createNumberBadge (id label : string) (top left : Z)
    (color : FrameColor) (padding : Z) : OverlayNode :=
  let hex := getColorHex color in
  let badgeWidth := calculateBadgeWidth label in
  let badgeHeight := 28 in
  let frameBorderWidth := 3 in
  let badgeTop := top - padding - frameBorderWidth - badgeHeight / 2 in
  let badgeLeft := left - padding - frameBorderWidth - badgeWidth / 2 in
  BadgeNode id label
    {| badgeTop := badgeTop; badgeLeft := badgeLeft;
       badgeWidth := badgeWidth; badgeHeight := badgeHeight;
       badgeColor := hex;
       badgeBorderWidth := 3; badgeBorderColor := hex;
       badgeBoxSizing := content_box |}.

(** The selectors [[data-wdh-frame="i"]] and [[data-wdh-badge="i"]];
    [querySelector] takes the first child of the container that matches. *)
Definition is_frame_of (i : string) (n : OverlayNode) : bool :=
  match n with FrameNode j _ => bool_decide (j = i) | _ => false end.

Definition is_badge_of (i : string) (n : OverlayNode) : bool :=
  match n with BadgeNode j _ _ => bool_decide (j = i) | _ => false end.

Fixpoint alter_first {A} (p : A -> bool) (f : A -> A) (l : list A) : list A :=
  match l with
  | [] => []
  | x :: r => if p x then f x :: r else x :: alter_first p f r
  end.

Fixpoint remove_first {A} (p : A -> bool) (l : list A) : list A :=
  match l with
  | [] => []
  | x :: r => if p x then r else x :: remove_first p r
  end.

(** ** The page *)

(** What the script reads of a DOM element.  [box] is the bounding client
    rectangle already translated by the scroll offset
    ([rect.top + window.scrollY], [rect.left + window.scrollX]). *)
Record Attrs := {
  elTagName : string;
  elId : string;
  classAttr : string;
  classNameIsString : bool;
  wdhId : option string;
  box : Rect }.

#[warnings="-register-all"]
Inductive Element := Elem (a : Attrs) (children : list Element).

Definition attrs (e : Element) : Attrs := match e with Elem a _ => a end.
Definition children (e : Element) : list Element :=
  match e with Elem _ cs => cs end.

(** An element is named by the child indices that lead to it, innermost
    first: [[]] is [document.documentElement] and [i :: p] the child number
    [i] of the element [p], so that [parentElement] is the tail. *)
Abbreviation Path := (list nat).

Record Document := { root : Element; body : option Path }.

Fixpoint node_at (r : Element) (p : Path) : option Element :=
  match p with
  | [] => Some r
  | i :: q =>
      match node_at r q with
      | Some e => children e !! i
      | None => None
      end
  end.

Definition set_wdhId (v : option string) (a : Attrs) : Attrs :=
  {| elTagName := elTagName a; elId := elId a; classAttr := classAttr a;
     classNameIsString := classNameIsString a; wdhId := v; box := box a |}.

(** Update of the attributes of one element, the path given outermost
    first. *)
Fixpoint alter_down (f : Attrs -> Attrs) (down : list nat) (e : Element)
  : Element :=
  match down with
  | [] => Elem (f (attrs e)) (children e)
  | i :: rest => Elem (attrs e) (alter (alter_down f rest) i (children e))
  end.

Definition alter_at (f : Attrs -> Attrs) (p : Path) (d : Document) : Document :=
  {| root := alter_down f (rev p) (root d); body := body d |}.

(** An update of the list of children of one element, the path given
    outermost first. *)
Fixpoint alter_children (f : list Element -> list Element) (down : list nat)
    (e : Element) : Element :=
  match down with
  | [] => Elem (attrs e) (f (children e))
  | i :: rest => Elem (attrs e) (alter (alter_children f rest) i (children e))
  end.

(** [document.body.appendChild(node)].  On a document without body, where
    the script cannot run, nothing is appended. *)
Definition appendToBody (node : Element) (d : Document) : Document :=
  match body d with
  | Some p =>
      {| root := alter_children (fun cs => cs ++ [node]) (rev p) (root d);
         body := body d |}
  | None => d
  end.

(** The last member of a list that satisfies [p] goes. *)
Definition remove_last {A} (p : A -> bool) (l : list A) : list A :=
  rev (remove_first p (rev l)).

(** [node.remove()] for one of the two nodes the script appends to the body,
    each known by its class: it is the last child of the body with that
    class, the script appending after whatever the page holds. *)
Definition removeFromBody (cls : string) (d : Document) : Document :=
  match body d with
  | Some p =>
      {| root :=
           alter_children
             (remove_last (fun c => String.eqb (classAttr (attrs c)) cls))
             (rev p) (root d);
         body := body d |}
  | None => d
  end.

(** [document.querySelector('[data-wdh-id="i"]')]: the first element in
    document order whose marker is [i]. *)
Fixpoint find_marked (i : string) (e : Element) (p : Path) : option Path :=
  match e with
  | Elem a cs =>
      if bool_decide (wdhId a = Some i) then Some p
      else
        (fix scan (l : list Element) (k : nat) : option Path :=
           match l with
           | [] => None
           | c :: r =>
               match find_marked i c (k :: p) with
               | Some q => Some q
               | None => scan r (S k)
               end
           end) cs 0%nat
  end.

Definition query_marker (d : Document) (i : string) : option Path :=
  find_marked i (root d) [].

(** The tokens of a class attribute, as [classList] sees them. *)
Fixpoint tokens_aux (cur : list ascii) (l : list ascii) : list string :=
  match l with
  | [] => match cur with [] => [] | _ => [Js.of_chars (rev cur)] end
  | c :: r =>
      if Js.is_ascii_space c then
        match cur with
        | [] => tokens_aux [] r
        | _ => Js.of_chars (rev cur) :: tokens_aux [] r
        end
      else tokens_aux (c :: cur) r
  end.

Definition class_tokens (a : Attrs) : list string :=
  tokens_aux [] (Js.chars (classAttr a)).

(** [element.closest('.cls')]: the element or one of its ancestors carries
    the class. *)
Fixpoint closest_class (cls : string) (r : Element) (p : Path) : bool :=
  match node_at r p with
  | None => false
  | Some e =>
      if bool_decide (cls ∈ class_tokens (attrs e)) then true
      else match p with
           | [] => false
           | _ :: q => closest_class cls r q
           end
  end.

(** [a.contains(b)] *)
Definition contains (a b : Path) : bool := bool_decide (a `suffix_of` b).

(** ** What the browser provides

    [CSS.escape] (absent in old engines), the selector engine behind
    [document.querySelector], the JSON codec and the layout of the two
    nodes the script appends to the body are platform code.  They are
    parameters of the model; the selector engine answers with an element,
    with [null], or throws on a selector it cannot parse. *)

Inductive QueryResult := Found (p : Path) | NotFound | SyntaxError.

(** ** Selector generator *)

(** The fallback of [escapeClassName]:
    [.replace(/([^\w-])/g, '\\$1').replace(/^(\d)/, '\\3$1 ')]. *)
Definition escape_manual (s : string) : string :=
  let l1 :=
    flat_map (fun c => if Js.is_word c || Ascii.eqb c "-"
                       then [c] else ["\"%char; c])
             (Js.chars s) in
  Js.of_chars
    match l1 with
    | d :: r =>
        if Js.is_digit d then "\"%char :: "3"%char :: d :: " "%char :: r
        else l1
    | [] => []
    end.

Definition escapeClassName (CSS_escape : option (string -> string))
    (className : string) : string :=
  match CSS_escape with
  | Some esc => esc className
  | None => escape_manual className
  end.

Section Selector.

Variable CSS_escape : option (string -> string).

(** [tag.class1.class2] of the element: at most two class names that are
    non-empty and not the extension's own. *)
Definition class_part (a : Attrs) : string :=
  if negb (String.eqb (classAttr a) "") && classNameIsString a then
    let classes :=
      take 2 (List.filter
                (fun c => negb (String.eqb c "")
                          && negb (Js.startsWith "wdh-" c))
                (Js.split_space (classAttr a))) in
    if (0 <? Z.of_nat (List.length classes)) then
      "." +:+ Js.join "." (map (escapeClassName CSS_escape) classes)
    else ""
  else "".

(** One turn of the [for] loop over [parent.children]. *)
Definition scan_step (tag : string) (self : nat)
  : Z * Z * nat -> Element -> Z * Z * nat :=
  fun '(sameTagCount, position, i) c =>
    if String.eqb (elTagName (attrs c)) tag then
      let sameTagCount := sameTagCount + 1 in
      (sameTagCount, if Nat.eqb i self then sameTagCount else position, S i)
    else (sameTagCount, position, S i).

(** The loop: the number of children with the tag of the element, and the
    rank of the element among them. *)
Definition sibling_scan (tag : string) (self : nat) (cs : list Element)
  : Z * Z :=
  let '(sameTagCount, position, _) :=
    fold_left (scan_step tag self) cs (0, 0, 0%nat) in
  (sameTagCount, position).

Definition nth_part (r : Element) (a : Attrs) (p : Path) : string :=
  match p with
  | [] => ""
  | i :: q =>
      match node_at r q with
      | None => ""
      | Some parent =>
          let '(sameTagCount, position) :=
            sibling_scan (elTagName a) i (children parent) in
          if 1 <? sameTagCount
          then ":nth-of-type(" +:+ Js.of_number position +:+ ")"
          else ""
      end
  end.

(** One turn of the [while] loop: the selector of [current]. *)
Definition segment (r : Element) (a : Attrs) (p : Path) : string :=
  Js.toLowerCase (elTagName a) +:+ class_part a +:+ nth_part r a p.

(** The [while (current && current !== document.body)] loop; [acc] is
    [path], which grows at the front. *)
Fixpoint walk_up (d : Document) (current : Path) (acc : list string)
  : list string :=
  if bool_decide (body d = Some current) then acc
  else
    match node_at (root d) current with
    | None => acc
    | Some e =>
        let acc := segment (root d) (attrs e) current :: acc in
        match current with
        | [] => acc
        | _ :: parent => walk_up d parent acc
        end
    end.

Definition getSelector (d : Document) (element : Path) : string :=
  match node_at (root d) element with
  | None => ""
  | Some e =>
      if negb (String.eqb (elId (attrs e)) "") then
        "#" +:+ escapeClassName CSS_escape (elId (attrs e))
      else Js.join " > " (Js.slice_last 4 (walk_up d element []))
  end.

End Selector.

(** ** Persisted snapshot *)

(** [SavedState] *)
Module Saved.
Record t := {
  elements : list SelectedElement;
  nextNumber : Z;
  focusedElementId : option string;
  focusedSubNumber : Z }.
End Saved.

(** The object [JSON.parse] returns, read at the four properties
    [loadState] looks at.  A property is [None] when it is absent (or
    [null]); a property that is present has the type [SavedState] declares
    for it. *)
Module Parsed.
Record t := {
  elements : option (list SelectedElement);
  nextNumber : option Z;
  focusedElementId : option string;
  focusedSubNumber : option Z }.
End Parsed.

(** A parsed JSON text: [null], on which every property access throws, or a
    value whose properties can be read. *)
Inductive JsonValue := JNull | JObject (o : Parsed.t).

Record Browser := {
  CSS_escape : option (string -> string);
  querySelector : Document -> string -> QueryResult;
  JSON_stringify : Saved.t -> string;
  (** [None]: [JSON.parse] throws a [SyntaxError]. *)
  JSON_parse : string -> option JsonValue;
  (** the boxes the layout gives to the overlay container and to the
      panel *)
  containerBox : Rect;
  panelBox : Rect }.

(** ** The panel, as far as [updatePanel] decides its content

    [updatePanel] assigns a text to [innerHTML].  A view holds what the text
    is made of: the title, whether the back button is there, and for each
    annotation listed the values the template of a list item is filled
    with.  The id, the label and the tag name are pasted into the text as
    they are, without escaping; the nodes the browser builds from the text
    are not part of the model. *)

Inductive PanelTitle := TitleDefault | TitleSubsection (parentLabel : string).

Record PanelItem := {
  itemId : string;
  itemLabel : string;
  itemTagName : string;
  itemColor : FrameColor;
  itemHex : string;
  itemFocusButton : bool;
  itemFocusedParent : bool;
  itemPadding : Z }.

Inductive PanelContent :=
| ContentBlank
| ContentEmptyMessage (focusMode : bool)
| ContentList (items : list PanelItem).

Record PanelView := {
  panelTitle : PanelTitle;
  panelBackBtn : bool;
  panelContent : PanelContent }.

(** ** Effects *)

Inductive Event :=
| SetItem (key : string) (state : Saved.t)
| RemoveItem (key : string)
| Render (v : PanelView)
| Warn (msg : string).

(** ** Session state: the module-level variables, the page and the storage *)

Record State := {
  isEditing : bool;
  selectedElements : list SelectedElement;
  nextNumber : Z;
  focusedElementId : option string;
  focusedSubNumber : Z;
  panel : option PanelView;
  overlayContainer : option (list OverlayNode);
  document : Document;
  href : string;
  localStorage : gmap string string;
  (** every call into [localStorage] throws (storage disabled, quota) *)
  storageThrows : bool;
  (** effects performed so far, oldest first *)
  log : list Event }.

Definition set_isEditing (v : bool) (s : State) : State :=
  {| isEditing := v; selectedElements := selectedElements s;
     nextNumber := nextNumber s; focusedElementId := focusedElementId s;
     focusedSubNumber := focusedSubNumber s; panel := panel s;
     overlayContainer := overlayContainer s; document := document s;
     href := href s; localStorage := localStorage s;
     storageThrows := storageThrows s; log := log s |}.

Definition set_selectedElements (v : list SelectedElement) (s : State) : State :=
  {| isEditing := isEditing s; selectedElements := v;
     nextNumber := nextNumber s; focusedElementId := focusedElementId s;
     focusedSubNumber := focusedSubNumber s; panel := panel s;
     overlayContainer := overlayContainer s; document := document s;
     href := href s; localStorage := localStorage s;
     storageThrows := storageThrows s; log := log s |}.

Definition set_nextNumber (v : Z) (s : State) : State :=
  {| isEditing := isEditing s; selectedElements := selectedElements s;
     nextNumber := v; focusedElementId := focusedElementId s;
     focusedSubNumber := focusedSubNumber s; panel := panel s;
     overlayContainer := overlayContainer s; document := document s;
     href := href s; localStorage := localStorage s;
     storageThrows := storageThrows s; log := log s |}.

Definition set_focusedElementId (v : option string) (s : State) : State :=
  {| isEditing := isEditing s; selectedElements := selectedElements s;
     nextNumber := nextNumber s; focusedElementId := v;
     focusedSubNumber := focusedSubNumber s; panel := panel s;
     overlayContainer := overlayContainer s; document := document s;
     href := href s; localStorage := localStorage s;
     storageThrows := storageThrows s; log := log s |}.

Definition set_focusedSubNumber (v : Z) (s : State) : State :=
  {| isEditing := isEditing s; selectedElements := selectedElements s;
     nextNumber := nextNumber s; focusedElementId := focusedElementId s;
     focusedSubNumber := v; panel := panel s;
     overlayContainer := overlayContainer s; document := document s;
     href := href s; localStorage := localStorage s;
     storageThrows := storageThrows s; log := log s |}.

Definition set_panel (v : option PanelView) (s : State) : State :=
  {| isEditing := isEditing s; selectedElements := selectedElements s;
     nextNumber := nextNumber s; focusedElementId := focusedElementId s;
     focusedSubNumber := focusedSubNumber s; panel := v;
     overlayContainer := overlayContainer s; document := document s;
     href := href s; localStorage := localStorage s;
     storageThrows := storageThrows s; log := log s |}.

Definition set_overlayContainer (v : option (list OverlayNode)) (s : State)
  : State :=
  {| isEditing := isEditing s; selectedElements := selectedElements s;
     nextNumber := nextNumber s; focusedElementId := focusedElementId s;
     focusedSubNumber := focusedSubNumber s; panel := panel s;
     overlayContainer := v; document := document s;
     href := href s; localStorage := localStorage s;
     storageThrows := storageThrows s; log := log s |}.

Definition set_document (v : Document) (s : State) : State :=
  {| isEditing := isEditing s; selectedElements := selectedElements s;
     nextNumber := nextNumber s; focusedElementId := focusedElementId s;
     focusedSubNumber := focusedSubNumber s; panel := panel s;
     overlayContainer := overlayContainer s; document := v;
     href := href s; localStorage := localStorage s;
     storageThrows := storageThrows s; log := log s |}.

Definition set_localStorage (v : gmap string string) (s : State) : State :=
  {| isEditing := isEditing s; selectedElements := selectedElements s;
     nextNumber := nextNumber s; focusedElementId := focusedElementId s;
     focusedSubNumber := focusedSubNumber s; panel := panel s;
     overlayContainer := overlayContainer s; document := document s;
     href := href s; localStorage := v;
     storageThrows := storageThrows s; log := log s |}.

Definition emit (e : Event) (s : State) : State :=
  {| isEditing := isEditing s; selectedElements := selectedElements s;
     nextNumber := nextNumber s; focusedElementId := focusedElementId s;
     focusedSubNumber := focusedSubNumber s; panel := panel s;
     overlayContainer := overlayContainer s; document := document s;
     href := href s; localStorage := localStorage s;
     storageThrows := storageThrows s; log := log s ++ [e] |}.

(** [overlayContainer?.appendChild(n)] *)
Definition appendOverlay (n : OverlayNode) (s : State) : State :=
  set_overlayContainer ((fun l => l ++ [n]) <$> overlayContainer s) s.

(** An update of the first overlay child that matches, and its removal. *)
Definition alterOverlay (p : OverlayNode -> bool) (f : OverlayNode -> OverlayNode)
    (s : State) : State :=
  set_overlayContainer (alter_first p f <$> overlayContainer s) s.

Definition removeOverlay (p : OverlayNode -> bool) (s : State) : State :=
  set_overlayContainer (remove_first p <$> overlayContainer s) s.

(** [const e = document.querySelector('[data-wdh-id="i"]'); if (e) delete
    e.dataset.wdhId] *)
Definition unmark (i : string) (s : State) : State :=
  match query_marker (document s) i with
  | Some p => set_document (alter_at (set_wdhId None) p (document s)) s
  | None => s
  end.

(** [selectedElements.find(e => e.id === i)] *)
Definition find_element (i : string) (l : list SelectedElement)
  : option SelectedElement :=
  find (fun e => bool_decide (id e = i)) l.

(** Assignment to a field of the object [find] returned: the first element
    with that id changes in place. *)
Definition alter_element (i : string) (f : SelectedElement -> SelectedElement)
    (l : list SelectedElement) : list SelectedElement :=
  alter_first (fun e => bool_decide (id e = i)) f l.

(** ** Persistence adapter *)

Definition getStorageKey (s : State) : string := "wdh-state-" +:+ href s.

Definition snapshot (s : State) : Saved.t :=
  {| Saved.elements := selectedElements s;
     Saved.nextNumber := nextNumber s;
     Saved.focusedElementId := focusedElementId s;
     Saved.focusedSubNumber := focusedSubNumber s |}.

Definition saveState (B : Browser) (s : State) : State :=
  if storageThrows s then emit (Warn "WDH: Failed to save state") s
  else
    let state := snapshot s in
    emit (SetItem (getStorageKey s) state)
      (set_localStorage
         (<[getStorageKey s := JSON_stringify B state]> (localStorage s)) s).

(** [x || 1] on a number. *)
Definition or1 (o : option Z) : Z :=
  match o with
  | Some n => if n =? 0 then 1 else n
  | None => 1
  end.

Definition loadState (B : Browser) (s : State) : option Saved.t * State :=
  let failed := (None, emit (Warn "WDH: Failed to load state") s) in
  if storageThrows s then failed
  else
    match localStorage s !! getStorageKey s with
    | None => (None, s)
    | Some data =>
        if String.eqb data "" then (None, s)
        else
          match JSON_parse B data with
          | None => failed
          | Some JNull => failed
          | Some (JObject parsed) =>
              (Some {| Saved.elements := default [] (Parsed.elements parsed);
                       Saved.nextNumber := or1 (Parsed.nextNumber parsed);
                       Saved.focusedElementId :=
                         if Js.truthy (Parsed.focusedElementId parsed)
                         then Parsed.focusedElementId parsed else None;
                       Saved.focusedSubNumber :=
                         or1 (Parsed.focusedSubNumber parsed) |},
               s)
          end
    end.

Definition clearState (s : State) : State :=
  if storageThrows s then emit (Warn "WDH: Failed to clear state") s
  else
    emit (RemoveItem (getStorageKey s))
      (set_localStorage (delete (getStorageKey s) (localStorage s)) s).

(** ** Panel *)

Definition panelItem (focused : option string) (el : SelectedElement)
  : PanelItem :=
  {| itemId := id el;
     itemLabel := label el;
     itemTagName := tagName el;
     itemColor := color el;
     itemHex := getColorHex (color el);
     itemFocusButton :=
       negb (Js.truthy focused) && bool_decide (parentId el = Null);
     itemFocusedParent := bool_decide (Some (id el) = focused);
     itemPadding := or0 (padding el) |}.

(** The view [updatePanel] leaves in a panel whose back button was
    [existingBackBtn]. *)
Definition renderPanel (existingBackBtn : bool) (s : State) : PanelView :=
  let focused := focusedElementId s in
  let title :=
    if Js.truthy focused then
      TitleSubsection
        match find_element (default "" focused) (selectedElements s) with
        | Some focusedEl => label focusedEl
        | None => ""
        end
    else TitleDefault in
  let backBtn :=
    if Js.truthy focused && negb existingBackBtn then true
    else if negb (Js.truthy focused) && existingBackBtn then false
    else existingBackBtn in
  let elementsToShow :=
    if Js.truthy focused then
      List.filter
        (fun e => bool_decide (Some (id e) = focused)
                  || bool_decide (parentId e = of_nullable focused))
        (selectedElements s)
    else
      List.filter (fun e => bool_decide (parentId e = Null))
        (selectedElements s) in
  {| panelTitle := title;
     panelBackBtn := backBtn;
     panelContent :=
       if (Z.of_nat (List.length elementsToShow) =? 0)
       then ContentEmptyMessage (Js.truthy focused)
       else ContentList (map (panelItem focused) elementsToShow) |}.

Definition updatePanel (s : State) : State :=
  match panel s with
  | None => s
  | Some old =>
      let v := renderPanel (panelBackBtn old) s in
      emit (Render v) (set_panel (Some v) s)
  end.

(** [createPanel] *)
Definition createPanel : PanelView :=
  {| panelTitle := TitleDefault; panelBackBtn := false;
     panelContent := ContentBlank |}.

(** ** Annotation store *)

(** The sub-counter after the labels of [subElements]: the [reduce] over
    [/-(\d+)$/] in [startFocus] and [startEditing].  The captured group is a
    non-empty run of digits, on which [parseInt] never gives [NaN]. *)
Definition maxSubNumber (subElements : list SelectedElement) : Z :=
  fold_left
    (fun max el =>
       match Js.match_dash_digits (label el) with
       | Some group =>
           match Js.parseInt group with
           | Some n => Z.max max n
           | None => max
           end
       | None => max
       end)
    subElements 0.

(** The [reduce] over [parseInt(el.label, 10)] in [startEditing].  The
    numbers are integers of [Z]; those of the script agree with them as long
    as the labels hold safe integers ([Js.isSafeInteger]). *)
Definition maxNumber (parentElements : list SelectedElement) : Z :=
  fold_left
    (fun max el =>
       match Js.parseInt (label el) with
       | Some num => Z.max max num
       | None => max
       end)
    parentElements 0.

Definition children_of (i : string) (l : list SelectedElement)
  : list SelectedElement :=
  List.filter (fun e => bool_decide (parentId e = Parent i)) l.

(** The three early returns of [selectElement]. *)
Definition select_refused (s : State) (element : Path) (a : Attrs) : bool :=
  Js.truthy (wdhId a)
  || (closest_class "wdh-panel" (root (document s)) element
      || closest_class "wdh-overlay-container" (root (document s)) element)
  || (Js.truthy (focusedElementId s)
      && match query_marker (document s) (default "" (focusedElementId s)) with
         | Some focusedElement => negb (contains focusedElement element)
         | None => false
         end).


(** [selectElement(element)], with [newId] the value of [generateId()]. *)
Definition selectElement (B : Browser) (element : Path) (newId : string)
    (s : State) : State :=
  match node_at (root (document s)) element with
  | None => s
  | Some e =>
      let a := attrs e in
      if select_refused s element a then s
      else
        let id := newId in
        let '(label, parentId, s) :=
          if Js.truthy (focusedElementId s) then
            match find_element (default "" (focusedElementId s))
                    (selectedElements s) with
            | Some parentElement =>
                (label parentElement +:+ "-"
                   +:+ Js.of_number (focusedSubNumber s),
                 of_nullable (focusedElementId s),
                 set_focusedSubNumber (focusedSubNumber s + 1) s)
            | None =>
                (Js.of_number (nextNumber s), Null,
                 set_nextNumber (nextNumber s + 1) s)
            end
          else
            (Js.of_number (nextNumber s), Null,
             set_nextNumber (nextNumber s + 1) s) in
        let color := red in
        let padding := 0 in
        let s := set_document
                   (alter_at (set_wdhId (Some id)) element (document s)) s in
        let rect := box a in
        let top := top rect in
        let left := left rect in
        let s := appendOverlay
                   (createFrameOverlay id top left (width rect) (height rect)
                      color padding) s in
        let s := appendOverlay
                   (createNumberBadge id label top left color padding) s in
        let selectedElement :=
          {| id := id; label := label; parentId := parentId;
             selector := getSelector (CSS_escape B) (document s) element;
             tagName := Js.toLowerCase (elTagName a);
             color := color; padding := Some padding;
             rect := {| top := top; left := left;
                        width := width rect; height := height rect |} |} in
        let s := set_selectedElements
                   (selectedElements s ++ [selectedElement]) s in
        saveState B (updatePanel s)
  end.

Definition deselectElement (B : Browser) (i : string) (s : State) : State :=
  let s := unmark i s in
  let s := removeOverlay (is_frame_of i) s in
  let s := removeOverlay (is_badge_of i) s in
  let s := set_selectedElements
             (List.filter (fun e => negb (bool_decide (id e = i)))
                (selectedElements s)) s in
  saveState B (updatePanel s).

Definition set_frame_border (hex : string) (n : OverlayNode) : OverlayNode :=
  match n with
  | FrameNode i st =>
      FrameNode i
        {| frameTop := frameTop st; frameLeft := frameLeft st;
           frameWidth := frameWidth st; frameHeight := frameHeight st;
           frameBorderWidth := 3; frameBorderColor := hex;
           frameBoxSizing := frameBoxSizing st |}
  | _ => n
  end.

Definition set_badge_color (hex : string) (n : OverlayNode) : OverlayNode :=
  match n with
  | BadgeNode i t st =>
      BadgeNode i t
        {| badgeTop := badgeTop st; badgeLeft := badgeLeft st;
           badgeWidth := badgeWidth st; badgeHeight := badgeHeight st;
           badgeColor := hex;
           badgeBorderWidth := 3; badgeBorderColor := hex;
           badgeBoxSizing := badgeBoxSizing st |}
  | _ => n
  end.

Definition changeElementColor (B : Browser) (i : string) (c : FrameColor)
    (s : State) : State :=
  match find_element i (selectedElements s) with
  | None => s
  | Some _ =>
      let s := set_selectedElements
                 (alter_element i (with_color c) (selectedElements s)) s in
      let hex := getColorHex c in
      let s := alterOverlay (is_frame_of i) (set_frame_border hex) s in
      let s := alterOverlay (is_badge_of i) (set_badge_color hex) s in
      saveState B (updatePanel s)
  end.

Definition set_frame_box (t l w h : Z) (n : OverlayNode) : OverlayNode :=
  match n with
  | FrameNode i st =>
      FrameNode i
        {| frameTop := t; frameLeft := l; frameWidth := w; frameHeight := h;
           frameBorderWidth := frameBorderWidth st;
           frameBorderColor := frameBorderColor st;
           frameBoxSizing := frameBoxSizing st |}
  | _ => n
  end.

(** Assignments to [top], [left], [width] and the text of a badge; [None]
    leaves the property as it is. *)
Definition set_badge_box (text : option string) (t : option Z) (l w : Z)
    (n : OverlayNode) : OverlayNode :=
  match n with
  | BadgeNode i old st =>
      BadgeNode i (default old text)
        {| badgeTop := default (badgeTop st) t; badgeLeft := l;
           badgeWidth := w; badgeHeight := badgeHeight st;
           badgeColor := badgeColor st;
           badgeBorderWidth := badgeBorderWidth st;
           badgeBorderColor := badgeBorderColor st;
           badgeBoxSizing := badgeBoxSizing st |}
  | _ => n
  end.

Definition updateLabel (B : Browser) (i : string) (newLabel : string)
    (s : State) : State :=
  match find_element i (selectedElements s) with
  | None => s
  | Some element =>
      let s := set_selectedElements
                 (alter_element i (with_label newLabel) (selectedElements s))
                 s in
      let badgeWidth := calculateBadgeWidth newLabel in
      let padding := or0 (padding element) in
      let borderWidth := 3 in
      let s := alterOverlay (is_badge_of i)
                 (set_badge_box (Some newLabel) None
                    (left (rect element) - padding - borderWidth
                     - badgeWidth / 2)
                    badgeWidth) s in
      saveState B s
  end.

Definition updatePadding (B : Browser) (i : string) (padding : Z)
    (s : State) : State :=
  match find_element i (selectedElements s) with
  | None => s
  | Some el =>
      let s := set_selectedElements
                 (alter_element i (with_padding padding) (selectedElements s))
                 s in
      let borderWidth := 3 in
      let frameTop := top (rect el) - borderWidth - padding in
      let frameLeft := left (rect el) - borderWidth - padding in
      let s := alterOverlay (is_frame_of i)
                 (set_frame_box frameTop frameLeft
                    (width (rect el) + borderWidth * 2 + padding * 2)
                    (height (rect el) + borderWidth * 2 + padding * 2)) s in
      let badgeWidth := calculateBadgeWidth (label el) in
      let badgeHeight := 28 in
      let s := alterOverlay (is_badge_of i)
                 (set_badge_box None
                    (Some (top (rect el) - padding - borderWidth
                           - badgeHeight / 2))
                    (left (rect el) - padding - borderWidth - badgeWidth / 2)
                    badgeWidth) s in
      saveState B s
  end.

(** One turn of the [forEach] of [updateOverlayPositions]. *)
Definition repositionOne (s : State) (el : SelectedElement)
  : State * SelectedElement :=
  match query_marker (document s) (id el), overlayContainer s with
  | Some element, Some nodes =>
      if existsb (is_frame_of (id el)) nodes
         && existsb (is_badge_of (id el)) nodes then
        match node_at (root (document s)) element with
        | None => (s, el)
        | Some e =>
            let rect := box (attrs e) in
            let top := top rect in
            let left := left rect in
            let borderWidth := 3 in
            let padding := or0 (padding el) in
            let frameTop := top - borderWidth - padding in
            let frameLeft := left - borderWidth - padding in
            let s := alterOverlay (is_frame_of (id el))
                       (set_frame_box frameTop frameLeft
                          (width rect + padding * 2)
                          (height rect + padding * 2)) s in
            let badgeWidth := calculateBadgeWidth (label el) in
            let badgeHeight := 28 in
            let s := alterOverlay (is_badge_of (id el))
                       (set_badge_box None
                          (Some (top - padding - borderWidth - badgeHeight / 2))
                          (left - padding - borderWidth - badgeWidth / 2)
                          badgeWidth) s in
            (s, with_rect {| top := top; left := left; width := width rect;
                             height := height rect |} el)
        end
      else (s, el)
  | _, _ => (s, el)
  end.

Definition updateOverlayPositions (s : State) : State :=
  let '(s, els) :=
    fold_left
      (fun '(s, done) el =>
         let '(s, el) := repositionOne s el in (s, done ++ [el]))
      (selectedElements s) (s, []) in
  set_selectedElements els s.

Definition startFocus (B : Browser) (i : string) (s : State) : State :=
  match find_element i (selectedElements s) with
  | None => s
  | Some _ =>
      let s := set_focusedElementId (Some i) s in
      let subElements := children_of i (selectedElements s) in
      let s := set_focusedSubNumber (maxSubNumber subElements + 1) s in
      saveState B (updatePanel s)
  end.

Definition endFocus (B : Browser) (s : State) : State :=
  let s := set_focusedElementId None s in
  let s := set_focusedSubNumber 1 s in
  saveState B (updatePanel s).

(** The body of the two [forEach] loops of [clearAllSelections]: the marker,
    the frame and the badge of one annotation go. *)
Definition dropBindings (s : State) (i : string) : State :=
  removeOverlay (is_badge_of i) (removeOverlay (is_frame_of i) (unmark i s)).

Definition clearAllSelections (B : Browser) (s : State) : State :=
  if Js.truthy (focusedElementId s) then
    let subElements :=
      List.filter
        (fun e => bool_decide (parentId e = of_nullable (focusedElementId s)))
        (selectedElements s) in
    let s := fold_left dropBindings (map id subElements) s in
    let s := set_selectedElements
               (List.filter
                  (fun e => negb (bool_decide
                                    (parentId e
                                     = of_nullable (focusedElementId s))))
                  (selectedElements s)) s in
    let s := set_focusedSubNumber 1 s in
    saveState B (updatePanel s)
  else
    let ids := map id (selectedElements s) in
    let s := fold_left dropBindings ids s in
    let s := set_selectedElements [] s in
    let s := set_nextNumber 1 s in
    let s := set_focusedElementId None s in
    let s := set_focusedSubNumber 1 s in
    clearState (updatePanel s).

(** ** Restore *)

(** How a call that may throw ends. *)
Inductive Outcome := Done (s : State) | Thrown (s : State).

Definition outcome_state (o : Outcome) : State :=
  match o with Done s | Thrown s => s end.

Definition warn_not_found (sel : string) : Event :=
  Warn ("WDH: Element not found for selector: " +:+ sel).
Definition warn_already_used (sel : string) : Event :=
  Warn ("WDH: Element already used, skipping: " +:+ sel).
Definition warn_different_id (sel : string) : Event :=
  Warn ("WDH: Element already has different ID, skipping: " +:+ sel).

(** The callback of the [forEach] of [restoreElements]; [None] when
    [querySelector] throws.  An answer of the selector engine that names no
    element of the tree counts as [null]. *)
Definition restoreOne (B : Browser) (savedEl : SelectedElement)
    (usedElements : gset Path) (s : State) : option (gset Path * State) :=
  match querySelector B (document s) (selector savedEl) with
  | SyntaxError => None
  | NotFound => Some (usedElements, emit (warn_not_found (selector savedEl)) s)
  | Found element =>
      match node_at (root (document s)) element with
      | None => Some (usedElements, emit (warn_not_found (selector savedEl)) s)
      | Some e =>
          if bool_decide (element ∈ usedElements) then
            Some (usedElements, emit (warn_already_used (selector savedEl)) s)
          else if Js.truthy (wdhId (attrs e))
                  && negb (bool_decide (wdhId (attrs e) = Some (id savedEl)))
          then
            Some (usedElements, emit (warn_different_id (selector savedEl)) s)
          else
            let usedElements := {[element]} ∪ usedElements in
            let s := set_document
                       (alter_at (set_wdhId (Some (id savedEl))) element
                          (document s)) s in
            let rect := box (attrs e) in
            let top := top rect in
            let left := left rect in
            let padding := or0 (padding savedEl) in
            let s := appendOverlay
                       (createFrameOverlay (id savedEl) top left (width rect)
                          (height rect) (color savedEl) padding) s in
            let s := appendOverlay
                       (createNumberBadge (id savedEl) (label savedEl) top left
                          (color savedEl) padding) s in
            let s := set_selectedElements
                       (selectedElements s
                        ++ [with_rect {| top := top; left := left;
                                         width := width rect;
                                         height := height rect |}
                              (with_padding padding savedEl)]) s in
            Some (usedElements, s)
      end
  end.

Fixpoint restoreLoop (B : Browser) (savedElements : list SelectedElement)
    (usedElements : gset Path) (s : State) : Outcome :=
  match savedElements with
  | [] => Done s
  | savedEl :: rest =>
      match restoreOne B savedEl usedElements s with
      | None => Thrown s
      | Some (usedElements, s) => restoreLoop B rest usedElements s
      end
  end.

Definition restoreElements (B : Browser) (savedElements : list SelectedElement)
    (s : State) : Outcome :=
  restoreLoop B savedElements ∅ s.

(** ** Edit mode *)

(** The overlay container and the panel as elements of the page: a [div]
    with the class of the node, without id or marker.  Their descendants
    (the frames and the badges, the markup of the panel) carry no marker
    and are refused by [selectElement]; they are kept in [overlayContainer]
    and [panel] and left out of the tree. *)
Definition script_node (cls : string) (r : Rect) : Element :=
  Elem {| elTagName := "DIV"; elId := ""; classAttr := cls;
          classNameIsString := true; wdhId := None; box := r |} [].

(** The counters [startEditing] derives from the restored annotations.  An
    annotation restored from an entry without [parentId] passes neither
    filter. *)
Definition recount (s : State) : State :=
  let parentElements :=
    List.filter (fun e => bool_decide (parentId e = Null))
      (selectedElements s) in
  let s := set_nextNumber (maxNumber parentElements + 1) s in
  if Js.truthy (focusedElementId s) then
    let subElements :=
      List.filter
        (fun e => bool_decide (parentId e = of_nullable (focusedElementId s)))
        (selectedElements s) in
    set_focusedSubNumber (maxSubNumber subElements + 1) s
  else set_focusedSubNumber 1 s.

Definition startEditing (B : Browser) (s : State) : Outcome :=
  if isEditing s then Done s
  else
    let s := set_isEditing true s in
    let s := set_overlayContainer (Some []) s in
    let s := set_document
               (appendToBody
                  (script_node "wdh-overlay-container" (containerBox B))
                  (document s)) s in
    let '(savedState, s) := loadState B s in
    let restored :=
      match savedState with
      | Some saved =>
          if 0 <? Z.of_nat (List.length (Saved.elements saved)) then
            let s := set_focusedElementId (Saved.focusedElementId saved) s in
            match restoreElements B (Saved.elements saved) s with
            | Done s => Done (recount s)
            | Thrown s => Thrown s
            end
          else Done s
      | None => Done s
      end in
    match restored with
    | Done s =>
        let s := set_panel (Some createPanel) s in
        let s := set_document
                   (appendToBody (script_node "wdh-panel" (panelBox B))
                      (document s)) s in
        Done (updatePanel s)
    | Thrown s => Thrown s
    end.

Definition stopEditing (s : State) : State :=
  if negb (isEditing s) then s
  else
    let s := set_isEditing false s in
    let s := if Js.truthy (focusedElementId s)
             then set_focusedSubNumber 1 (set_focusedElementId None s)
             else s in
    let s := match panel s with
             | Some _ =>
                 set_panel None
                   (set_document (removeFromBody "wdh-panel" (document s)) s)
             | None => s
             end in
    let s := fold_left (fun s i => unmark i s)
               (map id (selectedElements s)) s in
    let s := set_selectedElements [] s in
    match overlayContainer s with
    | Some _ =>
        set_overlayContainer None
          (set_document
             (removeFromBody "wdh-overlay-container" (document s)) s)
    | None => s
    end.

(** The state of a freshly loaded content script on a page. *)
Definition initial (d : Document) (url : string) (storage : gmap string string)
    (throws : bool) : State :=
  {| isEditing := false; selectedElements := []; nextNumber := 1;
     focusedElementId := None; focusedSubNumber := 1; panel := None;
     overlayContainer := None; document := d; href := url;
     localStorage := storage; storageThrows := throws; log := [] |}.

(** ** The operations of the store as one transition function *)

Inductive Op :=
| OpSelect (element : Path) (newId : string)
| OpDeselect (i : string)
| OpUpdateLabel (i : string) (text : string)
| OpChangeColor (i : string) (c : FrameColor)
| OpUpdatePadding (i : string) (px : Z)
| OpStartFocus (i : string)
| OpEndFocus
| OpClear.

Definition step (B : Browser) (s : State) (o : Op) : State :=
  match o with
  | OpSelect element newId => selectElement B element newId s
  | OpDeselect i => deselectElement B i s
  | OpUpdateLabel i text => updateLabel B i text s
  | OpChangeColor i c => changeElementColor B i c s
  | OpUpdatePadding i px => updatePadding B i px s
  | OpStartFocus i => startFocus B i s
  | OpEndFocus => endFocus B s
  | OpClear => clearAllSelections B s
  end.

Definition run (B : Browser) (s : State) (ops : list Op) : State :=
  fold_left (step B) ops s.

(** The in-place updates: the id they look up and the assignment they make
    to the annotation found. *)
Definition update_of (o : Op)
  : option (string * (SelectedElement -> SelectedElement)) :=
  match o with
  | OpUpdateLabel i text => Some (i, with_label text)
  | OpChangeColor i c => Some (i, with_color c)
  | OpUpdatePadding i px => Some (i, with_padding px)
  | _ => None
  end.

(** The events an operation adds to the log. *)
Definition effects (B : Browser) (s : State) (o : Op) : list Event :=
  drop (List.length (log s)) (log (step B s o)).

(** The operation gets past its early returns. *)
Definition takes_effect (s : State) (o : Op) : bool :=
  match o with
  | OpSelect element _ =>
      match node_at (root (document s)) element with
      | Some e => negb (select_refused s element (attrs e))
      | None => false
      end
  | OpUpdateLabel i _ | OpChangeColor i _ | OpUpdatePadding i _
  | OpStartFocus i =>
      bool_decide (is_Some (find_element i (selectedElements s)))
  | OpDeselect _ | OpEndFocus | OpClear => true
  end.

(** ** Properties of the store *)

Definition ids (l : list SelectedElement) : list string := map id l.

(** Every [parentId] names a top-level annotation of the store. *)
Definition parents_resolve (l : list SelectedElement) : Prop :=
  ∀ a p, a ∈ l → parentId a = Parent p →
         ∃ b, b ∈ l ∧ id b = p ∧ parentId b = Null.

Definition store_ok (l : list SelectedElement) : Prop :=
  NoDup (ids l) ∧ parents_resolve l.

(** What the panel and [generateId] guarantee about the operations they
    issue: a generated id is not the id of a stored annotation, the focus
    button exists only on top-level annotations, and (the restriction under
    which parents stay resolvable) an annotation that is removed has no
    sub-annotation left in the store. *)
Definition admissible (s : State) (o : Op) : bool :=
  match o with
  | OpSelect _ newId => bool_decide (newId ∉ ids (selectedElements s))
  | OpDeselect i =>
      bool_decide (children_of i (selectedElements s) = [])
  | OpStartFocus i =>
      match find_element i (selectedElements s) with
      | Some e => bool_decide (parentId e = Null)
      | None => true
      end
  | _ => true
  end.

Fixpoint admissible_run (B : Browser) (s : State) (ops : list Op) : bool :=
  match ops with
  | [] => true
  | o :: rest => admissible s o && admissible_run B (step B s o) rest
  end.

(** ** A page and a browser to run the script on *)

Module Demo.

Definition el (tag i cls : string) (marker : option string)
    (t l w h : Z) (cs : list Element) : Element :=
  Elem {| elTagName := tag; elId := i; classAttr := cls;
          classNameIsString := true; wdhId := marker;
          box := {| top := t; left := l; width := w; height := h |} |} cs.

(** <html><head/><body>
      <div class="card a"><span/><span class="3x"/></div>
      <div class="card b"/>
      <p id="main"/>
    </body></html> *)
Definition page : Document :=
  {| root :=
       el "HTML" "" "" None 0 0 800 600
         [ el "HEAD" "" "" None 0 0 0 0 [];
           el "BODY" "" "" None 0 0 800 600
             [ el "DIV" "" "card a" None 10 20 100 50
                 [ el "SPAN" "" "" None 12 22 30 10 [];
                   el "SPAN" "" "3x" None 12 60 30 10 [] ];
               el "DIV" "" "card b" None 70 20 100 50 [];
               el "P" "main" "" None 130 20 200 40 [] ] ];
     body := Some [1%nat] |}.

Definition card_a : Path := [0; 1]%nat.
Definition span_1 : Path := [0; 0; 1]%nat.
Definition span_2 : Path := [1; 0; 1]%nat.
Definition card_b : Path := [1; 1]%nat.
Definition main : Path := [2; 1]%nat.

(** A selector engine that knows the selectors of this page. *)
Definition resolve (d : Document) (sel : string) : QueryResult :=
  if String.eqb sel "" then SyntaxError
  else if String.eqb sel "div.card.a:nth-of-type(1)" then Found card_a
  else if String.eqb sel "div.card.b:nth-of-type(2)" then Found card_b
  else if String.eqb sel "div.card" then Found card_a
  else if String.eqb sel "#main" then Found main
  else NotFound.

Definition annotation (i l : string) (p : ParentId) (sel tag : string)
    (pad : option Z) (r : Rect) : SelectedElement :=
  {| id := i; label := l; parentId := p; selector := sel; tagName := tag;
     color := red; padding := pad; rect := r |}.

Definition zero_rect : Rect := {| top := 0; left := 0; width := 0; height := 0 |}.

(** Entries of a snapshot of this page: an annotation of the first card, a
    sub-annotation of it on the second card, an entry whose selector matches
    nothing, an entry whose selector leads to the first card again, and an
    annotation of the paragraph. *)
Definition saved_a : SelectedElement :=
  annotation "wdh-1-a" "2" Null "div.card.a:nth-of-type(1)" "div" (Some 5)
    zero_rect.
Definition saved_b : SelectedElement :=
  annotation "wdh-1-b" "2-3" (Parent "wdh-1-a") "div.card.b:nth-of-type(2)"
    "div" None zero_rect.
Definition saved_gone : SelectedElement :=
  annotation "wdh-1-c" "50" Null "div.gone" "div" None zero_rect.
Definition saved_clash : SelectedElement :=
  annotation "wdh-1-d" "77" Null "div.card" "div" None zero_rect.
Definition saved_main : SelectedElement :=
  annotation "wdh-1-e" "9" Null "#main" "p" None zero_rect.

Definition saved_five : list SelectedElement :=
  [saved_a; saved_b; saved_gone; saved_clash; saved_main].

(** An entry written before annotations had a [parentId], on the second
    card. *)
Definition saved_old : SelectedElement :=
  annotation "wdh-0-x" "30" Undefined "div.card.b:nth-of-type(2)" "div" None
    zero_rect.

(** Stored texts of this page and what [JSON.parse] makes of them. *)
Definition parse (data : string) : option JsonValue :=
  if String.eqb data "null" then Some JNull
  else if String.eqb data "{}" then
    Some (JObject {| Parsed.elements := None; Parsed.nextNumber := None;
                     Parsed.focusedElementId := None;
                     Parsed.focusedSubNumber := None |})
  else if String.eqb data "minus" then
    Some (JObject
            {| Parsed.elements :=
                 Some [annotation "wdh-1-a" "-5" Null "#main" "p" None
                         zero_rect];
               Parsed.nextNumber := Some 7;
               Parsed.focusedElementId := None;
               Parsed.focusedSubNumber := Some 4 |})
  else if String.eqb data "old" then
    Some (JObject
            {| Parsed.elements := Some [saved_a; saved_old; saved_main];
               Parsed.nextNumber := Some 31;
               Parsed.focusedElementId := None;
               Parsed.focusedSubNumber := None |})
  else if String.eqb data "five" then
    Some (JObject
            {| Parsed.elements := Some saved_five;
               Parsed.nextNumber := Some 40;
               Parsed.focusedElementId := Some "wdh-1-a";
               Parsed.focusedSubNumber := Some 40 |})
  else None.

Definition browser : Browser :=
  {| CSS_escape := None; querySelector := resolve;
     JSON_stringify := fun _ => "{}"; JSON_parse := parse;
     containerBox := {| top := -8; left := -8; width := 0; height := 0 |};
     panelBox := {| top := 20; left := 460; width := 320; height := 400 |} |}.

Definition url : string := "https://example.test/page".

Definition fresh : State := initial page url ∅ false.

(** The same page with a text stored under its key. *)
Definition stored (data : string) : State :=
  initial page url {["wdh-state-" +:+ url := data]} false.

(** Edit mode on, nothing selected yet. *)
Definition editing : State := outcome_state (startEditing browser fresh).


(** One annotation on the first card. *)
Definition one : State := selectElement browser card_a "wdh-1-a" editing.

(** Focus on it, and a sub-annotation on its first span. *)
Definition focused : State := startFocus browser "wdh-1-a" one.
Definition with_child : State :=
  selectElement browser span_1 "wdh-1-b" focused.


End Demo.

(** ** Reading the overlays *)

Definition frame_of (i : string) (s : State) : option FrameStyle :=
  match overlayContainer s with
  | Some nodes =>
      match find (is_frame_of i) nodes with
      | Some (FrameNode _ st) => Some st
      | _ => None
      end
  | None => None
  end.

Definition badge_of (i : string) (s : State) : option BadgeStyle :=
  match overlayContainer s with
  | Some nodes =>
      match find (is_badge_of i) nodes with
      | Some (BadgeNode _ _ st) => Some st
      | _ => None
      end
  | None => None
  end.

(** ** The boxes the browser draws

    Frames and badges are absolutely positioned, without margin and without
    padding: [top] and [left] place the outer edge of the border.  Under
    [box-sizing: content-box] the properties [width] and [height] are those
    of the content and the border is drawn around it; under [border-box]
    they include the border. *)
Definition outer_size (sizing : BoxSizing) (declared border : Z) : Z :=
  match sizing with
  | content_box => declared + 2 * border
  | border_box => Z.max declared (2 * border)
  end.

(** The border box of a badge: the rectangle it covers on the page. *)
Definition badge_box (s : BadgeStyle) : Rect :=
  {| top := badgeTop s; left := badgeLeft s;
     width := outer_size (badgeBoxSizing s) (badgeWidth s) (badgeBorderWidth s);
     height :=
       outer_size (badgeBoxSizing s) (badgeHeight s) (badgeBorderWidth s) |}.

(** The border box of a frame. *)
Definition frame_box (s : FrameStyle) : Rect :=
  {| top := frameTop s; left := frameLeft s;
     width := outer_size (frameBoxSizing s) (frameWidth s) (frameBorderWidth s);
     height :=
       outer_size (frameBoxSizing s) (frameHeight s) (frameBorderWidth s) |}.

(** The centre of a rectangle, as (x, y). *)
Definition center (r : Rect) : Z * Z :=
  (left r + width r / 2, top r + height r / 2).

(** The centre of a badge as it is drawn, and the outer corner of a frame:
    the top-left corner of its border.  The width of a badge is even and its
    height is 28, so the halves are exact. *)
Definition badge_center (s : BadgeStyle) : Z * Z := center (badge_box s).

Definition frame_corner (s : FrameStyle) : Z * Z := (frameLeft s, frameTop s).

(** ** Observers

    A helper of the script writes a few fields of the state.  An observer
    that does not look at these fields sees the same value before and after
    the call. *)

Definition ignores_storage {A} (obs : State -> A) : Prop :=
  (forall v s, obs (set_localStorage v s) = obs s)
  /\ (forall e s, obs (emit e s) = obs s).

Definition ignores_panel {A} (obs : State -> A) : Prop :=
  (forall v s, obs (set_panel v s) = obs s)
  /\ (forall e s, obs (emit e s) = obs s).

Definition ignores_page {A} (obs : State -> A) : Prop :=
  (forall v s, obs (set_document v s) = obs s)
  /\ (forall v s, obs (set_overlayContainer v s) = obs s).

(** ** Labels and counters, as the specification words them *)

(** The annotation in focus: the parent of the annotations selected next. *)
Definition focus_parent (s : State) : option SelectedElement :=
  if Js.truthy (focusedElementId s)
  then find_element (default "" (focusedElementId s)) (selectedElements s)
  else None.

(** The place of a character in a list, counted from [i]. *)
Fixpoint place_in (c : ascii) (l : list ascii) (i : Z) : option Z :=
  match l with
  | [] => None
  | d :: r => if Ascii.eqb c d then Some i else place_in c r (i + 1)
  end.

(** The decimal digit a character writes: its place among the ten
    digits. *)
Definition decimal_digit (c : ascii) : option Z :=
  place_in c (Js.chars "0123456789") 0.

(** The number a text of decimal digits writes, the text given last digit
    first; [None] when a character of the text is not a digit. *)
Fixpoint number_written (backwards : list ascii) : option Z :=
  match backwards with
  | [] => Some 0
  | c :: r =>
      match decimal_digit c, number_written r with
      | Some d, Some n => Some (d + 10 * n)
      | _, _ => None
      end
  end.

(** The characters of a text up to its first [-]; [None] when the text has
    no [-]. *)
Fixpoint up_to_dash (l : list ascii) : option (list ascii) :=
  match l with
  | [] => None
  | c :: r =>
      if Ascii.eqb c "-" then Some []
      else match up_to_dash r with
           | Some t => Some (c :: t)
           | None => None
           end
  end.

(** The sub-index a label ends with: [n] for a label that ends in [-n],
    that is, whose text after the last [-] is not empty and writes the
    number [n] in decimal digits; 0 for any other label. *)
Definition sub_index (l : string) : Z :=
  match up_to_dash (rev (Js.chars l)) with
  | Some (c :: r) => default 0 (number_written (c :: r))
  | _ => 0
  end.

(** The largest member of a list of numbers, 0 for the empty list and for a
    list of negative numbers. *)
Definition max_list (l : list Z) : Z := foldr Z.max 0 l.

(** The annotation in focus, when it is in the store, is top-level. *)
Definition focus_top_level (s : State) : Prop :=
  forall f e, focusedElementId s = Some f ->
              find_element f (selectedElements s) = Some e ->
              parentId e = Null.

(** What the properties of the store look at: the id and the parent of each
    annotation, in order. *)
Definition skeleton (l : list SelectedElement) : list (string * ParentId) :=
  map (fun e => (id e, parentId e)) l.

(** The scenario of the open question of the specification: an annotation, a
    sub-annotation of it, and the removal of the first. *)
Definition orphaning_ops : list Op :=
  [ OpSelect Demo.card_a "wdh-1-a";
    OpStartFocus "wdh-1-a";
    OpSelect Demo.span_1 "wdh-1-b";
    OpDeselect "wdh-1-a" ].

(** ** The selector, as the specification words it *)

(** The element and its ancestors, innermost first, up to but excluding the
    body (up to the root when the body is not among them). *)
Fixpoint chain (d : Document) (p : Path) : list Path :=
  if bool_decide (body d = Some p) then []
  else match p with
       | [] => [[]]
       | _ :: q => p :: chain d q
       end.

Definition segment_at (esc : option (string -> string)) (d : Document)
    (p : Path) : string :=
  match node_at (root d) p with
  | Some e => segment esc (root d) (attrs e) p
  | None => ""
  end.

(** The children of the parent of an element. *)
Definition siblings (r : Element) (p : Path) : list Element :=
  match p with
  | [] => []
  | _ :: q =>
      match node_at r q with
      | Some parent => children parent
      | None => []
      end
  end.

Definition same_tag_count (tag : string) (cs : list Element) : Z :=
  Z.of_nat (List.length
              (List.filter (fun c => String.eqb (elTagName (attrs c)) tag) cs)).

(** The rank of child number [self] among the children with its tag. *)
Definition rank_of (tag : string) (self : nat) (cs : list Element) : Z :=
  same_tag_count tag (take (S self) cs).

(** The class names a segment lists. *)
Definition listed_classes (a : Attrs) : list string :=
  if negb (String.eqb (classAttr a) "") && classNameIsString a then
    take 2 (List.filter
              (fun c => negb (String.eqb c "") && negb (Js.startsWith "wdh-" c))
              (Js.split_space (classAttr a)))
  else [].

Definition classes_text (esc : option (string -> string)) (cls : list string)
  : string :=
  match cls with
  | [] => ""
  | _ => "." +:+ Js.join "." (map (escapeClassName esc) cls)
  end.

(** The condition the specification gives for [:nth-of-type]: another
    sibling has the tag of the element, and the tag with the listed classes
    does not single the element out among its siblings. *)
Definition matches_tag_classes (tag : string) (cls : list string)
    (c : Element) : bool :=
  String.eqb (elTagName (attrs c)) tag
  && forallb (fun k => bool_decide (k ∈ class_tokens (attrs c))) cls.

Definition spec_wants_nth (r : Element) (a : Attrs) (p : Path) : bool :=
  (1 <? same_tag_count (elTagName a) (siblings r p))
  && negb (Z.of_nat
             (List.length
                (List.filter
                   (matches_tag_classes (elTagName a) (listed_classes a))
                   (siblings r p))) =? 1).

(** ** Restore, entry by entry *)


(** The three reasons for which an entry of the snapshot is skipped. *)
Inductive skip_reason (B : Browser) (savedEl : SelectedElement)
    (usedElements : gset Path) (s : State) : Prop :=
| unresolved :
    querySelector B (document s) (selector savedEl) = NotFound ->
    skip_reason B savedEl usedElements s
| already_bound element :
    querySelector B (document s) (selector savedEl) = Found element ->
    element ∈ usedElements ->
    skip_reason B savedEl usedElements s
| other_marker element e marker :
    querySelector B (document s) (selector savedEl) = Found element ->
    node_at (root (document s)) element = Some e ->
    wdhId (attrs e) = Some marker ->
    marker <> "" -> marker <> id savedEl ->
    skip_reason B savedEl usedElements s.



(** ** The counters after a restore, as the specification words them *)

(** The integers the labels parse to; a label that does not parse is left
    out. *)
Definition int_parses (l : list SelectedElement) : list Z :=
  omap (fun e => Js.parseInt (label e)) l.

Definition top_level (l : list SelectedElement) : list SelectedElement :=
  List.filter (fun e => bool_decide (parentId e = Null)) l.

(** The numbers read from the label are integers a JavaScript number holds
    exactly. *)
Definition exact_label (l : string) : Prop :=
  (forall n, Js.parseInt l = Some n -> Js.isSafeInteger n = true)
  /\ Js.isSafeInteger (sub_index l) = true.

(** One plus the largest parse, one when no label parses. *)
Definition claimed_nextNumber (l : list SelectedElement) : Z :=
  match int_parses (top_level l) with
  | [] => 1
  | x :: rest => 1 + foldr Z.max x rest
  end.

(** Sequences of [selectElement] and [deselectElement] alone, every
    generated id new. *)
Definition select_or_deselect (o : Op) : bool :=
  match o with
  | OpSelect _ _ | OpDeselect _ => true
  | _ => false
  end.

Fixpoint fresh_ids (B : Browser) (s : State) (ops : list Op) : bool :=
  match ops with
  | [] => true
  | o :: rest =>
      match o with
      | OpSelect _ newId => bool_decide (newId ∉ ids (selectedElements s))
      | _ => true
      end && fresh_ids B (step B s o) rest
  end.

(** The state an operation hands to its closing calls: the log, the panel
    and the storage are still those of the start. *)
Definition untouched_ui (s s1 : State) : Prop :=
  log s1 = log s /\ panel s1 = panel s /\ storageThrows s1 = storageThrows s
  /\ href s1 = href s.

(** * The rest of the content script

    The callers of the store (the handlers of the page, of the panel and of
    the messages of the background page), and what is needed to state how
    the store, the overlays, the page and the storage stay in step. *)

(** ** The snapshot, written and read back *)

(** The object [JSON.parse] returns for the text [JSON.stringify] made of a
    snapshot: the four properties are present, [focusedElementId] is [null]
    when it was. *)
Definition as_parsed (st : Saved.t) : Parsed.t :=
  {| Parsed.elements := Some (Saved.elements st);
     Parsed.nextNumber := Some (Saved.nextNumber st);
     Parsed.focusedElementId := Saved.focusedElementId st;
     Parsed.focusedSubNumber := Some (Saved.focusedSubNumber st) |}.

(** What the [||] defaults of [loadState] make of a snapshot. *)
Definition normalised (st : Saved.t) : Saved.t :=
  {| Saved.elements := Saved.elements st;
     Saved.nextNumber := or1 (Some (Saved.nextNumber st));
     Saved.focusedElementId :=
       if Js.truthy (Saved.focusedElementId st)
       then Saved.focusedElementId st else None;
     Saved.focusedSubNumber := or1 (Some (Saved.focusedSubNumber st)) |}.

(** The same session over another storage. *)
Definition with_storage (m : gmap string string) (throws : bool) (s : State)
  : State :=
  {| isEditing := isEditing s; selectedElements := selectedElements s;
     nextNumber := nextNumber s; focusedElementId := focusedElementId s;
     focusedSubNumber := focusedSubNumber s; panel := panel s;
     overlayContainer := overlayContainer s; document := document s;
     href := href s; localStorage := m;
     storageThrows := throws; log := log s |}.

(** What a session holds outside the storage: the variables of the script,
    the panel, the overlays and the page. *)
Definition in_memory (s : State)
  : bool * list SelectedElement * Z * option string * Z * option PanelView
    * option (list OverlayNode) * Document :=
  (isEditing s, selectedElements s, nextNumber s, focusedElementId s,
   focusedSubNumber s, panel s, overlayContainer s, document s).


(** ** The page, read from the root down *)

(** The element a list of child indices leads to, outermost first. *)
Fixpoint node_down (e : Element) (down : list nat) : option Element :=
  match down with
  | [] => Some e
  | i :: rest =>
      match children e !! i with
      | Some c => node_down c rest
      | None => None
      end
  end.

(** The loop of [find_marked] over the children of an element. *)
Fixpoint scan_marked (i : string) (l : list Element) (k : nat) (p : Path)
  : option Path :=
  match l with
  | [] => None
  | c :: r =>
      match find_marked i c (k :: p) with
      | Some q => Some q
      | None => scan_marked i r (S k) p
      end
  end.

(** Induction on the tree of elements. *)
Fixpoint Element_induction (P : Element -> Prop)
    (node_case : forall a cs, Forall P cs -> P (Elem a cs)) (e : Element)
  : P e :=
  match e with
  | Elem a cs =>
      node_case a cs
        ((fix go (l : list Element) : Forall P l :=
            match l with
            | [] => List.Forall_nil P
            | c :: r =>
                @List.Forall_cons _ P c r (Element_induction P node_case c)
                  (go r)
            end) cs)
  end.

(** The page without the markers of the script. *)
Fixpoint unmarked (e : Element) : Element :=
  match e with
  | Elem a cs => Elem (set_wdhId None a) (map unmarked cs)
  end.

Definition unmarked_page (d : Document) : Document :=
  {| root := unmarked (root d); body := body d |}.

(** No element of the tree carries the marker [i]. *)
Definition marker_free (i : string) (e : Element) : Prop :=
  forall down e', node_down e down = Some e' -> wdhId (attrs e') <> Some i.

(** ** The overlays against the store *)

(** What an overlay shows of its annotation: a frame the id and the colour
    of its border, a badge the id, the text, the width and the colour. *)
Inductive OverlayView :=
| FrameView (i hex : string)
| BadgeView (i text : string) (w : Z) (hex : string).

Definition view_of (n : OverlayNode) : OverlayView :=
  match n with
  | FrameNode i st => FrameView i (frameBorderColor st)
  | BadgeNode i text st => BadgeView i text (badgeWidth st) (badgeColor st)
  end.

Definition frame_view (e : SelectedElement) : OverlayView :=
  FrameView (id e) (getColorHex (color e)).

Definition badge_view (e : SelectedElement) : OverlayView :=
  BadgeView (id e) (label e) (calculateBadgeWidth (label e))
    (getColorHex (color e)).

(** The overlays of a store: for each annotation, in the order of the
    store, its frame and then its badge. *)
Definition expected_views (l : list SelectedElement) : list OverlayView :=
  flat_map (fun e => [frame_view e; badge_view e]) l.

(** The overlay container holds the overlays of the store and nothing else,
    and no two annotations share an id. *)
Definition overlays_mirror (s : State) : Prop :=
  NoDup (ids (selectedElements s))
  /\ exists nodes,
      overlayContainer s = Some nodes
      /\ map view_of nodes = expected_views (selectedElements s).

(** ** Restore of a whole snapshot *)

(** The pages that differ from [d] in markers only. *)
Inductive remarked (d : Document) : Document -> Prop :=
| remarked_same : remarked d d
| remarked_step d' v p :
    remarked d d' -> remarked d (alter_at (set_wdhId v) p d').

(** The bounding box of an element of the page. *)
Definition box_at (d : Document) (p : Path) : Rect :=
  match node_at (root d) p with
  | Some e => box (attrs e)
  | None => {| top := 0; left := 0; width := 0; height := 0 |}
  end.

(** The annotation [restoreElements] stores for an entry of the snapshot
    that it binds to an element with the box [r]. *)
Definition restored (r : Rect) (savedEl : SelectedElement) : SelectedElement :=
  with_rect {| top := top r; left := left r; width := width r;
               height := height r |}
    (with_padding (or0 (padding savedEl)) savedEl).

(** The marker of an element of the page. *)
Definition marker_at (d : Document) (p : Path) : option string :=
  match node_at (root d) p with
  | Some e => wdhId (attrs e)
  | None => None
  end.

(** ** The handlers

    The callers of the store: the listeners [startEditing] puts on the
    document and the window, the two listeners of the panel, and the
    listener for the messages of the background page.  A session is the
    state of the script together with whether the listeners of the document
    and the window are installed. *)

Record Session := { state : State; listening : bool }.










(** The two kinds of input field of the panel. *)
Inductive InputField := LabelField | PaddingField | OtherField.

(** The [input] listener of the panel; the padding is
    [parseInt(target.value, 10) || 0]. *)
Definition panelInput (B : Browser) (field : InputField)
    (dataId : option string) (value : string) (ss : Session) : Session :=
  let s := state ss in
  let keep (s : State) := {| state := s; listening := listening ss |} in
  match field with
  | LabelField =>
      if Js.truthy dataId then keep (updateLabel B (default "" dataId) value s)
      else ss
  | PaddingField =>
      if Js.truthy dataId then
        let padding :=
          match Js.parseInt value with
          | Some n => if n =? 0 then 0 else n
          | None => 0
          end in
        keep (updatePadding B (default "" dataId) padding s)
      else ss
  | OtherField => ss
  end.




(** An optional node is there. *)
Definition mounted {A} (o : option A) : bool :=
  match o with Some _ => true | None => false end.

(** What holds of the state of the script while edit mode is on. *)
Definition editing_ok (s : State) : Prop :=
  isEditing s = true /\ mounted (overlayContainer s) = true
  /\ focusedElementId s <> Some ""
  /\ 1 <= nextNumber s /\ 1 <= focusedSubNumber s.


(** ** Labels handed out by [selectElement] *)

Definition is_select (o : Op) : bool :=
  match o with OpSelect _ _ => true | _ => false end.

(** The numbers [n], [n + 1], ..., [n + k - 1]. *)
Definition numbers_from (n : Z) (k : nat) : list Z :=
  map (fun j => n + Z.of_nat j) (seq 0 k).

(** ** The fallback of [escapeClassName], read back *)

(** The text without the backslashes that escape single characters. *)
Fixpoint unescape_pairs (l : list ascii) : list ascii :=
  match l with
  | [] => []
  | c :: r =>
      if Ascii.eqb c "\" then
        match r with
        | d :: r' => d :: unescape_pairs r'
        | [] => []
        end
      else c :: unescape_pairs r
  end.

(** The class name an escaped text stands for: [\3d ] at the start is the
    digit [d], a backslash elsewhere escapes the character after it. *)
Definition unescape (s : string) : string :=
  Js.of_chars
    match Js.chars s with
    | b :: t :: d :: sp :: r =>
        if Ascii.eqb b "\" && Ascii.eqb t "3" && Js.is_digit d
           && Ascii.eqb sp " "
        then d :: unescape_pairs r
        else unescape_pairs (Js.chars s)
    | l => unescape_pairs l
    end.

(** ** The panel *)

(** The annotations [updatePanel] lists. *)
Definition shown_in_panel (s : State) (e : SelectedElement) : bool :=
  if Js.truthy (focusedElementId s)
  then bool_decide (Some (id e) = focusedElementId s)
       || bool_decide (parentId e = of_nullable (focusedElementId s))
  else bool_decide (parentId e = Null).

Definition panel_items (v : PanelView) : list PanelItem :=
  match panelContent v with
  | ContentList items => items
  | _ => []
  end.

(** ** The region cut out by the export in focus mode *)

Record Region := {
  captureX : Z; captureY : Z; captureWidth : Z; captureHeight : Z }.

(** [captureX], [captureY], [captureWidth] and [captureHeight] of
    [exportImage] and [copyImageToClipboard], from the bounding rectangle of
    the focused element and the padding of its annotation. *)
Definition captureRegion (rect : Rect) (padding : option Z) : Region :=
  let padding := or0 padding in
  let borderWidth := 3 in
  let badgeMargin := 20 in
  {| captureX := left rect - padding - borderWidth - badgeMargin;
     captureY := top rect - padding - borderWidth - badgeMargin;
     captureWidth :=
       width rect + padding * 2 + borderWidth * 2 + badgeMargin * 2;
     captureHeight :=
       height rect + padding * 2 + borderWidth * 2 + badgeMargin * 2 |}.

Definition frame_style (n : OverlayNode) : option FrameStyle :=
  match n with FrameNode _ st => Some st | _ => None end.

Definition badge_style (n : OverlayNode) : option BadgeStyle :=
  match n with BadgeNode _ _ st => Some st | _ => None end.

(** ** What a restore draws *)

(** The frame and the badge [restoreElements] appends for an entry of the
    snapshot that it binds to an element with the box [r]. *)
Definition drawn (p : SelectedElement * Rect) : list OverlayNode :=
  let '(e, r) := p in
  [ createFrameOverlay (id e) (top r) (left r) (width r) (height r) (color e)
      (or0 (padding e));
    createNumberBadge (id e) (label e) (top r) (left r) (color e)
      (or0 (padding e)) ].

Definition restored_pair (p : SelectedElement * Rect) : SelectedElement :=
  restored p.2 p.1.

(** ** The name of the exported file *)

(** [iso.replace(/[:.]/g, '-').slice(0, 19)], with [iso] the value of
    [new Date().toISOString()]. *)
Definition export_timestamp (iso : string) : string :=
  Js.of_chars
    (take 19
       (map (fun c => if Ascii.eqb c ":" || Ascii.eqb c "." then "-"%char
                      else c)
          (Js.chars iso))).

(** The [filename] of [exportImage]: with the label of the focused
    annotation in focus mode, without a label outside it. *)
Definition export_filename (focusedLabel : option string) (iso : string)
  : string :=
  match focusedLabel with
  | Some label =>
      "design-spec-" +:+ label +:+ "-" +:+ export_timestamp iso +:+ ".png"
  | None => "design-spec-" +:+ export_timestamp iso +:+ ".png"
  end.

(** Neither [:] nor [.]. *)
Definition plain_char (c : ascii) : bool :=
  negb (Ascii.eqb c ":" || Ascii.eqb c ".").

(** ** The hover highlight *)

(** [hoveredElement], and the elements of the page that carry the class
    [wdh-hover-highlight]. *)
Record Hover := { hoveredElement : option Path; highlighted : gset Path }.

(** [handleMouseOver] *)
Definition handleMouseOver (s : State) (target : Path) (h : Hover) : Hover :=
  if negb (isEditing s)
     || closest_class "wdh-panel" (root (document s)) target
     || closest_class "wdh-overlay-container" (root (document s)) target
  then h
  else
    {| hoveredElement := Some target;
       highlighted :=
         {[target]} ∪ match hoveredElement h with
                      | Some old => highlighted h ∖ {[old]}
                      | None => highlighted h
                      end |}.

(** [handleMouseOut] *)
Definition handleMouseOut (target : Path) (h : Hover) : Hover :=
  {| hoveredElement :=
       if bool_decide (hoveredElement h = Some target) then None
       else hoveredElement h;
     highlighted := highlighted h ∖ {[target]} |}.

(** What [handleClick] does to the highlight before it calls
    [selectElement]. *)
Definition click_unhighlight (s : State) (target : Path) (h : Hover) : Hover :=
  if negb (isEditing s)
     || closest_class "wdh-panel" (root (document s)) target
     || closest_class "wdh-overlay-container" (root (document s)) target
  then h
  else {| hoveredElement := hoveredElement h;
          highlighted := highlighted h ∖ {[target]} |}.

Inductive MouseEvent :=
| MouseOver (target : Path)
| MouseOut (target : Path)
| MouseClick (target : Path).

(** The three listeners on the highlight; each event comes with the state
    of the script at the time. *)
Definition hover_step (h : Hover) (ev : State * MouseEvent) : Hover :=
  match ev with
  | (s, MouseOver target) => handleMouseOver s target h
  | (_, MouseOut target) => handleMouseOut target h
  | (s, MouseClick target) => click_unhighlight s target h
  end.

Definition no_hover : Hover := {| hoveredElement := None; highlighted := ∅ |}.

(** ** A second browser, whose JSON codec knows one snapshot *)

Module Fixture.

Definition snapshot_text : string := "{snapshot of the two cards}".

Definition two_cards : Saved.t :=
  {| Saved.elements := [Demo.saved_a; Demo.saved_b];
     Saved.nextNumber := 3;
     Saved.focusedElementId := Some "wdh-1-a";
     Saved.focusedSubNumber := 4 |}.

(** A snapshot taken after the body of the page was selected: the selector
    [getSelector] gives for the body is the empty string. *)
Definition body_text : string := "{snapshot with the body}".

Definition saved_body : SelectedElement :=
  Demo.annotation "wdh-1-x" "2" Null "" "body" None Demo.zero_rect.

Definition with_body : Saved.t :=
  {| Saved.elements := [Demo.saved_main; saved_body];
     Saved.nextNumber := 3;
     Saved.focusedElementId := None;
     Saved.focusedSubNumber := 1 |}.

Definition parse (data : string) : option JsonValue :=
  if String.eqb data snapshot_text then Some (JObject (as_parsed two_cards))
  else if String.eqb data body_text then Some (JObject (as_parsed with_body))
  else Demo.parse data.

Definition browser : Browser :=
  {| CSS_escape := None; querySelector := Demo.resolve;
     JSON_stringify := fun _ => snapshot_text; JSON_parse := parse;
     containerBox := containerBox Demo.browser;
     panelBox := panelBox Demo.browser |}.

(** A session that holds the two annotations of [two_cards]. *)
Definition session : State :=
  set_focusedSubNumber 4
    (set_focusedElementId (Some "wdh-1-a")
       (set_nextNumber 3
          (set_selectedElements [Demo.saved_a; Demo.saved_b] Demo.editing))).

(** The storage of a browser that holds the snapshot of another page. *)
Definition other_url : string := "wdh-state-https://example.test/other".

Definition shared : State :=
  with_storage {[other_url := "five"]} false Demo.one.

(** The session [Demo.one] over a storage that throws. *)
Definition failing : State := with_storage ∅ true Demo.one.


(** The elements the entries of [two_cards] and [Demo.saved_main] lead to. *)
Definition target (e : SelectedElement) : Path :=
  if String.eqb (id e) "wdh-1-a" then Demo.card_a
  else if String.eqb (id e) "wdh-1-b" then Demo.card_b
  else Demo.main.

Definition three : list SelectedElement :=
  [Demo.saved_a; Demo.saved_b; Demo.saved_main].

(** The session [Demo.one] after the padding of its annotation was set to
    10 in the panel, and the annotation as the store then holds it. *)
Definition padded : State := updatePadding Demo.browser "wdh-1-a" 10 Demo.one.

Definition padded_a : SelectedElement :=
  {| id := "wdh-1-a"; label := "1"; parentId := Null;
     selector := "div.card.a:nth-of-type(1)"; tagName := "div";
     color := red; padding := Some 10;
     rect := {| top := 10; left := 20; width := 100; height := 50 |} |}.

(** A page of which the snapshot with the body is stored. *)
Definition locked : State :=
  initial Demo.page Demo.url {["wdh-state-" +:+ Demo.url := body_text]} false.

End Fixture.

(** * Proofs *)

(** ** The JavaScript helpers on a few inputs *)

Example of_number_0 : Js.of_number 0 = "0". Proof. reflexivity. Qed.
Example of_number_12 : Js.of_number 12 = "12". Proof. reflexivity. Qed.
Example parseInt_1 : Js.parseInt " 12ab" = Some 12. Proof. reflexivity. Qed.
Example parseInt_2 : Js.parseInt "1-2" = Some 1. Proof. reflexivity. Qed.
Example parseInt_3 : Js.parseInt "A" = None. Proof. reflexivity. Qed.
Example parseInt_4 : Js.parseInt "-7" = Some (-7). Proof. reflexivity. Qed.
Example match_1 : Js.match_dash_digits "1-2" = Some "2". Proof. reflexivity. Qed.
Example match_2 : Js.match_dash_digits "1-2-13" = Some "13". Proof. reflexivity. Qed.
Example match_3 : Js.match_dash_digits "12" = None. Proof. reflexivity. Qed.
Example match_4 : Js.match_dash_digits "1-" = None. Proof. reflexivity. Qed.
Example split_1 : Js.split_space "a  b" = ["a"; ""; "b"]. Proof. reflexivity. Qed.
Example join_1 : Js.join " > " ["a"; "b"; "c"] = "a > b > c". Proof. reflexivity. Qed.
Example slice_1 : Js.slice_last 4 [1;2;3;4;5;6] = [3;4;5;6]. Proof. reflexivity. Qed.
Example slice_2 : Js.slice_last 4 [1;2] = [1;2]. Proof. reflexivity. Qed.
Example lower_1 : Js.toLowerCase "DIV" = "div". Proof. reflexivity. Qed.

(** ** Frame lemmas *)

Section Observers.

Context {A : Type} (obs : State -> A).

Lemma saveState_obs B s : ignores_storage obs -> obs (saveState B s) = obs s.
Proof.
  intros [H1 H2]. unfold saveState.
  destruct (storageThrows s); rewrite ?H2, ?H1; reflexivity.
Qed.

Lemma clearState_obs s : ignores_storage obs -> obs (clearState s) = obs s.
Proof.
  intros [H1 H2]. unfold clearState.
  destruct (storageThrows s); rewrite ?H2, ?H1; reflexivity.
Qed.

Lemma updatePanel_obs s : ignores_panel obs -> obs (updatePanel s) = obs s.
Proof.
  intros [H1 H2]. unfold updatePanel.
  destruct (panel s); rewrite ?H2, ?H1; reflexivity.
Qed.

Lemma unmark_obs i s : ignores_page obs -> obs (unmark i s) = obs s.
Proof.
  intros [H1 _]. unfold unmark.
  destruct (query_marker _ _); rewrite ?H1; reflexivity.
Qed.

Lemma dropBindings_obs s i : ignores_page obs -> obs (dropBindings s i) = obs s.
Proof.
  intros H. unfold dropBindings, removeOverlay.
  rewrite !(proj2 H). apply unmark_obs, H.
Qed.

Lemma fold_dropBindings_obs l s :
  ignores_page obs -> obs (fold_left dropBindings l s) = obs s.
Proof.
  intros H. revert s.
  induction l as [|i l IH]; intros s; [reflexivity |].
  cbn [fold_left]. rewrite IH. apply dropBindings_obs, H.
Qed.

End Observers.

Ltac obs_side := split; intros; reflexivity.

(** Rewrites the observation [f] of a state through the helpers. *)
Ltac frame f :=
  rewrite ?(saveState_obs f), ?(clearState_obs f), ?(updatePanel_obs f),
    ?(unmark_obs f), ?(dropBindings_obs f), ?(fold_dropBindings_obs f)
    by obs_side.

Ltac state_cbn :=
  cbn [isEditing selectedElements nextNumber focusedElementId focusedSubNumber
       panel overlayContainer document href localStorage storageThrows log
       set_isEditing set_selectedElements set_nextNumber set_focusedElementId
       set_focusedSubNumber set_panel set_overlayContainer set_document
       set_localStorage emit appendOverlay alterOverlay removeOverlay
       snapshot Saved.elements Saved.nextNumber Saved.focusedElementId
       Saved.focusedSubNumber] in *.

(** Brings the stored part of the state back to the state the call started
    from. *)
Ltac store_frame :=
  repeat (state_cbn;
          frame selectedElements; frame nextNumber; frame focusedElementId;
          frame focusedSubNumber; frame href; frame storageThrows).

Lemma truthy_Some f : f <> "" -> Js.truthy (Some f) = true.
Proof.
  intros H. cbn. destruct (String.eqb_spec f ""); [contradiction | reflexivity].
Qed.

Lemma truthy_inv o : Js.truthy o = true -> exists f, o = Some f /\ f <> "".
Proof.
  destruct o as [f|]; cbn; [| discriminate].
  destruct (String.eqb_spec f ""); [discriminate |]. eauto.
Qed.

Lemma saveState_localStorage B s :
  localStorage (saveState B s)
  = if storageThrows s then localStorage s
    else <[getStorageKey s := JSON_stringify B (snapshot s)]> (localStorage s).
Proof. unfold saveState. destruct (storageThrows s); reflexivity. Qed.

Lemma saveState_log B s :
  log (saveState B s)
  = log s ++ [if storageThrows s then Warn "WDH: Failed to save state"
              else SetItem (getStorageKey s) (snapshot s)].
Proof. unfold saveState. destruct (storageThrows s); reflexivity. Qed.

Lemma clearState_localStorage s :
  localStorage (clearState s)
  = if storageThrows s then localStorage s
    else delete (getStorageKey s) (localStorage s).
Proof. unfold clearState. destruct (storageThrows s); reflexivity. Qed.

Lemma clearState_log s :
  log (clearState s)
  = log s ++ [if storageThrows s then Warn "WDH: Failed to clear state"
              else RemoveItem (getStorageKey s)].
Proof. unfold clearState. destruct (storageThrows s); reflexivity. Qed.

Lemma updatePanel_log s :
  log (updatePanel s)
  = log s ++ match panel s with
             | Some old => [Render (renderPanel (panelBackBtn old) s)]
             | None => []
             end.
Proof.
  unfold updatePanel. destruct (panel s); [reflexivity |].
  symmetry. apply app_nil_r.
Qed.

Lemma updatePanel_panel s :
  panel (updatePanel s)
  = (fun old => renderPanel (panelBackBtn old) s) <$> panel s.
Proof.
  unfold updatePanel. destruct (panel s) eqn:E; [reflexivity | exact E].
Qed.

(** ** Geometry *)

Lemma calculateBadgeWidth_even label :
  exists k, calculateBadgeWidth label = k * 2.
Proof.
  unfold calculateBadgeWidth.
  destruct (Js.length label <=? 2) eqn:E.
  - exists 14. reflexivity.
  - apply Z.leb_gt in E. exists (Js.length label * 5 + 6). lia.
Qed.

Lemma calculateBadgeWidth_long label :
  2 < Js.length label -> calculateBadgeWidth label = Js.length label * 10 + 12.
Proof.
  intros H. unfold calculateBadgeWidth.
  destruct (Js.length label <=? 2) eqn:E; [apply Z.leb_le in E; lia | lia].
Qed.

(** C6.  The width of a badge is 28 for a label of at most two characters and
    [max(28, length*10 + 12)] for a longer one (28 for "12", 62 for "100-3"),
    and its height is 28.  These are the sizes of its content: the badge has
    a border of 3 pixels of its own and [box-sizing: content-box], so from
    its [top] and [left], which [createNumberBadge] takes half the content
    size away from the outer corner of the frame, it covers [width + 6] by
    34 pixels.  The centre of the badge as drawn is the top-left corner of
    the element moved out by the padding: 3 pixels right of and below the
    outer corner of the frame, not on it.  So it is for the first annotation
    of the demo page, whose badge is centred on (20, 10) and whose frame has
    its outer corner at (17, 7). *)
Theorem C6_badge_geometry :
  (forall label,
      calculateBadgeWidth label
      = if Js.length label <=? 2 then 28
        else Z.max 28 (Js.length label * 10 + 12))
  /\ calculateBadgeWidth "12" = 28
  /\ calculateBadgeWidth "100-3" = 62
  /\ (forall i label t l w h color padding,
      exists bs fs,
        createNumberBadge i label t l color padding = BadgeNode i label bs
        /\ createFrameOverlay i t l w h color padding = FrameNode i fs
        /\ badgeHeight bs = 28
        /\ badgeWidth bs = calculateBadgeWidth label
        /\ badgeWidth bs mod 2 = 0
        /\ badgeBorderWidth bs = 3 /\ badgeBoxSizing bs = content_box
        /\ badge_box bs
           = {| top := t - padding - 3 - 14;
                left := l - padding - 3 - calculateBadgeWidth label / 2;
                width := calculateBadgeWidth label + 6;
                height := 34 |}
        /\ frame_corner fs = (l - padding - 3, t - padding - 3)
        /\ badge_center bs = (l - padding, t - padding)
        /\ badge_center bs <> frame_corner fs)
  /\ rect <$> find_element "wdh-1-a" (selectedElements Demo.one)
     = Some {| top := 10; left := 20; width := 100; height := 50 |}
  /\ badge_center <$> badge_of "wdh-1-a" Demo.one = Some (20, 10)
  /\ frame_corner <$> frame_of "wdh-1-a" Demo.one = Some (17, 7).
Proof.
  split; [reflexivity |]. split; [reflexivity |]. split; [reflexivity |].
  split; [| vm_compute; repeat split; reflexivity].
  intros i label t l w h color padding.
  eexists. eexists. split; [reflexivity |]. split; [reflexivity |].
  unfold badge_center, center, badge_box, frame_corner, outer_size;
    cbn [badgeHeight badgeWidth badgeTop badgeLeft frameTop frameLeft
         badgeBorderWidth badgeBoxSizing top left width height].
  destruct (calculateBadgeWidth_even label) as [k Hk].
  rewrite Hk, Z.mod_mul, Z.div_mul by lia.
  replace (k * 2 + 2 * 3) with ((k + 3) * 2) by lia.
  rewrite Z.div_mul by lia.
  change (28 / 2) with 14. change ((28 + 2 * 3) / 2) with 17.
  unfold borderWidth.
  repeat split; try (f_equal; lia).
  intros H. injection H as H1 H2. lia.
Qed.

(** ** Overlay nodes *)

Lemma find_alter_first_same {A} (p : A -> bool) f (l : list A) :
  (forall x, p (f x) = p x) ->
  find p (alter_first p f l) = f <$> find p l.
Proof.
  intros Hp. induction l as [|x l IH]; [reflexivity |].
  cbn [alter_first find]. destruct (p x) eqn:E.
  - cbn [find]. rewrite Hp, E. reflexivity.
  - cbn [find]. rewrite E. exact IH.
Qed.

Lemma find_alter_first_other {A} (p q : A -> bool) f (l : list A) :
  (forall x, q x = true -> p x = false /\ p (f x) = false) ->
  find p (alter_first q f l) = find p l.
Proof.
  intros Hq. induction l as [|x l IH]; [reflexivity |].
  cbn [alter_first find]. destruct (q x) eqn:E.
  - cbn [find]. destruct (Hq x E) as [-> ->]. reflexivity.
  - cbn [find]. rewrite IH. reflexivity.
Qed.

(** What [updatePadding] leaves in the frame of the annotation. *)
Lemma updatePadding_frame B i px s el fs :
  find_element i (selectedElements s) = Some el ->
  frame_of i s = Some fs ->
  frame_of i (updatePadding B i px s)
  = Some {| frameTop := top (rect el) - 3 - px;
            frameLeft := left (rect el) - 3 - px;
            frameWidth := width (rect el) + 3 * 2 + px * 2;
            frameHeight := height (rect el) + 3 * 2 + px * 2;
            frameBorderWidth := frameBorderWidth fs;
            frameBorderColor := frameBorderColor fs;
            frameBoxSizing := frameBoxSizing fs |}.
Proof.
  intros Hel Hfs. unfold updatePadding. rewrite Hel.
  unfold frame_of in *. frame overlayContainer. state_cbn.
  destruct (overlayContainer s) as [nodes|]; [| discriminate].
  cbn [fmap option_fmap option_map].
  rewrite find_alter_first_other.
  2:{ intros n Hn. destruct n; cbn in *; [discriminate | auto]. }
  rewrite find_alter_first_same.
  2:{ intros n. destruct n; reflexivity. }
  destruct (find (is_frame_of i) nodes) as [[j st | j t st]|];
    try discriminate.
  cbn. inversion Hfs; subst. reflexivity.
Qed.

(** What [updatePadding] leaves in the badge of the annotation. *)
Lemma updatePadding_badge B i px s el bs :
  find_element i (selectedElements s) = Some el ->
  badge_of i s = Some bs ->
  badge_of i (updatePadding B i px s)
  = Some {| badgeTop := top (rect el) - px - 3 - 28 / 2;
            badgeLeft := left (rect el) - px - 3
                         - calculateBadgeWidth (label el) / 2;
            badgeWidth := calculateBadgeWidth (label el);
            badgeHeight := badgeHeight bs;
            badgeColor := badgeColor bs;
            badgeBorderWidth := badgeBorderWidth bs;
            badgeBorderColor := badgeBorderColor bs;
            badgeBoxSizing := badgeBoxSizing bs |}.
Proof.
  intros Hel Hbs. unfold updatePadding. rewrite Hel.
  unfold badge_of in *. frame overlayContainer. state_cbn.
  destruct (overlayContainer s) as [nodes|]; [| discriminate].
  cbn [fmap option_fmap option_map].
  rewrite find_alter_first_same.
  2:{ intros n. destruct n; reflexivity. }
  rewrite find_alter_first_other.
  2:{ intros n Hn. destruct n; cbn in *; [auto | discriminate]. }
  destruct (find (is_badge_of i) nodes) as [[j st | j t st]|];
    try discriminate.
  cbn. inversion Hbs; subst. reflexivity.
Qed.

(** After [updatePadding] the badge is where [createNumberBadge] would put
    it: its centre is 3 pixels right of and below the outer corner of the
    frame. *)
Lemma updatePadding_badge_center B i px s el fs bs :
  find_element i (selectedElements s) = Some el ->
  frame_of i s = Some fs -> badge_of i s = Some bs ->
  badgeHeight bs = 28 -> badgeBorderWidth bs = 3 ->
  badgeBoxSizing bs = content_box ->
  exists fs' bs',
    frame_of i (updatePadding B i px s) = Some fs'
    /\ badge_of i (updatePadding B i px s) = Some bs'
    /\ frame_corner fs' = (left (rect el) - px - 3, top (rect el) - px - 3)
    /\ badge_center bs' = (left (rect el) - px, top (rect el) - px).
Proof.
  intros Hel Hfs Hbs Hh Hb Hbox.
  eexists. eexists.
  split; [apply (updatePadding_frame B i px s el fs Hel Hfs) |].
  split; [apply (updatePadding_badge B i px s el bs Hel Hbs) |].
  unfold badge_center, center, badge_box, frame_corner, outer_size;
    cbn [badgeHeight badgeWidth badgeTop badgeLeft frameTop frameLeft
         badgeBorderWidth badgeBoxSizing top left width height].
  destruct (calculateBadgeWidth_even (label el)) as [k Hk].
  rewrite Hh, Hb, Hbox, Hk, Z.div_mul by lia.
  replace (k * 2 + 2 * 3) with ((k + 3) * 2) by lia.
  rewrite Z.div_mul by lia.
  change (28 / 2) with 14. change ((28 + 2 * 3) / 2) with 17.
  split; f_equal; lia.
Qed.

(** C2.  On the annotation of a 100 by 50 element, [updatePadding] to 10
    pixels leaves a frame box of 126 by 76: it adds the border twice to the
    width and the height, which [createFrameOverlay] and
    [updateOverlayPositions] do not.  The corner is at -13 from the element in
    both axes, as it is after a re-positioning, where the box is 120 by 70. *)
Theorem C2_updatePadding_frame_box :
  let s := updatePadding Demo.browser "wdh-1-a" 10 Demo.one in
  rect <$> find_element "wdh-1-a" (selectedElements Demo.one)
    = Some {| top := 10; left := 20; width := 100; height := 50 |}
  /\ ((fun f => (frameTop f, frameLeft f, frameWidth f, frameHeight f,
                 frameBoxSizing f)) <$> frame_of "wdh-1-a" s)
     = Some (10 - 13, 20 - 13, 126, 76, content_box)
  /\ ((fun f => (frameTop f, frameLeft f, frameWidth f, frameHeight f,
                 frameBoxSizing f))
        <$> frame_of "wdh-1-a" (updateOverlayPositions s))
     = Some (10 - 13, 20 - 13, 120, 70, content_box)
  /\ createFrameOverlay "wdh-1-a" 10 20 100 50 red 10
     = FrameNode "wdh-1-a"
         {| frameTop := 10 - 13; frameLeft := 20 - 13;
            frameWidth := 120; frameHeight := 70;
            frameBorderWidth := 3; frameBorderColor := "#ff0000";
            frameBoxSizing := content_box |}.
Proof. vm_compute. repeat split; reflexivity. Qed.

(** ** Clearing *)

Lemma find_element_filter i (q : SelectedElement -> bool) l e :
  find_element i l = Some e -> q e = true ->
  find_element i (List.filter q l) = Some e.
Proof.
  unfold find_element. intros Hfind Hq.
  induction l as [|x l IH]; [discriminate |].
  cbn [find] in Hfind. cbn [List.filter].
  destruct (bool_decide (id x = i)) eqn:Hx.
  - injection Hfind as ->. rewrite Hq. cbn [find]. rewrite Hx. reflexivity.
  - destruct (q x); [cbn [find]; rewrite Hx |]; auto.
Qed.

(** C5.  With a focused annotation [f], clearing removes exactly the
    annotations whose [parentId] is [f] and resets the sub-counter to 1; the
    focus, the top-level counter and every other annotation stay (the focused
    parent among them when it is top-level), and the key of the snapshot is
    written, not removed.  Outside focus mode, clearing empties the store,
    resets both counters and the focus, and removes the key of the snapshot
    without writing it. *)
Theorem C5_clearAllSelections B s :
  (forall f, focusedElementId s = Some f -> f <> "" ->
     let s' := clearAllSelections B s in
     selectedElements s'
       = List.filter (fun e => negb (bool_decide (parentId e = Parent f)))
           (selectedElements s)
     /\ (forall e, e ∈ selectedElements s' <->
                   e ∈ selectedElements s /\ parentId e <> Parent f)
     /\ (forall parent, find_element f (selectedElements s) = Some parent ->
                        parentId parent <> Parent f ->
                        find_element f (selectedElements s') = Some parent)
     /\ focusedSubNumber s' = 1
     /\ focusedElementId s' = Some f
     /\ nextNumber s' = nextNumber s
     /\ (is_Some (localStorage s !! getStorageKey s) ->
         is_Some (localStorage s' !! getStorageKey s'))
     /\ (storageThrows s = false ->
         localStorage s' !! getStorageKey s'
         = Some (JSON_stringify B (snapshot s'))))
  /\ (focusedElementId s = None ->
      let s' := clearAllSelections B s in
      selectedElements s' = []
      /\ nextNumber s' = 1
      /\ focusedElementId s' = None
      /\ focusedSubNumber s' = 1
      /\ (storageThrows s = false ->
          localStorage s' !! getStorageKey s' = None
          /\ last (log s') = Some (RemoveItem (getStorageKey s))
          /\ forall k v, SetItem k v ∉ effects B s OpClear)).
Proof.
  split.
  - intros f Hf Hne s'.
    assert (Ht := truthy_Some f Hne). rewrite <- Hf in Ht.
    assert (Hs : selectedElements s'
       = List.filter (fun e => negb (bool_decide (parentId e = Parent f)))
           (selectedElements s)).
    { subst s'. unfold clearAllSelections. rewrite Ht.
      store_frame. rewrite Hf. reflexivity. }
    split; [exact Hs |].
    split.
    { intros e. rewrite Hs, list_elem_of_In, filter_In, <- list_elem_of_In.
      rewrite negb_true_iff, bool_decide_eq_false. reflexivity. }
    split.
    { intros parent Hfind Hpar. rewrite Hs.
      apply find_element_filter; [exact Hfind |].
      apply negb_true_iff, bool_decide_eq_false. exact Hpar. }
    subst s'. unfold clearAllSelections. rewrite Ht.
    split; [store_frame; reflexivity |].
    split; [store_frame; exact Hf |].
    split; [store_frame; reflexivity |].
    split.
    + intros Hsome. rewrite saveState_localStorage.
      unfold getStorageKey. store_frame. frame localStorage. state_cbn.
      frame localStorage.
      destruct (storageThrows s); [exact Hsome |].
      rewrite lookup_insert_eq. eauto.
    + intros Hok. rewrite saveState_localStorage.
      frame snapshot. unfold getStorageKey. store_frame.
      rewrite Hok, lookup_insert_eq. reflexivity.
  - intros Hnone s'. subst s'. unfold clearAllSelections.
    rewrite Hnone. cbn [Js.truthy].
    split; [store_frame; reflexivity |].
    split; [store_frame; reflexivity |].
    split; [store_frame; reflexivity |].
    split; [store_frame; reflexivity |].
    intros Hok.
    split; [| split].
    + rewrite clearState_localStorage. unfold getStorageKey. store_frame.
      rewrite Hok. apply lookup_delete_eq.
    + rewrite clearState_log. rewrite last_snoc.
      unfold getStorageKey. store_frame. rewrite Hok. reflexivity.
    + intros k v. unfold effects, step, clearAllSelections.
      rewrite Hnone. cbn [Js.truthy].
      rewrite clearState_log, updatePanel_log.
      store_frame. frame log. state_cbn. frame log.
      rewrite Hok. rewrite <- app_assoc. rewrite drop_app_length.
      intros Hin. apply elem_of_app in Hin as [Hin | Hin].
      * destruct (panel _); [| inversion Hin].
        apply list_elem_of_singleton in Hin. discriminate.
      * apply list_elem_of_singleton in Hin. discriminate.
Qed.

Lemma C5_clearAllSelections_witness :
  (ids (selectedElements Demo.with_child) = ["wdh-1-a"; "wdh-1-b"]
   /\ ids (selectedElements (clearAllSelections Demo.browser Demo.with_child))
      = ["wdh-1-a"]
   /\ focusedSubNumber (clearAllSelections Demo.browser Demo.with_child) = 1
   /\ is_Some (localStorage (clearAllSelections Demo.browser Demo.with_child)
               !! getStorageKey
                    (clearAllSelections Demo.browser Demo.with_child)))
  /\ (selectedElements (clearAllSelections Demo.browser Demo.one) = []
      /\ localStorage (clearAllSelections Demo.browser Demo.one)
         !! getStorageKey (clearAllSelections Demo.browser Demo.one) = None).
Proof.
  split.
  - destruct (C5_clearAllSelections Demo.browser Demo.with_child) as [H _].
    destruct (H "wdh-1-a") as (H1 & _ & _ & H3 & _ & _ & H6 & _);
      [vm_compute; reflexivity | discriminate |].
    split; [vm_compute; reflexivity |].
    split; [rewrite H1; vm_compute; reflexivity |].
    split; [exact H3 |].
    apply H6. vm_compute. eauto.
  - destruct (C5_clearAllSelections Demo.browser Demo.one) as [_ H].
    destruct (H ltac:(vm_compute; reflexivity)) as (H1 & _ & _ & _ & H5).
    split; [exact H1 |]. apply H5. vm_compute. reflexivity.
Defined.

(** ** Loading the snapshot *)

Lemma loadState_state B s :
  (loadState B s).2 = s
  \/ (loadState B s).2 = emit (Warn "WDH: Failed to load state") s.
Proof.
  unfold loadState.
  destruct (storageThrows s); [right; reflexivity |].
  destruct (localStorage s !! getStorageKey s) as [data|]; [| left; reflexivity].
  destruct (String.eqb data ""); [left; reflexivity |].
  destruct (JSON_parse B data) as [[|o]|];
    [right | left | right]; reflexivity.
Qed.

(** Without a snapshot [startEditing] completes, with the store as it was. *)
Lemma startEditing_without_snapshot B s :
  isEditing s = false -> (loadState B s).1 = None ->
  exists s', startEditing B s = Done s'
             /\ isEditing s' = true
             /\ selectedElements s' = selectedElements s
             /\ is_Some (panel s').
Proof.
  intros He Hl. unfold startEditing. rewrite He.
  assert (Hl' : forall s1 : State,
             localStorage s1 = localStorage s ->
             href s1 = href s -> storageThrows s1 = storageThrows s ->
             (loadState B s1).1 = None).
  { intros s1 H1 H2 H3. revert Hl. unfold loadState, getStorageKey.
    rewrite H1, H2, H3.
    destruct (storageThrows s); [reflexivity |].
    destruct (localStorage s !! _) as [data|]; [| reflexivity].
    destruct (String.eqb data ""); [reflexivity |].
    destruct (JSON_parse B data) as [[|o]|]; [reflexivity | | reflexivity].
    discriminate. }
  set (s1 := set_document _
               (set_overlayContainer (Some []) (set_isEditing true s))).
  specialize (Hl' s1 eq_refl eq_refl eq_refl).
  destruct (loadState_state B s1) as [H | H];
    destruct (loadState B s1) as [saved s2]; cbn [fst snd] in *; subst;
    eexists; (split; [reflexivity |]);
    rewrite ?updatePanel_panel; store_frame; frame isEditing; cbn; eauto.
Qed.

(** C9.  [loadState] fills in what the stored object lacks: the empty list
    for [elements], 1 for [nextNumber], [null] for [focusedElementId] and 1
    for [focusedSubNumber]; what the object has is kept.  A missing key, a
    text [JSON.parse] rejects, the text [null] and a storage that throws give
    [null]; a failed load writes at most a warning, changes nothing else and
    does not stop [startEditing]. *)
Theorem C9_loadState_defaults B s :
  (storageThrows s = false ->
   (localStorage s !! getStorageKey s = None -> (loadState B s).1 = None)
   /\ (forall data,
         localStorage s !! getStorageKey s = Some data ->
         JSON_parse B data = None \/ JSON_parse B data = Some JNull ->
         (loadState B s).1 = None)
   /\ (forall data parsed,
         localStorage s !! getStorageKey s = Some data -> data <> "" ->
         JSON_parse B data = Some (JObject parsed) ->
         exists saved,
           (loadState B s).1 = Some saved
           /\ (Parsed.elements parsed = None -> Saved.elements saved = [])
           /\ (Parsed.nextNumber parsed = None -> Saved.nextNumber saved = 1)
           /\ (Parsed.focusedElementId parsed = None ->
               Saved.focusedElementId saved = None)
           /\ (Parsed.focusedSubNumber parsed = None ->
               Saved.focusedSubNumber saved = 1)
           /\ (forall l, Parsed.elements parsed = Some l ->
                         Saved.elements saved = l)
           /\ (forall n, Parsed.nextNumber parsed = Some n -> n <> 0 ->
                         Saved.nextNumber saved = n)
           /\ (forall f, Parsed.focusedElementId parsed = Some f -> f <> "" ->
                         Saved.focusedElementId saved = Some f)
           /\ (forall n, Parsed.focusedSubNumber parsed = Some n -> n <> 0 ->
                         Saved.focusedSubNumber saved = n)))
  /\ (storageThrows s = true -> (loadState B s).1 = None)
  /\ ((loadState B s).1 = None ->
      ((loadState B s).2 = s
       \/ (loadState B s).2 = emit (Warn "WDH: Failed to load state") s)
      /\ (isEditing s = false ->
          exists s', startEditing B s = Done s' /\ isEditing s' = true
                     /\ selectedElements s' = selectedElements s)).
Proof.
  split; [| split].
  - intros Hok. unfold loadState. rewrite Hok.
    split; [intros ->; reflexivity |].
    split.
    { intros data -> [Hp | Hp]; rewrite Hp;
        destruct (String.eqb data ""); reflexivity. }
    intros data parsed -> Hne Hp. rewrite Hp.
    destruct (String.eqb_spec data "") as [|_]; [contradiction |].
    eexists. split; [reflexivity |].
    cbn [Saved.elements Saved.nextNumber Saved.focusedElementId
         Saved.focusedSubNumber].
    repeat split.
    + intros ->. reflexivity.
    + intros ->. reflexivity.
    + intros ->. reflexivity.
    + intros ->. reflexivity.
    + intros l ->. reflexivity.
    + intros n -> Hn. cbn.
      destruct (Z.eqb_spec n 0) as [|_]; [contradiction | reflexivity].
    + intros f -> Hf. rewrite truthy_Some by assumption. reflexivity.
    + intros n -> Hn. cbn.
      destruct (Z.eqb_spec n 0) as [|_]; [contradiction | reflexivity].
  - intros Hthrows. unfold loadState. rewrite Hthrows. reflexivity.
  - intros Hnone. split; [apply loadState_state |].
    intros He. destruct (startEditing_without_snapshot B s He Hnone)
      as (s' & H1 & H2 & H3 & _).
    eauto.
Qed.

Lemma C9_loadState_defaults_witness :
  (loadState Demo.browser Demo.fresh).1 = None
  /\ (loadState Demo.browser (Demo.stored "{not json")).1 = None
  /\ (loadState Demo.browser (Demo.stored "null")).1 = None
  /\ (loadState Demo.browser (Demo.stored "{}")).1
     = Some {| Saved.elements := []; Saved.nextNumber := 1;
               Saved.focusedElementId := None; Saved.focusedSubNumber := 1 |}
  /\ exists s', startEditing Demo.browser (Demo.stored "{not json") = Done s'.
Proof.
  split; [| split; [| split; [| split]]].
  - destruct (C9_loadState_defaults Demo.browser Demo.fresh) as (H & _).
    apply H; vm_compute; reflexivity.
  - destruct (C9_loadState_defaults Demo.browser (Demo.stored "{not json"))
      as (H & _).
    destruct (H ltac:(vm_compute; reflexivity)) as (_ & H2 & _).
    apply (H2 "{not json"); [vm_compute; reflexivity | left; reflexivity].
  - destruct (C9_loadState_defaults Demo.browser (Demo.stored "null"))
      as (H & _).
    destruct (H ltac:(vm_compute; reflexivity)) as (_ & H2 & _).
    apply (H2 "null"); [vm_compute; reflexivity | right; reflexivity].
  - destruct (C9_loadState_defaults Demo.browser (Demo.stored "{}"))
      as (H & _).
    destruct (H ltac:(vm_compute; reflexivity)) as (_ & _ & H3).
    destruct (H3 "{}" _ ltac:(vm_compute; reflexivity) ltac:(discriminate)
                eq_refl)
      as (saved & Hs & H1 & H2 & H4 & H5 & _).
    rewrite Hs. destruct saved as [e n f m]. cbn in *.
    rewrite (H1 eq_refl), (H2 eq_refl), (H4 eq_refl), (H5 eq_refl).
    reflexivity.
  - destruct (C9_loadState_defaults Demo.browser (Demo.stored "{not json"))
      as (_ & _ & H).
    destruct H as [_ H]; [vm_compute; reflexivity |].
    destruct (H eq_refl) as (s' & Hs' & _). exists s'. exact Hs'.
Defined.

(** ** Digits *)

Lemma digit_not_space c : Js.is_digit c = true -> Js.is_space c = false.
Proof. unfold Js.is_digit, Js.is_space. lia. Qed.

Lemma take_digits_all l : Forall (fun c => Js.is_digit c = true) (Js.take_digits l).
Proof.
  induction l as [|c l IH]; cbn; [constructor |].
  destruct (Js.is_digit c) eqn:E; constructor; assumption.
Qed.

Lemma take_digits_id l :
  Forall (fun c => Js.is_digit c = true) l -> Js.take_digits l = l.
Proof.
  induction 1 as [|c l Hc _ IH]; cbn; [reflexivity |].
  rewrite Hc, IH. reflexivity.
Qed.

Lemma chars_of_chars l : Js.chars (Js.of_chars l) = l.
Proof. apply list_ascii_of_string_of_list_ascii. Qed.

Lemma of_chars_chars s : Js.of_chars (Js.chars s) = s.
Proof. apply string_of_list_ascii_of_string. Qed.

(** [parseInt] on a non-empty run of digits is its decimal value. *)
Lemma parseInt_digits ds :
  ds <> [] -> Forall (fun c => Js.is_digit c = true) ds ->
  Js.parseInt (Js.of_chars ds) = Some (Js.digits_val ds).
Proof.
  intros Hne Hall. unfold Js.parseInt. rewrite chars_of_chars.
  destruct ds as [|c ds]; [contradiction |].
  inversion Hall as [|? ? Hc Hds]; subst.
  cbn [Js.skip_space]. rewrite (digit_not_space c Hc).
  assert (Hsign : match c :: ds with
                  | "-"%char :: r => (true, r)
                  | "+"%char :: r => (false, r)
                  | _ => (false, c :: ds)
                  end = (false, c :: ds)).
  { destruct c as [[] [] [] [] [] [] [] []]; try reflexivity;
      vm_compute in Hc; discriminate. }
  rewrite Hsign. rewrite (take_digits_id (c :: ds) Hall). reflexivity.
Qed.

Lemma match_dash_digits_parse l group :
  Js.match_dash_digits l = Some group ->
  Js.parseInt group = Some (Js.digits_val (Js.chars group)).
Proof.
  unfold Js.match_dash_digits.
  set (r := rev (Js.chars l)).
  pose proof (take_digits_all r) as Hall.
  destruct (Js.take_digits r) as [|c ds] eqn:E; [discriminate |].
  destruct (drop _ r) as [|d rest]; [discriminate |].
  destruct (Ascii.eqb_spec d "-"%char) as [-> | Hd].
  - intros [= <-]. rewrite chars_of_chars. apply parseInt_digits.
    + cbn [rev]. intros H. symmetry in H. exact (app_cons_not_nil _ _ _ H).
    + change (rev ds ++ [c]) with (rev (c :: ds)).
      apply List.Forall_rev. exact Hall.
  - destruct d as [[] [] [] [] [] [] [] []]; try discriminate.
    contradiction Hd. reflexivity.
Qed.

Lemma take_digits_split l :
  l = Js.take_digits l ++ drop (List.length (Js.take_digits l)) l.
Proof.
  induction l as [|c l IH]; [reflexivity |].
  cbn [Js.take_digits]. destruct (Js.is_digit c); [| reflexivity].
  cbn [List.length drop app]. f_equal. exact IH.
Qed.

(** After the digits [take_digits] takes comes the end of the text or a
    character that is not a digit. *)
Lemma take_digits_next l :
  match drop (List.length (Js.take_digits l)) l with
  | c :: _ => Js.is_digit c = false
  | [] => True
  end.
Proof.
  induction l as [|c l IH]; [exact I |].
  cbn [Js.take_digits]. destruct (Js.is_digit c) eqn:E; [exact IH | exact E].
Qed.

(** ** The sub-index of a label against the regular expression *)

Lemma decimal_digit_spec c :
  decimal_digit c = if Js.is_digit c then Some (Js.digit_val c) else None.
Proof. destruct c as [[] [] [] [] [] [] [] []]; reflexivity. Qed.

Lemma digits_val_snoc l c :
  Js.digits_val (l ++ [c]) = 10 * Js.digits_val l + Js.digit_val c.
Proof. unfold Js.digits_val. rewrite fold_left_app. reflexivity. Qed.

Lemma number_written_digits ds :
  Forall (fun c => Js.is_digit c = true) ds ->
  number_written ds = Some (Js.digits_val (rev ds)).
Proof.
  induction 1 as [|c ds Hc _ IH]; [reflexivity |].
  cbn [number_written rev]. rewrite decimal_digit_spec, Hc, IH, digits_val_snoc.
  f_equal. lia.
Qed.

Lemma number_written_other l c r :
  Js.is_digit c = false -> number_written (l ++ c :: r) = None.
Proof.
  intros Hc. induction l as [|d l IH]; cbn [app number_written].
  - rewrite decimal_digit_spec, Hc. reflexivity.
  - rewrite IH. destruct (decimal_digit d); reflexivity.
Qed.

Lemma up_to_dash_digits ds rest :
  Forall (fun c => Js.is_digit c = true) ds ->
  up_to_dash (ds ++ rest) = (ds ++.) <$> up_to_dash rest.
Proof.
  induction 1 as [|c ds Hc _ IH]; cbn [app up_to_dash].
  - destruct (up_to_dash rest); reflexivity.
  - assert (Hd : Ascii.eqb c "-" = false).
    { destruct (Ascii.eqb_spec c "-") as [-> | _]; [discriminate | reflexivity]. }
    rewrite Hd, IH. destruct (up_to_dash rest); reflexivity.
Qed.

(** The sub-index of a label is the number of the group that [/-(\d+)$/]
    captures in it, and 0 when the expression does not match. *)
Lemma sub_index_match l :
  sub_index l
  = match Js.match_dash_digits l with
    | Some group => Js.digits_val (Js.chars group)
    | None => 0
    end.
Proof.
  unfold sub_index, Js.match_dash_digits. cbv zeta.
  set (r := rev (Js.chars l)).
  pose proof (take_digits_split r) as Hsplit.
  pose proof (take_digits_all r) as Hall.
  pose proof (take_digits_next r) as Hnext.
  destruct (Js.take_digits r) as [|d ds] eqn:E.
  - cbn [List.length drop app] in Hsplit, Hnext.
    destruct r as [|c rest]; [reflexivity |].
    cbn [up_to_dash].
    destruct (Ascii.eqb c "-"); [reflexivity |].
    destruct (up_to_dash rest) as [t|]; [| reflexivity].
    pose proof (number_written_other [] c t Hnext) as Hw.
    cbn [app] in Hw. rewrite Hw. reflexivity.
  - destruct (drop (List.length (d :: ds)) r) as [|c rest].
    + rewrite app_nil_r in Hsplit. rewrite Hsplit.
      rewrite <- (app_nil_r (d :: ds)).
      rewrite up_to_dash_digits by exact Hall. reflexivity.
    + rewrite Hsplit. rewrite up_to_dash_digits by exact Hall.
      cbn [up_to_dash].
      destruct (Ascii.eqb_spec c "-") as [-> | Hc].
      * cbn [fmap option_fmap option_map]. rewrite app_nil_r.
        rewrite number_written_digits by exact Hall.
        cbn [from_option Datatypes.id default].
        rewrite chars_of_chars. reflexivity.
      * assert (Hnone : match c :: rest with
                        | "-"%char :: _ => Some (Js.of_chars (rev (d :: ds)))
                        | _ => None
                        end = @None string).
        { destruct c as [[] [] [] [] [] [] [] []]; try reflexivity.
          contradiction Hc. reflexivity. }
        rewrite Hnone.
        destruct (up_to_dash rest) as [t|];
          cbn [fmap option_fmap option_map]; [| reflexivity].
        pose proof (number_written_other (d :: ds) c t Hnext) as Hw.
        cbn [app] in Hw |- *. rewrite Hw. reflexivity.
Qed.

Lemma fold_left_Zmax (l : list Z) (m : Z) :
  0 <= m -> fold_left Z.max l m = Z.max m (max_list l).
Proof.
  revert m. induction l as [|x l IH]; intros m Hm; cbn [fold_left].
  - unfold max_list. cbn. lia.
  - rewrite IH by lia. unfold max_list. cbn [foldr]. lia.
Qed.

Lemma max_list_nonneg l : 0 <= max_list l.
Proof. unfold max_list. induction l; cbn; lia. Qed.

Lemma max_list_cons x l : max_list (x :: l) = Z.max x (max_list l).
Proof. reflexivity. Qed.

Lemma maxSubNumber_spec l :
  maxSubNumber l = max_list (map (fun e => sub_index (label e)) l).
Proof.
  unfold maxSubNumber.
  enough (H : forall m, 0 <= m ->
    fold_left
      (fun max el =>
         match Js.match_dash_digits (label el) with
         | Some group =>
             match Js.parseInt group with
             | Some n => Z.max max n
             | None => max
             end
         | None => max
         end) l m
    = Z.max m (max_list (map (fun e => sub_index (label e)) l))).
  { rewrite H by lia.
    pose proof (max_list_nonneg (map (fun e => sub_index (label e)) l)). lia. }
  induction l as [|e l IH]; intros m Hm; cbn [fold_left map].
  - unfold max_list. cbn. lia.
  - rewrite max_list_cons.
    pose proof (max_list_nonneg (map (fun e => sub_index (label e)) l)) as Hn.
    rewrite sub_index_match.
    destruct (Js.match_dash_digits (label e)) as [g|] eqn:E.
    + rewrite (match_dash_digits_parse _ _ E). rewrite IH by lia. lia.
    + rewrite IH by lia. lia.
Qed.

(** ** The operations on the store *)

(** A click that [selectElement] accepts appends one annotation: a
    sub-annotation of the annotation in focus, labelled with the sub-counter,
    or a top-level annotation labelled with the main counter. *)
Lemma selectElement_applied B element newId s e :
  node_at (root (document s)) element = Some e ->
  select_refused s element (attrs e) = false ->
  let s' := selectElement B element newId s in
  exists new,
    selectedElements s' = selectedElements s ++ [new]
    /\ id new = newId
    /\ color new = red /\ padding new = Some 0
    /\ rect new = box (attrs e)
    /\ tagName new = Js.toLowerCase (elTagName (attrs e))
    /\ focusedElementId s' = focusedElementId s
    /\ match focus_parent s with
       | Some parent =>
           label new
           = label parent +:+ "-" +:+ Js.of_number (focusedSubNumber s)
           /\ parentId new = of_nullable (focusedElementId s)
           /\ focusedSubNumber s' = focusedSubNumber s + 1
           /\ nextNumber s' = nextNumber s
       | None =>
           label new = Js.of_number (nextNumber s)
           /\ parentId new = Null
           /\ nextNumber s' = nextNumber s + 1
           /\ focusedSubNumber s' = focusedSubNumber s
       end.
Proof.
  intros Hnode Href s'. subst s'. unfold selectElement, focus_parent.
  rewrite Hnode, Href.
  destruct (box (attrs e)) as [t l w h] eqn:Hbox.
  destruct (Js.truthy (focusedElementId s));
    [destruct (find_element _ (selectedElements s)) as [parent|] |];
    eexists; store_frame; repeat split; reflexivity.
Qed.

Lemma selectElement_refused B element newId s e :
  node_at (root (document s)) element = Some e ->
  select_refused s element (attrs e) = true ->
  selectElement B element newId s = s.
Proof. intros Hnode Href. unfold selectElement. rewrite Hnode, Href. reflexivity. Qed.

Lemma selectElement_no_element B element newId s :
  node_at (root (document s)) element = None ->
  selectElement B element newId s = s.
Proof. intros Hnode. unfold selectElement. rewrite Hnode. reflexivity. Qed.

Lemma deselectElement_store B i s :
  let s' := deselectElement B i s in
  selectedElements s'
  = List.filter (fun e => negb (bool_decide (id e = i))) (selectedElements s)
  /\ nextNumber s' = nextNumber s
  /\ focusedElementId s' = focusedElementId s
  /\ focusedSubNumber s' = focusedSubNumber s.
Proof. unfold deselectElement. cbn zeta. repeat split; store_frame; reflexivity. Qed.

Lemma startFocus_store B i s el :
  find_element i (selectedElements s) = Some el ->
  let s' := startFocus B i s in
  selectedElements s' = selectedElements s
  /\ nextNumber s' = nextNumber s
  /\ focusedElementId s' = Some i
  /\ focusedSubNumber s'
     = maxSubNumber (children_of i (selectedElements s)) + 1
  /\ document s' = document s.
Proof.
  intros H. unfold startFocus. rewrite H. cbn zeta.
  repeat split; store_frame; frame document; reflexivity.
Qed.

Lemma startFocus_unknown B i s :
  find_element i (selectedElements s) = None -> startFocus B i s = s.
Proof. intros H. unfold startFocus. rewrite H. reflexivity. Qed.

Lemma endFocus_store B s :
  let s' := endFocus B s in
  selectedElements s' = selectedElements s
  /\ nextNumber s' = nextNumber s
  /\ focusedElementId s' = None
  /\ focusedSubNumber s' = 1.
Proof. unfold endFocus. cbn zeta. repeat split; store_frame; reflexivity. Qed.

(** The three in-place updates change one field of the first annotation with
    the id and nothing else of the stored part. *)
Lemma update_store B s o i f :
  update_of o = Some (i, f) ->
  let s' := step B s o in
  selectedElements s'
  = match find_element i (selectedElements s) with
    | Some _ => alter_element i f (selectedElements s)
    | None => selectedElements s
    end
  /\ nextNumber s' = nextNumber s
  /\ focusedElementId s' = focusedElementId s
  /\ focusedSubNumber s' = focusedSubNumber s.
Proof.
  destruct o; cbn [update_of]; try discriminate; intros [= <- <-];
    cbn [step]; unfold updateLabel, changeElementColor, updatePadding;
    destruct (find_element _ (selectedElements s)); cbn zeta;
    repeat split; store_frame; reflexivity.
Qed.

Lemma find_element_Some i l e :
  find_element i l = Some e -> e ∈ l /\ id e = i.
Proof.
  unfold find_element. intros H. apply find_some in H as [H1 H2].
  apply bool_decide_eq_true in H2. rewrite list_elem_of_In. auto.
Qed.

Lemma find_element_app i l l' :
  find_element i (l ++ l')
  = match find_element i l with
    | Some e => Some e
    | None => find_element i l'
    end.
Proof.
  unfold find_element. induction l as [|x l IH]; [reflexivity |].
  cbn [app find]. destruct (bool_decide (id x = i)); [reflexivity | exact IH].
Qed.

(** ** Focus, then select *)



(** ** The invariant of the store *)

Lemma ids_skeleton l : ids l = map fst (skeleton l).
Proof. unfold ids, skeleton. rewrite map_map. reflexivity. Qed.

Lemma elem_of_skeleton l i p :
  (i, p) ∈ skeleton l <-> exists e, e ∈ l /\ id e = i /\ parentId e = p.
Proof.
  unfold skeleton. rewrite list_elem_of_In, in_map_iff. split.
  - intros (e & [= <- <-] & He). exists e. rewrite list_elem_of_In. auto.
  - intros (e & He & <- & <-). exists e. rewrite <- list_elem_of_In. auto.
Qed.

Lemma store_ok_skeleton l l' :
  skeleton l = skeleton l' -> store_ok l -> store_ok l'.
Proof.
  intros Hs [Hnd Hp]. split.
  - rewrite ids_skeleton, <- Hs, <- ids_skeleton. exact Hnd.
  - intros a p Ha Hpa.
    assert (H : (id a, Parent p) ∈ skeleton l).
    { rewrite Hs. apply elem_of_skeleton. eauto. }
    apply elem_of_skeleton in H as (a0 & Ha0 & _ & Hpa0).
    destruct (Hp a0 p Ha0 Hpa0) as (b & Hb & Hib & Hpb).
    assert (H : (p, Null) ∈ skeleton l') by
      (rewrite <- Hs; apply elem_of_skeleton; eauto).
    apply elem_of_skeleton in H as (b' & ? & ? & ?). eauto.
Qed.

Lemma find_element_skeleton l l' i :
  skeleton l = skeleton l' ->
  parentId <$> find_element i l = parentId <$> find_element i l'.
Proof.
  revert l'. unfold find_element.
  induction l as [|x l IH]; intros [|y l'] Hs; try discriminate;
    [reflexivity |].
  cbn in Hs. injection Hs as Hid Hpar Hs.
  cbn [find]. rewrite Hid.
  destruct (bool_decide (id y = i)); cbn; [congruence | auto].
Qed.

Lemma skeleton_alter_element i f l :
  (forall e, id (f e) = id e /\ parentId (f e) = parentId e) ->
  skeleton (alter_element i f l) = skeleton l.
Proof.
  intros Hf. unfold alter_element.
  induction l as [|x l IH]; [reflexivity |].
  cbn [alter_first]. destruct (bool_decide (id x = i)); cbn.
  - destruct (Hf x) as [-> ->]. reflexivity.
  - f_equal. exact IH.
Qed.

Lemma NoDup_ids_filter q l : NoDup (ids l) -> NoDup (ids (List.filter q l)).
Proof.
  unfold ids. induction l as [|x l IH]; cbn; [auto |].
  intros H. apply NoDup_cons in H as [Hx Hl].
  destruct (q x); cbn; [| auto].
  apply NoDup_cons. split; [| auto].
  intros Hin. apply Hx.
  rewrite list_elem_of_In, in_map_iff in Hin |- *.
  destruct Hin as (y & Hy & Hin). apply filter_In in Hin as [Hin _]. eauto.
Qed.

Lemma find_element_unique l e :
  NoDup (ids l) -> e ∈ l -> find_element (id e) l = Some e.
Proof.
  unfold ids, find_element. induction l as [|x l IH]; intros Hnd He.
  - inversion He.
  - cbn in Hnd. apply NoDup_cons in Hnd as [Hx Hl]. cbn [find].
    apply elem_of_cons in He as [-> | He].
    + rewrite bool_decide_eq_true_2 by reflexivity. reflexivity.
    + rewrite bool_decide_eq_false_2; [auto |].
      intros Heq. apply Hx. rewrite Heq.
      rewrite list_elem_of_In. apply in_map. rewrite <- list_elem_of_In.
      exact He.
Qed.

Lemma elem_of_filter_bool {A} (q : A -> bool) (l : list A) e :
  e ∈ List.filter q l <-> e ∈ l /\ q e = true.
Proof. rewrite !list_elem_of_In. apply filter_In. Qed.

(** Removing annotations that no remaining annotation names as its parent
    keeps the store well formed, and the focus top-level. *)
Lemma filter_keeps_invariant q (s s' : State) :
  selectedElements s' = List.filter q (selectedElements s) ->
  (focusedElementId s' = focusedElementId s \/ focusedElementId s' = None) ->
  (forall a b p, a ∈ selectedElements s -> b ∈ selectedElements s ->
                 q a = true -> parentId a = Parent p -> id b = p ->
                 parentId b = Null -> q b = true) ->
  store_ok (selectedElements s) /\ focus_top_level s ->
  store_ok (selectedElements s') /\ focus_top_level s'.
Proof.
  intros Hsel Hfoc Hq [[Hnd Hp] Hf]. rewrite Hsel. repeat split.
  - apply NoDup_ids_filter, Hnd.
  - intros a p Ha Hpa. apply elem_of_filter_bool in Ha as [Ha Hqa].
    destruct (Hp a p Ha Hpa) as (b & Hb & Hib & Hpb).
    exists b. rewrite elem_of_filter_bool. eauto 10.
  - intros f e Hfe Hfind. rewrite Hsel in Hfind.
    destruct Hfoc as [Hfoc | Hfoc]; rewrite Hfoc in Hfe; [| discriminate].
    apply find_element_Some in Hfind as [He <-].
    apply elem_of_filter_bool in He as [He _].
    apply (Hf (id e) e Hfe). apply find_element_unique; assumption.
Qed.

(** An update that keeps ids and parents keeps the invariant. *)
Lemma skeleton_keeps_invariant (s s' : State) :
  skeleton (selectedElements s') = skeleton (selectedElements s) ->
  focusedElementId s' = focusedElementId s ->
  store_ok (selectedElements s) /\ focus_top_level s ->
  store_ok (selectedElements s') /\ focus_top_level s'.
Proof.
  intros Hs Hfoc [Hok Hf]. split.
  - apply (store_ok_skeleton (selectedElements s)); auto.
  - intros f e Hfe He. rewrite Hfoc in Hfe.
    pose proof (find_element_skeleton _ _ f Hs) as H.
    rewrite He in H. cbn in H.
    destruct (find_element f (selectedElements s)) as [e0|] eqn:H0;
      [| discriminate].
    injection H as ->. eauto.
Qed.

Lemma update_keeps_invariant B s o i f :
  update_of o = Some (i, f) ->
  store_ok (selectedElements s) /\ focus_top_level s ->
  store_ok (selectedElements (step B s o)) /\ focus_top_level (step B s o).
Proof.
  intros Ho. destruct (update_store B s o i f Ho) as (Hs & _ & Hfoc & _).
  apply skeleton_keeps_invariant; [| exact Hfoc].
  rewrite Hs. destruct (find_element i (selectedElements s)); [| reflexivity].
  apply skeleton_alter_element.
  destruct o; cbn [update_of] in Ho; try discriminate;
    injection Ho as _ <-; intros e; auto.
Qed.

Lemma clearAllSelections_store B s :
  let s' := clearAllSelections B s in
  selectedElements s'
  = (if Js.truthy (focusedElementId s)
     then List.filter
            (fun e => negb (bool_decide (parentId e = of_nullable (focusedElementId s))))
            (selectedElements s)
     else [])
  /\ focusedElementId s'
     = if Js.truthy (focusedElementId s) then focusedElementId s else None.
Proof.
  unfold clearAllSelections.
  destruct (Js.truthy (focusedElementId s)); cbn zeta;
    split; store_frame; reflexivity.
Qed.

Lemma step_keeps_invariant B s o :
  store_ok (selectedElements s) /\ focus_top_level s ->
  admissible s o = true ->
  store_ok (selectedElements (step B s o)) /\ focus_top_level (step B s o).
Proof.
  intros Inv Hadm. destruct o as [element newId | i | i t | i c | i px | i | |].
  - (* selectElement *)
    cbn [step]. apply bool_decide_eq_true in Hadm.
    destruct (node_at (root (document s)) element) as [e|] eqn:Hnode;
      [| rewrite selectElement_no_element by assumption; exact Inv].
    destruct (select_refused s element (attrs e)) eqn:Href;
      [rewrite (selectElement_refused _ _ _ _ e) by assumption; exact Inv |].
    destruct (selectElement_applied B element newId s e Hnode Href)
      as (new & Hs & Hid & _ & _ & _ & _ & Hfoc & Hlab).
    destruct Inv as [[Hnd Hp] Hf].
    assert (Hpar : forall p, parentId new = Parent p ->
                             exists b, b ∈ selectedElements s /\ id b = p
                                       /\ parentId b = Null).
    { intros p Hpn. unfold focus_parent in Hlab.
      destruct (Js.truthy (focusedElementId s)) eqn:Ht;
        [| destruct Hlab as (_ & Hn & _); congruence].
      apply truthy_inv in Ht as (f & Hfs & _).
      rewrite Hfs in Hlab. cbn [from_option Datatypes.id] in Hlab.
      destruct (find_element f (selectedElements s)) as [parent|] eqn:Hfind;
        [| destruct Hlab as (_ & Hn & _); congruence].
      destruct Hlab as (_ & Hn & _). rewrite Hn in Hpn. injection Hpn as <-.
      destruct (find_element_Some _ _ _ Hfind). eauto using Hf. }
    rewrite Hs. repeat split.
    + unfold ids. rewrite map_app. cbn [map]. apply NoDup_app.
      split; [exact Hnd |]. split; [| apply NoDup_singleton].
      intros x Hx Hx'. apply list_elem_of_singleton in Hx'. subst x.
      rewrite Hid in Hx. contradiction.
    + intros a p Ha Hpa. apply elem_of_app in Ha as [Ha | Ha].
      * destruct (Hp a p Ha Hpa) as (b & Hb & ?). exists b.
        rewrite elem_of_app. auto.
      * apply list_elem_of_singleton in Ha. subst a.
        destruct (Hpar p Hpa) as (b & Hb & ?). exists b.
        rewrite elem_of_app. auto.
    + intros f e' Hfe Hfind. rewrite Hs, find_element_app in Hfind.
      rewrite Hfoc in Hfe.
      destruct (find_element f (selectedElements s)) as [e0|] eqn:H0.
      * injection Hfind as <-. eauto using Hf.
      * unfold find_element in Hfind. cbn [find] in Hfind.
        destruct (bool_decide (id new = f)); [| discriminate].
        injection Hfind as <-.
        unfold focus_parent in Hlab. rewrite Hfe in Hlab.
        cbn [from_option Datatypes.id] in Hlab. rewrite H0 in Hlab.
        destruct (Js.truthy (Some f)); apply Hlab.
  - (* deselectElement *)
    cbn [step]. apply bool_decide_eq_true in Hadm.
    destruct (deselectElement_store B i s) as (Hs & _ & Hfoc & _).
    apply (filter_keeps_invariant _ s _ Hs (or_introl Hfoc)); [| exact Inv].
    intros a b p Ha Hb _ Hpa Hib _. subst p.
    apply negb_true_iff, bool_decide_eq_false. intros Heq.
    assert (Hin : a ∈ children_of i (selectedElements s)).
    { unfold children_of. apply elem_of_filter_bool. split; [exact Ha |].
      apply bool_decide_eq_true. congruence. }
    rewrite Hadm in Hin. inversion Hin.
  - apply (update_keeps_invariant B s (OpUpdateLabel i t) _ _ eq_refl Inv).
  - apply (update_keeps_invariant B s (OpChangeColor i c) _ _ eq_refl Inv).
  - apply (update_keeps_invariant B s (OpUpdatePadding i px) _ _ eq_refl Inv).
  - (* startFocus *)
    cbn [step]. cbn [admissible] in Hadm.
    destruct (find_element i (selectedElements s)) as [el|] eqn:Hfind;
      [| rewrite startFocus_unknown by assumption; exact Inv].
    apply bool_decide_eq_true in Hadm.
    destruct (startFocus_store B i s el Hfind) as (Hs & _ & Hfoc & _).
    rewrite Hs. split; [apply Inv |].
    intros f e Hfe He. rewrite Hfoc in Hfe. injection Hfe as <-.
    rewrite Hs in He. congruence.
  - (* endFocus *)
    cbn [step]. destruct (endFocus_store B s) as (Hs & _ & Hfoc & _).
    rewrite Hs. split; [apply Inv |].
    intros f e Hfe. rewrite Hfoc in Hfe. discriminate.
  - (* clearAllSelections *)
    cbn [step]. destruct (clearAllSelections_store B s) as [Hs Hfoc].
    destruct (Js.truthy (focusedElementId s)) eqn:Ht.
    + apply (filter_keeps_invariant _ s _ Hs (or_introl Hfoc)); [| exact Inv].
      intros a b p _ _ _ _ _ Hpb. rewrite Hpb.
      apply truthy_inv in Ht as (f & -> & _). reflexivity.
    + rewrite Hs. split; [split; [constructor |] |].
      * intros a p Ha. inversion Ha.
      * intros f e _ He. rewrite Hs in He. discriminate.
Qed.

Lemma run_keeps_invariant B ops s :
  store_ok (selectedElements s) /\ focus_top_level s ->
  admissible_run B s ops = true ->
  store_ok (selectedElements (run B s ops))
  /\ focus_top_level (run B s ops).
Proof.
  revert s. induction ops as [|o ops IH]; intros s Inv Hadm; [exact Inv |].
  cbn [admissible_run] in Hadm. apply andb_true_iff in Hadm as [Ho Hops].
  cbn [run fold_left]. apply IH; [| exact Hops].
  apply step_keeps_invariant; assumption.
Qed.

Lemma empty_store_invariant s :
  selectedElements s = [] ->
  store_ok (selectedElements s) /\ focus_top_level s.
Proof.
  intros H. unfold focus_top_level. rewrite H.
  split; [split; [constructor |] |].
  - intros a p Ha. inversion Ha.
  - intros f e _ He. discriminate.
Qed.

(** From the empty store, an admissible run ends in a well-formed store. *)
Lemma empty_store_run_ok B s ops :
  selectedElements s = [] ->
  admissible_run B s ops = true ->
  store_ok (selectedElements (run B s ops)).
Proof.
  intros Hempty Hadm.
  apply (run_keeps_invariant B ops s); [| exact Hadm].
  apply empty_store_invariant, Hempty.
Qed.

(** ** What an operation does to the panel and to the storage *)

Lemma renderPanel_ext b (s t : State) :
  selectedElements s = selectedElements t ->
  focusedElementId s = focusedElementId t ->
  renderPanel b s = renderPanel b t.
Proof. intros H1 H2. unfold renderPanel. rewrite H1, H2. reflexivity. Qed.

(** The tail [updatePanel(); saveState();] of an operation, in a mounted
    panel and with a working storage. *)
Lemma render_then_save B s1 old :
  panel s1 = Some old -> storageThrows s1 = false ->
  let s' := saveState B (updatePanel s1) in
  let view := renderPanel (panelBackBtn old) s' in
  log s' = log s1 ++ [Render view; SetItem (getStorageKey s1) (snapshot s')]
  /\ panel s' = Some view
  /\ localStorage s' !! getStorageKey s1
     = Some (JSON_stringify B (snapshot s')).
Proof.
  intros Hp Hok. cbn zeta.
  assert (Hv : renderPanel (panelBackBtn old) (saveState B (updatePanel s1))
               = renderPanel (panelBackBtn old) s1).
  { apply renderPanel_ext; store_frame; reflexivity. }
  rewrite Hv. frame snapshot.
  split; [| split].
  - rewrite saveState_log, updatePanel_log, Hp. store_frame. rewrite Hok.
    unfold getStorageKey. store_frame. frame snapshot.
    rewrite <- app_assoc. reflexivity.
  - frame panel. rewrite updatePanel_panel, Hp. reflexivity.
  - rewrite saveState_localStorage. store_frame. rewrite Hok.
    unfold getStorageKey. store_frame. frame snapshot.
    apply lookup_insert_eq.
Qed.

(** The tail [saveState();] alone. *)
Lemma save_only B s1 :
  storageThrows s1 = false ->
  let s' := saveState B s1 in
  log s' = log s1 ++ [SetItem (getStorageKey s1) (snapshot s')]
  /\ panel s' = panel s1
  /\ localStorage s' !! getStorageKey s1
     = Some (JSON_stringify B (snapshot s')).
Proof.
  intros Hok. cbn zeta. frame snapshot. frame panel.
  rewrite saveState_log, saveState_localStorage, Hok.
  rewrite lookup_insert_eq. auto.
Qed.

(** The tail [updatePanel(); clearState();]. *)
Lemma render_then_clear s1 old :
  panel s1 = Some old -> storageThrows s1 = false ->
  let s' := clearState (updatePanel s1) in
  let view := renderPanel (panelBackBtn old) s' in
  log s' = log s1 ++ [Render view; RemoveItem (getStorageKey s1)]
  /\ panel s' = Some view
  /\ localStorage s' !! getStorageKey s1 = None.
Proof.
  intros Hp Hok. cbn zeta.
  assert (Hv : renderPanel (panelBackBtn old) (clearState (updatePanel s1))
               = renderPanel (panelBackBtn old) s1).
  { apply renderPanel_ext; store_frame; reflexivity. }
  rewrite Hv.
  split; [| split].
  - rewrite clearState_log, updatePanel_log, Hp. store_frame. rewrite Hok.
    unfold getStorageKey. store_frame.
    rewrite <- app_assoc. reflexivity.
  - frame panel. rewrite updatePanel_panel, Hp. reflexivity.
  - rewrite clearState_localStorage. store_frame. rewrite Hok.
    unfold getStorageKey. store_frame. apply lookup_delete_eq.
Qed.

Lemma untouched_ui_fold_dropBindings l s :
  untouched_ui s (fold_left dropBindings l s).
Proof.
  unfold untouched_ui. frame log. frame panel. store_frame. auto.
Qed.

(** How each operation ends once it is past its early returns. *)
Lemma step_tail B s o :
  takes_effect s o = true ->
  exists s1,
    untouched_ui s s1
    /\ step B s o
       = match o with
         | OpUpdateLabel _ _ | OpUpdatePadding _ _ => saveState B s1
         | OpClear =>
             if Js.truthy (focusedElementId s)
             then saveState B (updatePanel s1)
             else clearState (updatePanel s1)
         | _ => saveState B (updatePanel s1)
         end.
Proof.
  intros He. destruct o as [element newId | i | i t | i c | i px | i | |];
    cbn [step takes_effect] in *;
    try (apply bool_decide_eq_true in He as [el Hel]).
  - unfold selectElement.
    destruct (node_at (root (document s)) element) as [e|]; [| discriminate].
    apply negb_true_iff in He. rewrite He.
    destruct (box (attrs e)) as [t l w h].
    destruct (Js.truthy (focusedElementId s));
      [destruct (find_element _ (selectedElements s)) |];
      (eexists; split; [| reflexivity]); repeat split.
  - unfold deselectElement. eexists. split; [| reflexivity].
    unfold untouched_ui. state_cbn. frame log. frame panel. store_frame. auto.
  - unfold updateLabel. rewrite Hel.
    eexists. split; [| reflexivity]. repeat split.
  - unfold changeElementColor. rewrite Hel.
    eexists. split; [| reflexivity]. repeat split.
  - unfold updatePadding. rewrite Hel.
    eexists. split; [| reflexivity]. repeat split.
  - unfold startFocus. rewrite Hel.
    eexists. split; [| reflexivity]. repeat split.
  - unfold endFocus. eexists. split; [| reflexivity]. repeat split.
  - unfold clearAllSelections.
    destruct (Js.truthy (focusedElementId s));
      (eexists; split; [| reflexivity]);
      unfold untouched_ui; state_cbn; frame log; frame panel; store_frame;
      auto.
Qed.

(** C3, as amended.  In a mounted panel and with a working storage, an
    operation that gets past its early returns ends as follows.  Select,
    deselect, the change of colour, focus entry, focus exit and the clear of
    a focus group render the panel from the new store and then write the new
    snapshot.  The updates of label and padding write the new snapshot and
    leave the panel as it was rendered before.  The clear outside focus mode
    renders the panel and then removes the key of the snapshot. *)
Theorem C3_operation_effects B s o old :
  panel s = Some old -> storageThrows s = false ->
  takes_effect s o = true ->
  let s' := step B s o in
  let view := renderPanel (panelBackBtn old) s' in
  let key := getStorageKey s in
  let written :=
    localStorage s' !! key = Some (JSON_stringify B (snapshot s')) in
  match o with
  | OpUpdateLabel _ _ | OpUpdatePadding _ _ =>
      effects B s o = [SetItem key (snapshot s')]
      /\ panel s' = Some old /\ written
  | OpClear =>
      if Js.truthy (focusedElementId s)
      then effects B s o = [Render view; SetItem key (snapshot s')]
           /\ panel s' = Some view /\ written
      else effects B s o = [Render view; RemoveItem key]
           /\ panel s' = Some view /\ localStorage s' !! key = None
  | _ =>
      effects B s o = [Render view; SetItem key (snapshot s')]
      /\ panel s' = Some view /\ written
  end.
Proof.
  intros Hp Hok He. cbn zeta.
  destruct (step_tail B s o He) as (s1 & (Hlog & Hpanel & Hthrows & Hhref) & Hs).
  assert (Hkey : getStorageKey s1 = getStorageKey s)
    by (unfold getStorageKey; rewrite Hhref; reflexivity).
  rewrite <- Hpanel in Hp. rewrite <- Hthrows in Hok.
  pose proof (render_then_save B s1 old Hp Hok) as (R1 & R2 & R3).
  pose proof (save_only B s1 Hok) as (S1 & S2 & S3).
  pose proof (render_then_clear s1 old Hp Hok) as (C1 & C2 & C3).
  rewrite Hkey in *. rewrite Hlog in *.
  unfold effects. rewrite Hs.
  destruct o; try destruct (Js.truthy (focusedElementId s));
    rewrite ?R1, ?S1, ?C1, ?drop_app_length; rewrite ?S2; auto.
Qed.

Lemma C3_operation_effects_witness :
  exists v snap,
    effects Demo.browser Demo.one (OpChangeColor "wdh-1-a" blue)
    = [Render v; SetItem (getStorageKey Demo.one) snap]
    /\ color <$> Saved.elements snap = [blue].
Proof.
  destruct (C3_operation_effects Demo.browser Demo.one
              (OpChangeColor "wdh-1-a" blue)
              (default createPanel (panel Demo.one))
              ltac:(vm_compute; reflexivity) ltac:(vm_compute; reflexivity)
              ltac:(vm_compute; reflexivity)) as (H & _).
  eexists. eexists. split; [exact H |]. vm_compute. reflexivity.
Defined.

(** C3, as stated, fails on [updateLabel]: in a mounted panel the change of a
    label is written to the storage and no render follows, so the panel keeps
    the item it rendered for the old label. *)
Lemma C3_updateLabel_skips_render :
  let o := OpUpdateLabel "wdh-1-a" "A" in
  let s' := step Demo.browser Demo.one o in
  is_Some (panel Demo.one)
  /\ storageThrows Demo.one = false
  /\ takes_effect Demo.one o = true
  /\ label <$> selectedElements Demo.one = ["1"]
  /\ label <$> selectedElements s' = ["A"]
  /\ (forall v, Render v ∉ effects Demo.browser Demo.one o)
  /\ panel s' = panel Demo.one
  /\ panel s' <> Some (renderPanel false s').
Proof.
  cbn zeta. split; [vm_compute; eauto |].
  repeat (split; [vm_compute; reflexivity |]).
  split; [| split; [vm_compute; reflexivity | vm_compute; discriminate]].
  intros v Hin. vm_compute in Hin.
  apply list_elem_of_singleton in Hin. discriminate.
Qed.

(** ** The selector generator *)

Lemma node_at_parent r i q e :
  node_at r (i :: q) = Some e ->
  exists parent, node_at r q = Some parent /\ children parent !! i = Some e.
Proof.
  cbn [node_at]. destruct (node_at r q) as [parent|]; [| discriminate].
  eauto.
Qed.

(** The loop collects the segments of the chain, outermost first. *)
Lemma walk_up_chain esc d p e acc :
  node_at (root d) p = Some e ->
  walk_up esc d p acc = map (segment_at esc d) (rev (chain d p)) ++ acc.
Proof.
  revert e acc. induction p as [|i q IH]; intros e acc Hnode.
  - cbn [walk_up chain]. destruct (bool_decide (body d = Some [])).
    + reflexivity.
    + rewrite Hnode. unfold segment_at. cbn [rev map app]. rewrite Hnode.
      reflexivity.
  - cbn [walk_up chain]. destruct (bool_decide (body d = Some (i :: q))).
    + reflexivity.
    + rewrite Hnode.
      destruct (node_at_parent _ _ _ _ Hnode) as (parent & Hq & _).
      rewrite (IH parent _ Hq). cbn [rev]. rewrite map_app, <- app_assoc.
      cbn [map app]. unfold segment_at at 3. rewrite Hnode. reflexivity.
Qed.

Lemma chain_spec d p q :
  q ∈ chain d p -> q `suffix_of` p /\ body d <> Some q.
Proof.
  induction p as [|i p IH]; cbn [chain].
  - destruct (bool_decide (body d = Some [])) eqn:E; [inversion 1 |].
    apply bool_decide_eq_false in E. intros H.
    apply list_elem_of_singleton in H. subst q. split; [done | exact E].
  - destruct (bool_decide (body d = Some (i :: p))) eqn:E; [inversion 1 |].
    apply bool_decide_eq_false in E. intros H.
    apply elem_of_cons in H as [-> | H]; [split; [done | exact E] |].
    destruct (IH H) as [H1 H2]. split; [| exact H2].
    apply suffix_cons_r. exact H1.
Qed.

(** The scan of the siblings counts the children with the tag, and ranks the
    element among them. *)
Ltac triple :=
  apply pair_equal_spec; split; [apply pair_equal_spec; split |].

Lemma same_tag_count_cons tag c l :
  same_tag_count tag (c :: l)
  = (if String.eqb (elTagName (attrs c)) tag then 1 else 0)
    + same_tag_count tag l.
Proof.
  unfold same_tag_count. cbn [List.filter].
  destruct (String.eqb _ tag); cbn [List.length]; lia.
Qed.

Lemma same_tag_count_nil tag : same_tag_count tag [] = 0.
Proof. reflexivity. Qed.

(** Past the element, the scan only counts. *)
Lemma scan_after tag self cs cnt pos i :
  (self < i)%nat ->
  fold_left (scan_step tag self) cs (cnt, pos, i)
  = (cnt + same_tag_count tag cs, pos, (i + List.length cs)%nat).
Proof.
  revert cnt i. induction cs as [|c cs IH]; intros cnt i Hi.
  - cbn. rewrite same_tag_count_nil. triple; try reflexivity; lia.
  - cbn [fold_left scan_step]. rewrite same_tag_count_cons.
    assert (Hne : Nat.eqb i self = false) by (apply Nat.eqb_neq; lia).
    destruct (String.eqb (elTagName (attrs c)) tag);
      cbn zeta; rewrite ?Hne, IH by lia; cbn [List.length];
      triple; try reflexivity; lia.
Qed.

(** Up to the element, it also looks for it. *)
Lemma scan_before tag self cs cnt pos i :
  (i <= self)%nat ->
  fold_left (scan_step tag self) cs (cnt, pos, i)
  = (cnt + same_tag_count tag cs,
     match cs !! (self - i)%nat with
     | Some c =>
         if String.eqb (elTagName (attrs c)) tag
         then cnt + same_tag_count tag (take (S (self - i)) cs)
         else pos
     | None => pos
     end,
     (i + List.length cs)%nat).
Proof.
  revert cnt i. induction cs as [|c cs IH]; intros cnt i Hi.
  - cbn. rewrite same_tag_count_nil. triple; try reflexivity; lia.
  - cbn [fold_left scan_step]. rewrite same_tag_count_cons.
    destruct (Nat.eq_dec i self) as [-> | Hne].
    + rewrite Nat.sub_diag, Nat.eqb_refl. cbn [lookup list_lookup take].
      rewrite same_tag_count_cons, same_tag_count_nil.
      destruct (String.eqb (elTagName (attrs c)) tag);
        cbn zeta; rewrite scan_after by lia; cbn [List.length];
        triple; try reflexivity; lia.
    + assert (Hneq : Nat.eqb i self = false) by (apply Nat.eqb_neq; lia).
      replace (self - i)%nat with (S (self - S i)) by lia.
      cbn [lookup list_lookup take]. rewrite same_tag_count_cons.
      destruct (String.eqb (elTagName (attrs c)) tag);
        cbn zeta; rewrite ?Hneq, IH by lia; cbn [List.length];
        (triple; [lia | | lia]);
        destruct (cs !! (self - S i)%nat) as [c'|]; try reflexivity;
        destruct (String.eqb (elTagName (attrs c')) tag);
        try reflexivity; lia.
Qed.

Lemma sibling_scan_spec tag self cs c :
  cs !! self = Some c -> elTagName (attrs c) = tag ->
  sibling_scan tag self cs = (same_tag_count tag cs, rank_of tag self cs).
Proof.
  intros Hc Ht. unfold sibling_scan.
  rewrite scan_before by lia.
  rewrite Nat.sub_0_r, Hc, Ht, String.eqb_refl, !Z.add_0_l. reflexivity.
Qed.

Lemma class_part_spec esc a :
  class_part esc a = classes_text esc (listed_classes a).
Proof.
  unfold class_part, listed_classes.
  destruct (negb (String.eqb (classAttr a) "") && classNameIsString a);
    [| reflexivity].
  destruct (take 2 _) as [|c cs]; reflexivity.
Qed.

Lemma listed_classes_spec a :
  (List.length (listed_classes a) <= 2)%nat
  /\ forall c, c ∈ listed_classes a ->
               c <> "" /\ Js.startsWith "wdh-" c = false
               /\ c ∈ Js.split_space (classAttr a).
Proof.
  unfold listed_classes.
  destruct (negb (String.eqb (classAttr a) "") && classNameIsString a).
  - split; [rewrite length_take; lia |].
    intros c Hc. apply elem_of_take in Hc as (k & Hc & _).
    apply list_elem_of_lookup_2 in Hc.
    apply elem_of_filter_bool in Hc as [Hc Hq].
    apply andb_true_iff in Hq as [H1 H2].
    apply negb_true_iff in H1, H2.
    split; [| split; assumption].
    intros ->. discriminate.
  - split; [cbn; lia |]. intros c Hc. inversion Hc.
Qed.

(** A segment is the lower-cased tag, the listed classes, and the rank among
    the siblings with the same tag when there is more than one of them. *)
Lemma segment_at_spec esc d q e :
  node_at (root d) q = Some e ->
  let tag := elTagName (attrs e) in
  segment_at esc d q
  = Js.toLowerCase tag +:+ classes_text esc (listed_classes (attrs e))
    +:+ (if 1 <? same_tag_count tag (siblings (root d) q)
         then ":nth-of-type("
              +:+ Js.of_number (rank_of tag (hd 0%nat q) (siblings (root d) q))
              +:+ ")"
         else "").
Proof.
  intros Hnode. cbn zeta. unfold segment_at. rewrite Hnode. unfold segment.
  rewrite class_part_spec. do 2 f_equal.
  destruct q as [|i q]; [reflexivity |].
  destruct (node_at_parent _ _ _ _ Hnode) as (parent & Hq & Hi).
  unfold nth_part, siblings. rewrite Hq. cbn [hd].
  rewrite (sibling_scan_spec _ _ _ e Hi eq_refl). reflexivity.
Qed.

Lemma slice_last_length {A} n (l : list A) :
  (List.length (Js.slice_last n l) <= n)%nat.
Proof. unfold Js.slice_last. rewrite length_drop. lia. Qed.

(** C7, as amended.  For an element with a non-empty id the selector is
    [#] followed by the escaped id.  For any other element it is made of the
    segments of the element and of its ancestors up to but excluding the
    body, outermost first, joined with [ > ], of which only the last four
    are kept; for the body itself it is empty.  A segment is the lower-cased
    tag, then at most two class names of the element (non-empty, not
    starting with [wdh-], escaped), then [:nth-of-type(rank)] exactly when
    the parent has more than one child with that tag, whatever the
    classes. *)
Theorem C7_getSelector esc d p e :
  node_at (root d) p = Some e ->
  (elId (attrs e) <> "" ->
   getSelector esc d p = "#" +:+ escapeClassName esc (elId (attrs e)))
  /\ (elId (attrs e) = "" ->
      let segments := map (segment_at esc d) (rev (chain d p)) in
      getSelector esc d p = Js.join " > " (Js.slice_last 4 segments)
      /\ (List.length (Js.slice_last 4 segments) <= 4)%nat
      /\ (body d = Some p -> getSelector esc d p = ""))
  /\ (forall q, q ∈ chain d p ->
        q `suffix_of` p /\ body d <> Some q
        /\ exists a,
            node_at (root d) q = Some a
            /\ let tag := elTagName (attrs a) in
               let sibs := siblings (root d) q in
               segment_at esc d q
               = Js.toLowerCase tag
                 +:+ classes_text esc (listed_classes (attrs a))
                 +:+ (if 1 <? same_tag_count tag sibs
                      then ":nth-of-type("
                           +:+ Js.of_number (rank_of tag (hd 0%nat q) sibs)
                           +:+ ")"
                      else "")
               /\ (List.length (listed_classes (attrs a)) <= 2)%nat
               /\ forall c, c ∈ listed_classes (attrs a) ->
                            c <> "" /\ Js.startsWith "wdh-" c = false
                            /\ c ∈ Js.split_space (classAttr (attrs a))).
Proof.
  intros Hnode. split; [| split].
  - intros Hid. unfold getSelector. rewrite Hnode.
    destruct (String.eqb_spec (elId (attrs e)) ""); [contradiction |].
    reflexivity.
  - intros Hid. cbn zeta.
    assert (Hsel : getSelector esc d p
                   = Js.join " > "
                       (Js.slice_last 4
                          (map (segment_at esc d) (rev (chain d p))))).
    { unfold getSelector. rewrite Hnode, Hid. cbn [String.eqb negb].
      rewrite (walk_up_chain esc d p e [] Hnode), app_nil_r. reflexivity. }
    split; [exact Hsel |]. split; [apply slice_last_length |].
    intros Hbody. rewrite Hsel.
    assert (Hc : chain d p = []).
    { destruct p; cbn [chain];
        rewrite bool_decide_eq_true_2 by assumption; reflexivity. }
    rewrite Hc. reflexivity.
  - intros q Hq. destruct (chain_spec d p q Hq) as [Hsuf Hb].
    split; [exact Hsuf |]. split; [exact Hb |].
    assert (Ha : exists a, node_at (root d) q = Some a).
    { destruct Hsuf as [k ->]. clear Hq Hb.
      revert e Hnode. induction k as [|i k IH]; intros e Hnode; [eauto |].
      cbn [app] in Hnode.
      destruct (node_at_parent _ _ _ _ Hnode) as (parent & Hp & _). eauto. }
    destruct Ha as [a Ha]. exists a. split; [exact Ha |]. cbn zeta.
    split; [apply (segment_at_spec esc d q a Ha) |].
    apply listed_classes_spec.
Qed.

Lemma C7_getSelector_witness :
  getSelector None Demo.page Demo.main = "#main"
  /\ getSelector None Demo.page Demo.span_2
     = "div.card.a:nth-of-type(1) > span.\33 x:nth-of-type(2)"
  /\ getSelector None Demo.page [1%nat] = "".
Proof.
  split; [| split].
  - destruct (C7_getSelector None Demo.page Demo.main
                (Demo.el "P" "main" "" None 130 20 200 40 []))
      as (H & _); [vm_compute; reflexivity |].
    rewrite H; [vm_compute; reflexivity | discriminate].
  - destruct (C7_getSelector None Demo.page Demo.span_2
                (Demo.el "SPAN" "" "3x" None 12 60 30 10 []))
      as (_ & H & _); [vm_compute; reflexivity |].
    destruct (H eq_refl) as (Hsel & _). rewrite Hsel.
    vm_compute. reflexivity.
  - destruct (C7_getSelector None Demo.page [1%nat]
                (default (Elem (attrs (root Demo.page)) [])
                   (node_at (root Demo.page) [1%nat])))
      as (_ & H & _); [vm_compute; reflexivity |].
    destruct (H ltac:(vm_compute; reflexivity)) as (_ & _ & Hb).
    apply Hb. vm_compute. reflexivity.
Defined.

(** C7, as stated, fails: the first card is the only child of the body with
    tag [div] and classes [card] and [a], and its segment still carries its
    rank, because the second card is a [div] too. *)
Lemma C7_nth_despite_unique_classes :
  let a := attrs (Demo.el "DIV" "" "card a" None 10 20 100 50 []) in
  attrs <$> node_at (root Demo.page) Demo.card_a = Some a
  /\ listed_classes a = ["card"; "a"]
  /\ nth_part (root Demo.page) a Demo.card_a = ":nth-of-type(1)"
  /\ spec_wants_nth (root Demo.page) a Demo.card_a = false
  /\ getSelector None Demo.page Demo.card_a = "div.card.a:nth-of-type(1)".
Proof. vm_compute. repeat split; reflexivity. Qed.

(** ** Restore *)


(** A skipped entry leaves a warning and nothing else. *)
Lemma restoreOne_skips B savedEl used s :
  skip_reason B savedEl used s ->
  exists msg, restoreOne B savedEl used s = Some (used, emit (Warn msg) s).
Proof.
  intros [Hq | element Hq Hused | element e marker Hq Hnode Hm Hne Hid];
    unfold restoreOne; rewrite Hq.
  - eexists. reflexivity.
  - destruct (node_at (root (document s)) element); [| eexists; reflexivity].
    rewrite bool_decide_eq_true_2 by assumption. eexists. reflexivity.
  - rewrite Hnode. destruct (bool_decide (element ∈ used));
      [eexists; reflexivity |].
    rewrite Hm, truthy_Some by assumption.
    rewrite bool_decide_eq_false_2 by congruence.
    eexists. reflexivity.
Qed.



(** The body has the empty selector, and an entry whose selector the engine
    cannot parse ends the restore with an exception: [startEditing] then
    stops before the panel is created. *)
Lemma unparsable_selector_throws :
  getSelector None Demo.page [1%nat] = ""
  /\ forall B savedEl rest s,
      querySelector B (document s) (selector savedEl) = SyntaxError ->
      restoreElements B (savedEl :: rest) s = Thrown s.
Proof.
  split; [vm_compute; reflexivity |].
  intros B savedEl rest s Hq. unfold restoreElements. cbn [restoreLoop].
  unfold restoreOne. rewrite Hq. reflexivity.
Qed.

(** ** Edit mode: the counters after a restore *)

Lemma maxNumber_spec l : maxNumber l = max_list (int_parses l).
Proof.
  unfold maxNumber, int_parses.
  enough (H : forall m, 0 <= m ->
    fold_left
      (fun max el =>
         match Js.parseInt (label el) with
         | Some num => Z.max max num
         | None => max
         end) l m
    = Z.max m (max_list (omap (fun e => Js.parseInt (label e)) l))).
  { rewrite H by lia. pose proof (max_list_nonneg
      (omap (fun e => Js.parseInt (label e)) l)). lia. }
  induction l as [|e l IH]; intros m Hm; cbn [fold_left omap list_omap].
  - unfold max_list. cbn. lia.
  - pose proof (max_list_nonneg (omap (fun e => Js.parseInt (label e)) l)).
    destruct (Js.parseInt (label e)) as [n|].
    + rewrite max_list_cons, IH by lia. lia.
    + rewrite IH by lia. reflexivity.
Qed.

(** [loadState] reads the storage and nothing else. *)
Lemma loadState_reads_storage B (s t : State) :
  localStorage t = localStorage s -> href t = href s ->
  storageThrows t = storageThrows s ->
  (loadState B t).1 = (loadState B s).1.
Proof.
  intros H1 H2 H3. unfold loadState, getStorageKey. rewrite H1, H2, H3.
  destruct (storageThrows s); [reflexivity |].
  destruct (localStorage s !! _) as [data|]; [| reflexivity].
  destruct (String.eqb data ""); [reflexivity |].
  destruct (JSON_parse B data) as [[|o]|]; reflexivity.
Qed.

(** What one turn of the restore does: it skips the entry, or it binds the
    element the selector resolves to, which no earlier entry was bound to,
    and appends one annotation with the id, the label and the parent of the
    entry.  So [usedElements] is the set of the elements the restored
    entries are bound to. *)
Lemma restoreOne_store B savedEl used s used' s' :
  restoreOne B savedEl used s = Some (used', s') ->
  focusedElementId s' = focusedElementId s
  /\ isEditing s' = isEditing s
  /\ ((used' = used /\ selectedElements s' = selectedElements s)
      \/ exists element a,
          querySelector B (document s) (selector savedEl) = Found element
          /\ (element ∉ used) /\ used' = {[element]} ∪ used
          /\ selectedElements s' = selectedElements s ++ [a]
          /\ id a = id savedEl /\ label a = label savedEl
          /\ parentId a = parentId savedEl).
Proof.
  unfold restoreOne.
  destruct (querySelector B (document s) (selector savedEl));
    [| intros [= <- <-]; auto | discriminate].
  destruct (node_at (root (document s)) p) as [e|];
    [| intros [= <- <-]; auto].
  destruct (bool_decide (p ∈ used)) eqn:Hused; [intros [= <- <-]; auto |].
  apply bool_decide_eq_false in Hused.
  destruct (Js.truthy (wdhId (attrs e)) && _); intros [= <- <-]; [auto |].
  state_cbn. split; [reflexivity |]. split; [reflexivity |].
  right. exists p. eexists.
  split; [reflexivity |]. split; [exact Hused |]. split; [reflexivity |].
  split; [reflexivity |]. repeat split.
Qed.

Lemma restoreLoop_store B l used s :
  (forall e d, e ∈ l -> querySelector B d (selector e) <> SyntaxError) ->
  exists s',
    restoreLoop B l used s = Done s'
    /\ focusedElementId s' = focusedElementId s
    /\ isEditing s' = isEditing s
    /\ exists restored,
        selectedElements s' = selectedElements s ++ restored
        /\ forall a, a ∈ restored ->
             exists e, e ∈ l /\ id a = id e /\ label a = label e
                       /\ parentId a = parentId e.
Proof.
  revert used s. induction l as [|e l IH]; intros used s Hq.
  - exists s. repeat split. exists []. rewrite app_nil_r. split; [done |].
    intros a Ha. inversion Ha.
  - cbn [restoreLoop].
    destruct (restoreOne B e used s) as [[used' s1]|] eqn:Hone.
    + destruct (restoreOne_store _ _ _ _ _ _ Hone) as (Hf & He & Hs).
      destruct (IH used' s1) as (s' & Hloop & Hf' & He' & restored & Hs' & Hr).
      { intros e' d He'. apply Hq. right. exact He'. }
      exists s'. split; [exact Hloop |].
      split; [congruence |]. split; [congruence |].
      destruct Hs as [[_ Hs] | (element & a & _ & _ & _ & Hs & Ha)].
      * exists restored. split; [congruence |].
        intros a Ha. destruct (Hr a Ha) as (e' & ? & ?).
        exists e'. split; [right |]; assumption.
      * exists (a :: restored). split.
        { rewrite Hs', Hs, <- app_assoc. reflexivity. }
        intros a' Ha'. apply elem_of_cons in Ha' as [-> | Ha'].
        -- exists e. split; [left |]; assumption.
        -- destruct (Hr a' Ha') as (e' & ? & ?).
           exists e'. split; [right |]; assumption.
    + exfalso. unfold restoreOne in Hone.
      destruct (querySelector B (document s) (selector e)) eqn:Hsel;
        [| discriminate |].
      * destruct (node_at (root (document s)) p); [| discriminate].
        destruct (bool_decide (p ∈ used)); [discriminate |].
        destruct (Js.truthy _ && _); discriminate.
      * apply (Hq e (document s)); [left | exact Hsel].
Qed.

Lemma recount_store s :
  selectedElements (recount s) = selectedElements s
  /\ focusedElementId (recount s) = focusedElementId s
  /\ nextNumber (recount s) = maxNumber (top_level (selectedElements s)) + 1
  /\ focusedSubNumber (recount s)
     = if Js.truthy (focusedElementId s)
       then maxSubNumber
              (List.filter
                 (fun e => bool_decide
                             (parentId e = of_nullable (focusedElementId s)))
                 (selectedElements s)) + 1
       else 1.
Proof.
  unfold recount. state_cbn.
  destruct (Js.truthy (focusedElementId s)); repeat split.
Qed.

Lemma max_list_le (l : list Z) (b : Z) :
  0 <= b -> Forall (fun x => x <= b) l -> max_list l <= b.
Proof.
  intros Hb. induction 1 as [|x l Hx _ IH]; [exact Hb |].
  rewrite max_list_cons. lia.
Qed.

Lemma isSafeInteger_lt n : Js.isSafeInteger n = true -> n < 2 ^ 53.
Proof. unfold Js.isSafeInteger. intros H. apply Z.ltb_lt in H. lia. Qed.

(** C10, as amended.  Let edit mode start on an empty store with a snapshot
    that has entries, none of which makes the selector engine throw, and
    whose labels hold numbers that JavaScript represents exactly.  Then
    [startEditing] completes; the store holds annotations of the snapshot
    only; [nextNumber] is one plus the largest of 0 and the integers the
    labels of the restored annotations whose [parentId] is [null] parse to
    (an annotation restored from an entry without [parentId] is not among
    them), whatever the snapshot says; the focus is the one of the snapshot,
    and with a focus [focusedSubNumber] is one plus the largest sub-index at
    the end of the labels of the restored sub-annotations of the focus, and
    1 without; and both counters are numbers JavaScript represents
    exactly. *)
Theorem C10_startEditing_recounts B s saved :
  isEditing s = false -> selectedElements s = [] ->
  (loadState B s).1 = Some saved -> Saved.elements saved <> [] ->
  (forall e d, e ∈ Saved.elements saved ->
               querySelector B d (selector e) <> SyntaxError) ->
  (forall e, e ∈ Saved.elements saved -> exact_label (label e)) ->
  exists s',
    startEditing B s = Done s'
    /\ (forall a, a ∈ selectedElements s' ->
          exists e, e ∈ Saved.elements saved /\ id a = id e
                    /\ label a = label e /\ parentId a = parentId e)
    /\ nextNumber s'
       = 1 + max_list
               (int_parses
                  (List.filter (fun e => bool_decide (parentId e = Null))
                     (selectedElements s')))
    /\ focusedElementId s' = Saved.focusedElementId saved
    /\ focusedSubNumber s'
       = match Saved.focusedElementId saved with
         | Some f =>
             if String.eqb f "" then 1
             else 1 + max_list
                        (map (fun e => sub_index (label e))
                           (List.filter
                              (fun e => bool_decide (parentId e = Parent f))
                              (selectedElements s')))
         | None => 1
         end
    /\ 1 <= nextNumber s' <= 2 ^ 53
    /\ 1 <= focusedSubNumber s' <= 2 ^ 53.
Proof.
  intros Hed Hempty Hload Hne Hq Hexact. unfold startEditing. rewrite Hed.
  set (s0 := set_document _
               (set_overlayContainer (Some []) (set_isEditing true s))).
  assert (Hl0 : (loadState B s0).1 = Some saved).
  { rewrite <- Hload. apply loadState_reads_storage; reflexivity. }
  assert (Hst : exists s1, (loadState B s0).2 = s1
                           /\ selectedElements s1 = []
                           /\ focusedElementId s1 = focusedElementId s).
  { destruct (loadState_state B s0) as [-> | ->]; eexists;
      (split; [reflexivity |]); split; assumption || reflexivity. }
  destruct Hst as (s1 & Hs1 & Hsel1 & _).
  destruct (loadState B s0) as [o s1']. cbn [fst snd] in Hl0, Hs1.
  subst o s1'.
  assert (Hlen : (0 <? Z.of_nat (List.length (Saved.elements saved))) = true).
  { destruct (Saved.elements saved); [contradiction | reflexivity]. }
  rewrite Hlen. unfold restoreElements.
  destruct (restoreLoop_store B (Saved.elements saved) ∅
              (set_focusedElementId (Saved.focusedElementId saved) s1) Hq)
    as (s2 & Hloop & Hf & _ & restored & Hs2 & Hr).
  rewrite Hloop. eexists. split; [reflexivity |].
  cbn [selectedElements set_focusedElementId focusedElementId] in Hs2, Hf.
  rewrite Hsel1 in Hs2. cbn [app] in Hs2.
  destruct (recount_store s2) as (R1 & R2 & R3 & R4).
  frame selectedElements. frame nextNumber. frame focusedElementId.
  frame focusedSubNumber. state_cbn.
  rewrite R1, R2, R3, R4, Hf, Hs2.
  split; [exact Hr |].
  assert (Hsafe : forall a, a ∈ restored -> exact_label (label a)).
  { intros a Ha. destruct (Hr a Ha) as (e & He & _ & -> & _). auto. }
  assert (Hnext : max_list (int_parses (top_level restored)) < 2 ^ 53).
  { enough (max_list (int_parses (top_level restored)) <= 2 ^ 53 - 1) by lia.
    apply max_list_le; [lia |]. apply Forall_forall. intros n Hn.
    unfold int_parses in Hn. apply list_elem_of_omap in Hn as (a & Ha & Hp).
    unfold top_level in Ha. apply elem_of_filter_bool in Ha as [Ha _].
    destruct (Hsafe a Ha) as [Hint _].
    pose proof (isSafeInteger_lt n (Hint n Hp)). lia. }
  assert (Hsub : forall q,
            max_list (map (fun e => sub_index (label e))
                        (List.filter q restored)) < 2 ^ 53).
  { intros q.
    enough (max_list (map (fun e => sub_index (label e))
                        (List.filter q restored)) <= 2 ^ 53 - 1) by lia.
    apply max_list_le; [lia |]. apply Forall_forall. intros n Hn.
    apply list_elem_of_fmap in Hn as (a & -> & Ha).
    apply elem_of_filter_bool in Ha as [Ha _].
    destruct (Hsafe a Ha) as [_ Hs].
    pose proof (isSafeInteger_lt _ Hs). lia. }
  rewrite maxNumber_spec.
  pose proof (max_list_nonneg (int_parses (top_level restored))) as Hn0.
  split; [unfold top_level; lia |].
  split; [reflexivity |].
  assert (Hcount :
    (if Js.truthy (Saved.focusedElementId saved)
     then maxSubNumber
            (List.filter
               (fun e => bool_decide
                           (parentId e
                            = of_nullable (Saved.focusedElementId saved)))
               restored) + 1
     else 1)
    = match Saved.focusedElementId saved with
      | Some f =>
          if String.eqb f "" then 1
          else 1 + max_list
                     (map (fun e => sub_index (label e))
                        (List.filter
                           (fun e => bool_decide (parentId e = Parent f))
                           restored))
      | None => 1
      end).
  { destruct (Saved.focusedElementId saved) as [f|]; [| reflexivity].
    cbn [Js.truthy of_nullable]. destruct (String.eqb f ""); cbn [negb];
      [reflexivity |].
    rewrite maxSubNumber_spec. lia. }
  rewrite Hcount. split; [reflexivity |].
  split; [lia |].
  destruct (Saved.focusedElementId saved) as [f|]; [| lia].
  destruct (String.eqb f ""); [lia |].
  pose proof (Hsub (fun e => bool_decide (parentId e = Parent f))).
  pose proof (max_list_nonneg
    (map (fun e => sub_index (label e))
       (List.filter (fun e => bool_decide (parentId e = Parent f))
          restored))).
  lia.
Qed.

Lemma C10_startEditing_recounts_witness :
  (exists s',
     startEditing Demo.browser (Demo.stored "five") = Done s'
     /\ label <$> selectedElements s' = ["2"; "2-3"; "9"]
     /\ nextNumber s' = 10
     /\ focusedSubNumber s' = 4)
  /\ (exists s',
       startEditing Demo.browser (Demo.stored "old") = Done s'
       /\ map (fun e => (label e, parentId e)) (selectedElements s')
          = [("2", Null); ("30", Undefined); ("9", Null)]
       /\ nextNumber s' = 10
       /\ focusedSubNumber s' = 1).
Proof.
  assert (Hexact : forall l,
            l ∈ ["2"; "2-3"; "50"; "77"; "9"; "30"] -> exact_label l).
  { intros l Hl.
    repeat (apply elem_of_cons in Hl as [-> | Hl]);
      [split; [intros n Hn; vm_compute in Hn; injection Hn as <- |];
       reflexivity .. | inversion Hl]. }
  split.
  - destruct (C10_startEditing_recounts Demo.browser (Demo.stored "five")
                {| Saved.elements := Demo.saved_five; Saved.nextNumber := 40;
                   Saved.focusedElementId := Some "wdh-1-a";
                   Saved.focusedSubNumber := 40 |})
      as (s' & Hs & _ & Hn & _ & Hsub & _).
    + vm_compute. reflexivity.
    + vm_compute. reflexivity.
    + vm_compute. reflexivity.
    + discriminate.
    + intros e d He. unfold Demo.saved_five in He. cbn [Saved.elements] in He.
      repeat (apply elem_of_cons in He as [-> | He]);
        [vm_compute; discriminate .. | inversion He].
    + intros e He. unfold Demo.saved_five in He. cbn [Saved.elements] in He.
      apply Hexact.
      repeat (apply elem_of_cons in He as [-> | He]);
        [apply (bool_decide_unpack _); vm_compute; reflexivity ..
        | inversion He].
    + exists s'. split; [exact Hs |].
      assert (Hs' : s' = outcome_state
                           (startEditing Demo.browser (Demo.stored "five")))
        by (rewrite Hs; reflexivity).
      split; [rewrite Hs'; vm_compute; reflexivity |].
      split.
      * rewrite Hn, Hs'. vm_compute. reflexivity.
      * rewrite Hsub, Hs'. vm_compute. reflexivity.
  - destruct (C10_startEditing_recounts Demo.browser (Demo.stored "old")
                {| Saved.elements :=
                     [Demo.saved_a; Demo.saved_old; Demo.saved_main];
                   Saved.nextNumber := 31;
                   Saved.focusedElementId := None;
                   Saved.focusedSubNumber := 1 |})
      as (s' & Hs & _ & Hn & _ & Hsub & _).
    + vm_compute. reflexivity.
    + vm_compute. reflexivity.
    + vm_compute. reflexivity.
    + discriminate.
    + intros e d He. cbn [Saved.elements] in He.
      repeat (apply elem_of_cons in He as [-> | He]);
        [vm_compute; discriminate .. | inversion He].
    + intros e He. cbn [Saved.elements] in He. apply Hexact.
      repeat (apply elem_of_cons in He as [-> | He]);
        [apply (bool_decide_unpack _); vm_compute; reflexivity ..
        | inversion He].
    + exists s'. split; [exact Hs |].
      assert (Hs' : s' = outcome_state
                           (startEditing Demo.browser (Demo.stored "old")))
        by (rewrite Hs; reflexivity).
      split; [rewrite Hs'; vm_compute; reflexivity |].
      split.
      * rewrite Hn, Hs'. vm_compute. reflexivity.
      * rewrite Hsub. reflexivity.
Defined.

(** C10, as stated, fails on a label that parses to a negative integer: the
    restored annotation is labelled [-5], one plus the largest parse is -4,
    and [nextNumber] is 1. *)
Lemma C10_negative_label_counts_zero :
  let s' := outcome_state (startEditing Demo.browser (Demo.stored "minus")) in
  startEditing Demo.browser (Demo.stored "minus") = Done s'
  /\ label <$> selectedElements s' = ["-5"]
  /\ map parentId (selectedElements s') = [Null]
  /\ int_parses (top_level (selectedElements s')) = [-5]
  /\ claimed_nextNumber (selectedElements s') = -4
  /\ nextNumber s' = 1.
Proof. vm_compute. repeat split; reflexivity. Qed.

(** ** The labels [selectElement] writes are read back *)

Lemma chars_app a b : Js.chars (a +:+ b) = Js.chars a ++ Js.chars b.
Proof.
  unfold Js.chars. induction a as [|c a IH]; [reflexivity |].
  change (String c a +:+ b) with (String c (a +:+ b)).
  cbn [list_ascii_of_string app]. f_equal. exact IH.
Qed.

Lemma take_digits_app l c r :
  Forall (fun c => Js.is_digit c = true) l -> Js.is_digit c = false ->
  Js.take_digits (l ++ c :: r) = l.
Proof.
  intros Hl Hc. induction Hl as [|d l Hd _ IH]; cbn [app Js.take_digits].
  - rewrite Hc. reflexivity.
  - rewrite Hd, IH. reflexivity.
Qed.

Lemma uint_digits d :
  Forall (fun c => Js.is_digit c = true)
    (Js.chars (NilEmpty.string_of_uint d)).
Proof. induction d; cbn; constructor; auto. Qed.

Lemma uint_value_acc d acc :
  fold_left (fun a c => 10 * a + Js.digit_val c)
    (Js.chars (NilEmpty.string_of_uint d)) (Z.pos acc)
  = Z.pos (Pos.of_uint_acc d acc).
Proof.
  revert acc. induction d; intros acc; cbn [NilEmpty.string_of_uint Js.chars
    list_ascii_of_string fold_left Pos.of_uint_acc];
    [reflexivity | ..];
    match goal with
    | |- fold_left _ _ ?x = _ =>
        match goal with
        | |- _ = Z.pos (Pos.of_uint_acc _ ?p) =>
            replace x with (Z.pos p) by (vm_compute Js.digit_val; lia)
        end
    end; apply IHd.
Qed.

Lemma uint_value d :
  Js.digits_val (Js.chars (NilEmpty.string_of_uint d))
  = Z.of_N (Pos.of_uint d).
Proof.
  unfold Js.digits_val.
  induction d; cbn [NilEmpty.string_of_uint Js.chars list_ascii_of_string
                    fold_left Pos.of_uint]; [reflexivity | exact IHd | ..];
    match goal with
    | |- fold_left _ _ ?x = Z.of_N (N.pos (Pos.of_uint_acc _ ?p)) =>
        replace x with (Z.pos p) by (vm_compute; reflexivity)
    end; apply uint_value_acc.
Qed.

(** [String(n)] of a natural number is a non-empty run of digits whose value
    is [n]. *)
Lemma of_number_digits n :
  0 <= n ->
  Js.chars (Js.of_number n) <> []
  /\ Forall (fun c => Js.is_digit c = true) (Js.chars (Js.of_number n))
  /\ Js.digits_val (Js.chars (Js.of_number n)) = n.
Proof.
  intros Hn. unfold Js.of_number.
  destruct n as [|p|p]; [| | lia].
  - split; [discriminate |]. split; [repeat constructor | reflexivity].
  - cbn [Z.to_int NilZero.string_of_int NilZero.string_of_uint].
    assert (Hs : NilZero.string_of_uint (Pos.to_uint p)
                 = NilEmpty.string_of_uint (Pos.to_uint p)).
    { unfold NilZero.string_of_uint.
      destruct (Pos.to_uint p) eqn:E; try reflexivity.
      exfalso. pose proof (DecimalPos.Unsigned.of_to p) as H.
      rewrite E in H. discriminate. }
    rewrite Hs. split; [| split].
    + intros Hnil. pose proof (DecimalPos.Unsigned.of_to p) as H.
      destruct (Pos.to_uint p); try discriminate.
    + apply uint_digits.
    + rewrite uint_value, DecimalPos.Unsigned.of_to. reflexivity.
Qed.

Lemma of_chars_app a b : Js.of_chars (a ++ b) = Js.of_chars a +:+ Js.of_chars b.
Proof.
  unfold Js.of_chars. induction a as [|c a IH]; [reflexivity |].
  cbn [app string_of_list_ascii]. rewrite IH. reflexivity.
Qed.

(** The regular expression [/-(\d+)$/]: a label matches with group [g]
    exactly when it is some text, a dash, and the non-empty run of digits
    [g]. *)
Lemma match_dash_digits_intro pre g :
  Js.chars g <> [] -> Forall (fun c => Js.is_digit c = true) (Js.chars g) ->
  Js.match_dash_digits (pre +:+ "-" +:+ g) = Some g.
Proof.
  intros Hne Hall. unfold Js.match_dash_digits. cbv zeta.
  rewrite !chars_app. change (Js.chars "-") with ["-"%char].
  rewrite !rev_app_distr. cbn [rev app]. rewrite <- app_assoc. cbn [app].
  rewrite take_digits_app;
    [| apply List.Forall_rev; exact Hall | reflexivity].
  destruct (rev (Js.chars g)) as [|c r] eqn:E.
  - exfalso. apply Hne. apply (f_equal (@rev ascii)) in E.
    rewrite rev_involutive in E. exact E.
  - rewrite drop_app_length.
    rewrite <- E, rev_involutive, of_chars_chars. reflexivity.
Qed.

Lemma match_dash_digits_spec s g :
  Js.match_dash_digits s = Some g
  <-> exists pre, s = pre +:+ "-" +:+ g /\ Js.chars g <> []
                  /\ Forall (fun c => Js.is_digit c = true) (Js.chars g).
Proof.
  split.
  - unfold Js.match_dash_digits. cbv zeta.
    pose proof (take_digits_split (rev (Js.chars s))) as Hsplit.
    pose proof (take_digits_all (rev (Js.chars s))) as Hall.
    destruct (Js.take_digits (rev (Js.chars s))) as [|c ds] eqn:E;
      [discriminate |].
    destruct (drop _ (rev (Js.chars s))) as [|d rest]; [discriminate |].
    destruct (Ascii.eqb_spec d "-"%char) as [-> | Hd].
    + intros [= <-]. exists (Js.of_chars (rev rest)).
      rewrite chars_of_chars. split; [| split].
      * apply (f_equal (@rev ascii)) in Hsplit.
        rewrite rev_involutive, rev_app_distr in Hsplit.
        cbn [rev] in Hsplit. rewrite <- app_assoc in Hsplit.
        apply (f_equal Js.of_chars) in Hsplit.
        rewrite of_chars_chars, !of_chars_app in Hsplit.
        cbn [rev]. rewrite of_chars_app. exact Hsplit.
      * cbn [rev]. intros H. symmetry in H.
        exact (app_cons_not_nil _ _ _ H).
      * change (rev ds ++ [c]) with (rev (c :: ds)).
        apply List.Forall_rev. exact Hall.
    + destruct d as [[] [] [] [] [] [] [] []]; try discriminate.
      contradiction Hd. reflexivity.
  - intros (pre & -> & Hne & Hall). apply match_dash_digits_intro; assumption.
Qed.

(** The sub-index of the label [selectElement] gives a sub-annotation is the
    sub-counter it was given from. *)
Lemma sub_index_generated parentLabel n :
  0 <= n -> sub_index (parentLabel +:+ "-" +:+ Js.of_number n) = n.
Proof.
  intros Hn. destruct (of_number_digits n Hn) as (Hne & Hall & Hval).
  rewrite sub_index_match, match_dash_digits_intro by assumption.
  exact Hval.
Qed.

(** ** Two consequences *)

Lemma max_list_app l l' : max_list (l ++ l') = Z.max (max_list l) (max_list l').
Proof.
  induction l as [|x l IH]; cbn [app].
  - pose proof (max_list_nonneg l'). unfold max_list at 2. cbn. lia.
  - rewrite !max_list_cons, IH. lia.
Qed.

(** Leaving the focus and entering it again after a sub-annotation was
    selected finds the sub-counter where it was. *)
Lemma refocus_keeps_counter B s i parent element e newId focusedElement :
  find_element i (selectedElements s) = Some parent ->
  i <> "" ->
  let s1 := startFocus B i s in
  node_at (root (document s1)) element = Some e ->
  Js.truthy (wdhId (attrs e)) = false ->
  closest_class "wdh-panel" (root (document s1)) element = false ->
  closest_class "wdh-overlay-container" (root (document s1)) element = false ->
  query_marker (document s1) i = Some focusedElement ->
  contains focusedElement element = true ->
  let s2 := selectElement B element newId s1 in
  focusedSubNumber (startFocus B i (endFocus B s2)) = focusedSubNumber s2.
Proof.
  intros Hfind Hne s1 Hnode Hmark Hpanel Hover Hq Hin s2.
  destruct (startFocus_store B i s parent Hfind)
    as (Hels & _ & Hfocus & Hsub & _).
  fold s1 in Hels, Hfocus, Hsub.
  assert (Href : select_refused s1 element (attrs e) = false).
  { unfold select_refused.
    rewrite Hmark, Hpanel, Hover, Hfocus. cbn [from_option Datatypes.id].
    rewrite Hq, Hin, truthy_Some by assumption. reflexivity. }
  destruct (selectElement_applied B element newId s1 e Hnode Href)
    as (new & H1 & _ & _ & _ & _ & _ & _ & H8).
  fold s2 in H1, H8.
  assert (Hp : focus_parent s1 = Some parent).
  { unfold focus_parent. rewrite Hfocus, truthy_Some by assumption.
    cbn [from_option Datatypes.id]. rewrite Hels. exact Hfind. }
  rewrite Hp in H8. destruct H8 as (Hlab & Hpar & Hsub2 & _).
  destruct (endFocus_store B s2) as (E1 & _ & _ & _).
  assert (Hfind2 : find_element i (selectedElements (endFocus B s2))
                   = Some parent).
  { rewrite E1, H1, find_element_app, Hels, Hfind. reflexivity. }
  destruct (startFocus_store B i _ parent Hfind2) as (_ & _ & _ & Hsub3 & _).
  rewrite Hsub3, Hsub2, Hsub, E1, H1, Hels, !maxSubNumber_spec.
  unfold children_of. rewrite List.filter_app, map_app, max_list_app.
  cbn [List.filter]. rewrite Hpar, Hfocus.
  rewrite bool_decide_eq_true_2 by reflexivity. cbn [map].
  rewrite Hlab, sub_index_generated.
  - rewrite Hsub, maxSubNumber_spec. unfold children_of, max_list at 2.
    cbn [foldr]. pose proof (max_list_nonneg
      (map (fun e0 => sub_index (label e0))
         (List.filter (fun e0 => bool_decide (parentId e0 = Parent i))
            (selectedElements s)))). lia.
  - rewrite Hsub, maxSubNumber_spec.
    pose proof (max_list_nonneg
      (map (fun e0 => sub_index (label e0))
         (children_of i (selectedElements s)))). lia.
Qed.

(** With [selectElement] and [deselectElement] alone, and no focus to start
    with, every annotation is top-level: the store is well formed, and no
    annotation has a parent that could be removed. *)
Lemma select_deselect_only B ops s :
  selectedElements s = [] -> focusedElementId s = None ->
  forallb select_or_deselect ops = true ->
  fresh_ids B s ops = true ->
  store_ok (selectedElements (run B s ops))
  /\ forall a, a ∈ selectedElements (run B s ops) -> parentId a = Null.
Proof.
  intros Hempty Hfocus Hops Hfresh.
  enough (H : forall s,
    focusedElementId s = None ->
    (forall a, a ∈ selectedElements s -> parentId a = Null) ->
    forallb select_or_deselect ops = true -> fresh_ids B s ops = true ->
    admissible_run B s ops = true
    /\ forall a, a ∈ selectedElements (run B s ops) -> parentId a = Null).
  { destruct (H s Hfocus) as [Hadm Htop]; try assumption.
    - rewrite Hempty. intros a Ha. inversion Ha.
    - split; [| exact Htop]. apply empty_store_run_ok; assumption. }
  clear. induction ops as [|o ops IH]; intros s Hfocus Htop Hops Hfresh.
  - split; [reflexivity | exact Htop].
  - cbn [forallb fresh_ids admissible_run run fold_left] in *.
    apply andb_true_iff in Hops as [Ho Hops].
    apply andb_true_iff in Hfresh as [Hfo Hfresh].
    assert (Hstep : focusedElementId (step B s o) = None
                    /\ (forall a, a ∈ selectedElements (step B s o) ->
                                  parentId a = Null)
                    /\ admissible s o = true).
    { destruct o as [element newId | i | | | | | |]; try discriminate;
        cbn [step admissible].
      - destruct (node_at (root (document s)) element) as [e|] eqn:Hnode;
          [| rewrite selectElement_no_element by assumption; auto].
        destruct (select_refused s element (attrs e)) eqn:Href;
          [rewrite (selectElement_refused _ _ _ _ e) by assumption; auto |].
        destruct (selectElement_applied B element newId s e Hnode Href)
          as (new & Hs & _ & _ & _ & _ & _ & Hf & Hlab).
        unfold focus_parent in Hlab. rewrite Hfocus in Hlab.
        cbn [Js.truthy] in Hlab. destruct Hlab as (_ & Hpar & _).
        split; [congruence |]. split; [| exact Hfo].
        intros a Ha. rewrite Hs in Ha.
        apply elem_of_app in Ha as [Ha | Ha]; [auto |].
        apply list_elem_of_singleton in Ha. subst a. exact Hpar.
      - destruct (deselectElement_store B i s) as (Hs & _ & Hf & _).
        split; [congruence |]. split.
        + intros a Ha. rewrite Hs in Ha.
          apply elem_of_filter_bool in Ha as [Ha _]. auto.
        + apply bool_decide_eq_true. unfold children_of.
          destruct (List.filter
                      (fun e => bool_decide (parentId e = Parent i))
                      (selectedElements s)) as [|c l] eqn:E;
            [reflexivity |].
          assert (Hc : c ∈ List.filter
                         (fun e => bool_decide (parentId e = Parent i))
                         (selectedElements s))
            by (rewrite E; left).
          apply elem_of_filter_bool in Hc as [Hc Hp].
          apply bool_decide_eq_true in Hp. rewrite (Htop c Hc) in Hp.
          discriminate. }
    destruct Hstep as (Hf' & Htop' & Hadm).
    destruct (IH (step B s o) Hf' Htop' Hops Hfresh) as [Hrun Hall].
    rewrite Hadm, Hrun. auto.
Qed.

(** ** The invariant of the store under [selectElement] and [deselectElement] *)




(** ** The storage *)

(** What an operation does to the storage: nothing, or one write or one
    removal under the key of the page, made from a state with the storage
    and the address of the start. *)
Lemma step_storage B s o :
  step B s o = s
  \/ exists s1,
      localStorage s1 = localStorage s /\ href s1 = href s
      /\ storageThrows s1 = storageThrows s
      /\ (step B s o = saveState B s1 \/ step B s o = clearState s1).
Proof.
  assert (Hup : forall s1 : State,
             localStorage (updatePanel s1) = localStorage s1
             /\ href (updatePanel s1) = href s1
             /\ storageThrows (updatePanel s1) = storageThrows s1).
  { intros s1. frame localStorage. store_frame. auto. }
  destruct o as [element newId | i | i t | i c | i px | i | |]; cbn [step].
  - unfold selectElement.
    destruct (node_at (root (document s)) element) as [e|]; [| auto].
    destruct (select_refused s element (attrs e)); [auto |].
    destruct (box (attrs e)) as [t l w h].
    right.
    destruct (Js.truthy (focusedElementId s));
      [destruct (find_element _ (selectedElements s)) |];
      (eexists; split; [| split; [| split; [| left; reflexivity]]]);
      frame localStorage; store_frame; reflexivity.
  - right. unfold deselectElement.
    eexists; split; [| split; [| split; [| left; reflexivity]]];
      frame localStorage; store_frame; frame localStorage; reflexivity.
  - unfold updateLabel. destruct (find_element i (selectedElements s)); [| auto].
    right. eexists; split; [| split; [| split; [| left; reflexivity]]];
      reflexivity.
  - unfold changeElementColor.
    destruct (find_element i (selectedElements s)); [| auto].
    right. eexists; split; [| split; [| split; [| left; reflexivity]]];
      frame localStorage; store_frame; reflexivity.
  - unfold updatePadding. destruct (find_element i (selectedElements s)); [| auto].
    right. eexists; split; [| split; [| split; [| left; reflexivity]]];
      reflexivity.
  - unfold startFocus. destruct (find_element i (selectedElements s)); [| auto].
    right. eexists; split; [| split; [| split; [| left; reflexivity]]];
      frame localStorage; store_frame; reflexivity.
  - right. unfold endFocus.
    eexists; split; [| split; [| split; [| left; reflexivity]]];
      frame localStorage; store_frame; reflexivity.
  - right. unfold clearAllSelections.
    destruct (Js.truthy (focusedElementId s)).
    + eexists; split; [| split; [| split; [| left; reflexivity]]];
        frame localStorage; store_frame; frame localStorage; reflexivity.
    + eexists; split; [| split; [| split; [| right; reflexivity]]];
        frame localStorage; store_frame; frame localStorage; reflexivity.
Qed.

Lemma getStorageKey_ext (s t : State) :
  href t = href s -> getStorageKey t = getStorageKey s.
Proof. unfold getStorageKey. intros ->. reflexivity. Qed.

(** X1.  A snapshot written by [saveState] on a working storage is read
    back by [loadState] with the [||] defaults applied: a counter 0 comes
    back as 1 and an empty focus id as [null]; the annotations come back as
    they are.  With counters that are not 0 and a focus that is [null] or a
    non-empty id, as the script keeps them, [loadState] returns the very
    snapshot that was written.  The JSON codec is the browser's: the text it
    writes is not empty and parses back to the object it was made from. *)
Theorem X1_save_load_round_trip B s :
  storageThrows s = false ->
  JSON_stringify B (snapshot s) <> "" ->
  JSON_parse B (JSON_stringify B (snapshot s))
  = Some (JObject (as_parsed (snapshot s))) ->
  (loadState B (saveState B s)).1 = Some (normalised (snapshot s))
  /\ (nextNumber s <> 0 -> focusedSubNumber s <> 0 ->
      focusedElementId s <> Some "" ->
      (loadState B (saveState B s)).1 = Some (snapshot s)).
Proof.
  intros Hok Htext Hparse.
  assert (Hload : (loadState B (saveState B s)).1
                  = Some (normalised (snapshot s))).
  { unfold loadState.
    assert (Hthrows : storageThrows (saveState B s) = false)
      by (store_frame; exact Hok).
    rewrite Hthrows, saveState_localStorage, Hok.
    rewrite (getStorageKey_ext s (saveState B s)) by (store_frame; reflexivity).
    rewrite lookup_insert_eq.
    destruct (String.eqb_spec (JSON_stringify B (snapshot s)) "");
      [contradiction |].
    rewrite Hparse. reflexivity. }
  split; [exact Hload |].
  intros Hn Hsub Hfocus. rewrite Hload. f_equal.
  unfold normalised, snapshot, or1. cbn [Saved.elements Saved.nextNumber
    Saved.focusedElementId Saved.focusedSubNumber].
  destruct (Z.eqb_spec (nextNumber s) 0); [contradiction |].
  destruct (Z.eqb_spec (focusedSubNumber s) 0); [contradiction |].
  destruct (focusedElementId s) as [f|]; [| reflexivity].
  cbn [Js.truthy]. destruct (String.eqb_spec f ""); [congruence | reflexivity].
Qed.

Lemma X1_save_load_round_trip_witness :
  (loadState Fixture.browser (saveState Fixture.browser Fixture.session)).1
  = Some Fixture.two_cards.
Proof.
  refine (proj2 (X1_save_load_round_trip Fixture.browser Fixture.session
                   _ _ _) _ _ _);
    vm_compute; (reflexivity || discriminate).
Defined.

(** X2.  An operation of the store touches the storage under the key of the
    page and nowhere else: the entry of any other key, the snapshot of
    another page among them, is after the operation what it was before. *)
Theorem X2_other_pages_untouched B s o k :
  k <> getStorageKey s ->
  localStorage (step B s o) !! k = localStorage s !! k.
Proof.
  intros Hk.
  destruct (step_storage B s o) as [-> | (s1 & Hl & Hh & Ht & [-> | ->])];
    [reflexivity | |].
  - rewrite saveState_localStorage, Hl.
    destruct (storageThrows s1); [reflexivity |].
    rewrite (getStorageKey_ext s s1 Hh).
    apply lookup_insert_ne. congruence.
  - rewrite clearState_localStorage, Hl.
    destruct (storageThrows s1); [reflexivity |].
    rewrite (getStorageKey_ext s s1 Hh).
    apply lookup_delete_ne. congruence.
Qed.

Lemma X2_other_pages_untouched_witness :
  localStorage (step Fixture.browser Fixture.shared OpClear)
    !! Fixture.other_url = Some "five"
  /\ localStorage (step Fixture.browser Fixture.shared
                     (OpDeselect "wdh-1-a")) !! Fixture.other_url
     = Some "five".
Proof.
  split.
  - rewrite (X2_other_pages_untouched Fixture.browser Fixture.shared OpClear
               Fixture.other_url); [vm_compute; reflexivity |].
    vm_compute. discriminate.
  - rewrite (X2_other_pages_untouched Fixture.browser Fixture.shared
               (OpDeselect "wdh-1-a") Fixture.other_url);
      [vm_compute; reflexivity |].
    vm_compute. discriminate.
Defined.
Lemma in_memory_saveState B s : in_memory (saveState B s) = in_memory s.
Proof. apply (saveState_obs in_memory). obs_side. Qed.

Lemma in_memory_clearState s : in_memory (clearState s) = in_memory s.
Proof. apply (clearState_obs in_memory). obs_side. Qed.

Lemma in_memory_updatePanel (s t : State) :
  in_memory s = in_memory t -> in_memory (updatePanel s) = in_memory (updatePanel t).
Proof.
  unfold in_memory. intros H. injection H as H1 H2 H3 H4 H5 H6 H7 H8.
  unfold updatePanel. rewrite H6.
  destruct (panel t) as [old|] eqn:E; state_cbn;
    rewrite ?(renderPanel_ext _ s t) by assumption; congruence.
Qed.

Lemma fold_dropBindings_with_storage m b l s :
  fold_left dropBindings l (with_storage m b s)
  = with_storage m b (fold_left dropBindings l s).
Proof.
  revert s. induction l as [|i l IH]; intros s; [reflexivity |].
  cbn [fold_left]. rewrite <- IH. f_equal.
  unfold dropBindings, unmark. cbn [document with_storage].
  destruct (query_marker (document s) i); reflexivity.
Qed.

Lemma step_in_memory B s o m b :
  in_memory (step B (with_storage m b s) o) = in_memory (step B s o).
Proof.
  destruct o as [element newId | i | i t | i c | i px | i | |]; cbn [step].
  - unfold selectElement, select_refused.
    cbn [document with_storage focusedElementId selectedElements].
    destruct (node_at (root (document s)) element) as [e|]; [| reflexivity].
    match goal with |- context [if ?c then with_storage m b s else _] =>
      destruct c end; [reflexivity |].
    destruct (box (attrs e)) as [t l w h].
    destruct (Js.truthy (focusedElementId s));
      [destruct (find_element _ (selectedElements s)) |];
      rewrite !in_memory_saveState; apply in_memory_updatePanel; reflexivity.
  - unfold deselectElement. rewrite !in_memory_saveState.
    apply in_memory_updatePanel. unfold unmark. cbn [document with_storage].
    destruct (query_marker (document s) i); reflexivity.
  - unfold updateLabel. cbn [with_storage selectedElements].
    destruct (find_element i (selectedElements s)); [| reflexivity].
    rewrite !in_memory_saveState. reflexivity.
  - unfold changeElementColor. cbn [with_storage selectedElements].
    destruct (find_element i (selectedElements s)); [| reflexivity].
    rewrite !in_memory_saveState. apply in_memory_updatePanel. reflexivity.
  - unfold updatePadding. cbn [with_storage selectedElements].
    destruct (find_element i (selectedElements s)); [| reflexivity].
    rewrite !in_memory_saveState. reflexivity.
  - unfold startFocus. cbn [with_storage selectedElements].
    destruct (find_element i (selectedElements s)); [| reflexivity].
    rewrite !in_memory_saveState. apply in_memory_updatePanel. reflexivity.
  - unfold endFocus. rewrite !in_memory_saveState.
    apply in_memory_updatePanel. reflexivity.
  - unfold clearAllSelections. cbn [with_storage focusedElementId selectedElements].
    destruct (Js.truthy (focusedElementId s)).
    + rewrite !in_memory_saveState. apply in_memory_updatePanel.
      rewrite fold_dropBindings_with_storage. reflexivity.
    + rewrite !in_memory_clearState. apply in_memory_updatePanel.
      rewrite fold_dropBindings_with_storage. reflexivity.
Qed.

(** X3.  What an operation leaves in the variables of the script, in the
    panel, in the overlays and on the page does not depend on the storage:
    it is the same over any content of the storage, working or throwing.
    And over a storage that throws the operation leaves the storage as it
    is. *)
Theorem X3_storage_failure B s o :
  (forall m b,
      in_memory (step B (with_storage m b s) o) = in_memory (step B s o))
  /\ (storageThrows s = true ->
      localStorage (step B s o) = localStorage s).
Proof.
  split; [intros m b; apply step_in_memory |].
  intros Hthrows.
  destruct (step_storage B s o) as [-> | (s1 & Hl & Hh & Ht & [-> | ->])];
    [reflexivity | |].
  - rewrite saveState_localStorage, Ht, Hthrows. exact Hl.
  - rewrite clearState_localStorage, Ht, Hthrows. exact Hl.
Qed.

Lemma X3_storage_failure_witness :
  storageThrows Fixture.failing = true
  /\ localStorage (step Fixture.browser Fixture.failing
                     (OpChangeColor "wdh-1-a" blue))
     = localStorage Fixture.failing
  /\ color <$> selectedElements (step Fixture.browser Fixture.failing
                                   (OpChangeColor "wdh-1-a" blue))
     = [blue].
Proof.
  split; [vm_compute; reflexivity |].
  split; [| vm_compute; reflexivity].
  apply (proj2 (X3_storage_failure Fixture.browser Fixture.failing
                  (OpChangeColor "wdh-1-a" blue))).
  vm_compute. reflexivity.
Defined.

(** ** The page *)

Lemma node_down_app r a b :
  node_down r (a ++ b) = node_down r a ≫= fun e => node_down e b.
Proof.
  revert r. induction a as [|i a IH]; intros r; [reflexivity |].
  cbn [app node_down]. destruct (children r !! i); [apply IH | reflexivity].
Qed.

Lemma node_at_down r p : node_at r p = node_down r (rev p).
Proof.
  induction p as [|i q IH]; [reflexivity |].
  cbn [node_at rev]. rewrite node_down_app, IH.
  destruct (node_down r (rev q)) as [e|]; [| reflexivity].
  cbn. destruct (children e !! i); reflexivity.
Qed.

(** The element an update aims at has its attributes changed and its
    children kept. *)
Lemma node_down_alter_same f down r :
  node_down (alter_down f down r) down
  = (fun e => Elem (f (attrs e)) (children e)) <$> node_down r down.
Proof.
  revert r. induction down as [|i rest IH]; intros r; [reflexivity |].
  cbn [alter_down node_down children].
  rewrite list_lookup_alter_eq.
  destruct (children r !! i) as [c|]; [apply IH | reflexivity].
Qed.

(** Every other element keeps its attributes. *)
Lemma node_down_alter_other f down r down' :
  down' <> down ->
  attrs <$> node_down (alter_down f down r) down'
  = attrs <$> node_down r down'.
Proof.
  revert r down'. induction down as [|i rest IH]; intros r down' Hne.
  - destruct down' as [|j rest']; [contradiction | reflexivity].
  - destruct down' as [|j rest']; [reflexivity |].
    cbn [alter_down node_down children].
    destruct (decide (j = i)) as [-> | Hji].
    + rewrite list_lookup_alter_eq.
      destruct (children r !! i) as [c|]; [| reflexivity].
      cbn [fmap option_fmap option_map]. apply IH. congruence.
    + rewrite list_lookup_alter_ne by congruence. reflexivity.
Qed.

Lemma node_at_alter_same f p d :
  node_at (root (alter_at f p d)) p
  = (fun e => Elem (f (attrs e)) (children e)) <$> node_at (root d) p.
Proof. rewrite !node_at_down. apply node_down_alter_same. Qed.

Lemma node_at_alter_other f p d q :
  q <> p ->
  attrs <$> node_at (root (alter_at f p d)) q = attrs <$> node_at (root d) q.
Proof.
  intros Hne. rewrite !node_at_down. apply node_down_alter_other.
  intros H. apply Hne. apply (f_equal (@rev nat)) in H.
  rewrite !rev_involutive in H. exact H.
Qed.

Lemma alter_down_compose f g down r :
  alter_down g down (alter_down f down r) = alter_down (fun a => g (f a)) down r.
Proof.
  revert r. induction down as [|i rest IH]; intros r; [reflexivity |].
  cbn [alter_down attrs children]. f_equal.
  rewrite list_alter_alter_eq. apply list_alter_ext; [| reflexivity].
  intros c _. apply IH.
Qed.

Lemma alter_down_id f down r e :
  node_down r down = Some e -> f (attrs e) = attrs e ->
  alter_down f down r = r.
Proof.
  revert r. induction down as [|i rest IH]; intros r Hnode Hf.
  - injection Hnode as ->. cbn [alter_down]. rewrite Hf. destruct e; reflexivity.
  - cbn [alter_down node_down] in *.
    destruct (children r !! i) as [c|] eqn:Hc; [| discriminate].
    assert (Halter : alter (alter_down f rest) i (children r) = children r).
    { apply list_eq. intros j. destruct (decide (j = i)) as [-> | Hji].
      - rewrite list_lookup_alter_eq, Hc. cbn. f_equal. apply IH; assumption.
      - apply list_lookup_alter_ne. congruence. }
    rewrite Halter. destruct r; reflexivity.
Qed.

(** ** The element that carries a marker *)

Lemma find_marked_eq i a cs p :
  find_marked i (Elem a cs) p
  = if bool_decide (wdhId a = Some i) then Some p else scan_marked i cs 0 p.
Proof.
  cbn [find_marked]. destruct (bool_decide (wdhId a = Some i)); [reflexivity |].
  generalize 0%nat. induction cs as [|c cs IH]; intros k; [reflexivity |].
  cbn [scan_marked]. rewrite <- IH. reflexivity.
Qed.

Lemma scan_marked_none i l k p :
  Forall (fun c => forall q, find_marked i c q = None) l ->
  scan_marked i l k p = None.
Proof.
  intros H. revert k. induction H as [|c l Hc _ IH]; intros k; [reflexivity |].
  cbn [scan_marked]. rewrite Hc. apply IH.
Qed.

Lemma marker_free_child i e k c :
  marker_free i e -> children e !! k = Some c -> marker_free i c.
Proof.
  intros H Hc down e' Hnode. apply (H (k :: down)).
  cbn [node_down]. rewrite Hc. exact Hnode.
Qed.

Lemma scan_marked_none_inv i l k p :
  scan_marked i l k p = None ->
  forall j c, l !! j = Some c -> find_marked i c ((k + j)%nat :: p) = None.
Proof.
  revert k. induction l as [|x l IH]; intros k H j c Hc; [discriminate |].
  cbn [scan_marked] in H.
  destruct (find_marked i x (k :: p)) eqn:Hx; [discriminate |].
  destruct j as [|j].
  - injection Hc as <-. rewrite Nat.add_0_r. exact Hx.
  - cbn in Hc. rewrite Nat.add_succ_r. apply (IH (S k) H j c Hc).
Qed.

Lemma find_marked_none i e p :
  marker_free i e <-> find_marked i e p = None.
Proof.
  revert p. induction e as [a cs IH] using Element_induction. intros p.
  rewrite Forall_lookup in IH. rewrite find_marked_eq. split.
  - intros Hfree.
    rewrite bool_decide_eq_false_2 by (apply (Hfree [] (Elem a cs)); reflexivity).
    apply scan_marked_none. apply Forall_lookup_2. intros k c Hc q.
    apply (IH k c Hc). apply (marker_free_child i (Elem a cs) k); assumption.
  - destruct (bool_decide (wdhId a = Some i)) eqn:Hroot; [discriminate |].
    apply bool_decide_eq_false in Hroot.
    intros Hscan down e' Hnode. destruct down as [|k rest].
    + injection Hnode as <-. exact Hroot.
    + cbn [node_down children] in Hnode.
      destruct (cs !! k) as [c|] eqn:Hc; [| discriminate].
      pose proof (scan_marked_none_inv i cs 0 p Hscan k c Hc) as Hnone.
      apply (IH k c Hc) in Hnone. apply (Hnone rest e' Hnode).
Qed.

Lemma scan_marked_at i l k p idx c q :
  (forall j c', (j < idx)%nat -> l !! j = Some c' ->
                find_marked i c' ((k + j)%nat :: p) = None) ->
  l !! idx = Some c ->
  find_marked i c ((k + idx)%nat :: p) = Some q ->
  scan_marked i l k p = Some q.
Proof.
  revert k idx. induction l as [|x l IH]; intros k idx Hbefore Hc Hq;
    [discriminate |].
  cbn [scan_marked]. destruct idx as [|idx].
  - injection Hc as <-. rewrite Nat.add_0_r in Hq. rewrite Hq. reflexivity.
  - pose proof (Hbefore 0%nat x ltac:(lia) eq_refl) as H0.
    rewrite Nat.add_0_r in H0. rewrite H0.
    apply (IH (S k) idx).
    + intros j c' Hj Hc'. rewrite Nat.add_succ_l, <- Nat.add_succ_r.
      apply Hbefore; [lia | exact Hc'].
    + exact Hc.
    + rewrite Nat.add_succ_l, <- Nat.add_succ_r. exact Hq.
Qed.

(** On a page where no element carries the marker [i], the element that
    receives it is the one [querySelector] finds. *)
Lemma find_marked_alter_fresh i down r e p :
  marker_free i r -> node_down r down = Some e ->
  find_marked i (alter_down (set_wdhId (Some i)) down r) p
  = Some (rev down ++ p).
Proof.
  revert r p. induction down as [|k rest IH]; intros r p Hfree Hnode.
  - destruct r as [a cs]. cbn [alter_down attrs children].
    rewrite find_marked_eq. cbn [set_wdhId wdhId].
    rewrite bool_decide_eq_true_2 by reflexivity. reflexivity.
  - destruct r as [a cs]. cbn [alter_down node_down attrs children] in *.
    destruct (cs !! k) as [c|] eqn:Hc; [| discriminate].
    rewrite find_marked_eq.
    rewrite bool_decide_eq_false_2
      by (apply (Hfree [] (Elem a cs)); reflexivity).
    apply (scan_marked_at i _ 0 p k
             (alter_down (set_wdhId (Some i)) rest c)).
    + intros j c' Hj Hc'. rewrite list_lookup_alter_ne in Hc' by lia.
      apply find_marked_none.
      apply (marker_free_child i (Elem a cs) j); assumption.
    + rewrite list_lookup_alter_eq, Hc. reflexivity.
    + cbn [Nat.add]. rewrite (IH c (k :: p)).
      * cbn [rev]. rewrite <- app_assoc. reflexivity.
      * apply (marker_free_child i (Elem a cs) k); assumption.
      * exact Hnode.
Qed.

Lemma query_marker_alter_fresh i p d e :
  query_marker d i = None -> node_at (root d) p = Some e ->
  query_marker (alter_at (set_wdhId (Some i)) p d) i = Some p.
Proof.
  unfold query_marker, alter_at. cbn [root]. intros Hq Hnode.
  rewrite node_at_down in Hnode.
  rewrite (find_marked_alter_fresh i (rev p) (root d) e [])
    by (try apply find_marked_none in Hq; assumption).
  rewrite rev_involutive, app_nil_r. reflexivity.
Qed.

(** Setting a marker and deleting it again gives the page back, if the
    element carried no marker before. *)
Lemma alter_at_set_unset i p d e :
  node_at (root d) p = Some e -> wdhId (attrs e) = None ->
  alter_at (set_wdhId None) p (alter_at (set_wdhId (Some i)) p d) = d.
Proof.
  intros Hnode Hnone. unfold alter_at. cbn [root body].
  rewrite alter_down_compose. rewrite node_at_down in Hnode.
  rewrite (alter_down_id _ _ _ e Hnode).
  - destruct d; reflexivity.
  - destruct (attrs e) as [t j c b w bx]. cbn in *. subst w. reflexivity.
Qed.

(** ** Selectors and markers *)

Lemma node_at_unmarked r p :
  node_at (unmarked r) p = unmarked <$> node_at r p.
Proof.
  induction p as [|i q IH]; [reflexivity |].
  cbn [node_at]. rewrite IH.
  destruct (node_at r q) as [[a cs]|]; [| reflexivity].
  cbn. apply list_lookup_fmap.
Qed.

Lemma sibling_scan_unmarked tag self cs :
  sibling_scan tag self (map unmarked cs) = sibling_scan tag self cs.
Proof.
  unfold sibling_scan. generalize (0, 0, 0%nat).
  induction cs as [|c cs IH]; intros acc; [reflexivity |].
  cbn [map fold_left]. rewrite IH.
  destruct acc as [[cnt pos] k]. destruct c as [a l]. reflexivity.
Qed.

Lemma segment_unmarked esc r a p :
  segment esc (unmarked r) (set_wdhId None a) p = segment esc r a p.
Proof.
  unfold segment. f_equal. f_equal.
  unfold nth_part. destruct p as [|i q]; [reflexivity |].
  rewrite node_at_unmarked.
  destruct (node_at r q) as [[pa cs]|]; [| reflexivity].
  cbn [fmap option_fmap option_map unmarked children set_wdhId elTagName].
  rewrite sibling_scan_unmarked. reflexivity.
Qed.

Lemma walk_up_unmarked esc d p acc :
  walk_up esc (unmarked_page d) p acc = walk_up esc d p acc.
Proof.
  revert acc. induction p as [|i q IH]; intros acc.
  - cbn [walk_up unmarked_page body root].
    destruct (bool_decide (body d = Some [])); [reflexivity |].
    destruct (root d) as [a cs]. cbn [node_at unmarked attrs].
    rewrite <- (segment_unmarked esc (Elem a cs) a []). reflexivity.
  - cbn [walk_up]. cbn [unmarked_page body root].
    destruct (bool_decide (body d = Some (i :: q))); [reflexivity |].
    rewrite node_at_unmarked.
    destruct (node_at (root d) (i :: q)) as [[a cs]|]; [| reflexivity].
    cbn [fmap option_fmap option_map unmarked attrs].
    rewrite segment_unmarked. apply IH.
Qed.

Lemma getSelector_unmarked esc d p :
  getSelector esc (unmarked_page d) p = getSelector esc d p.
Proof.
  unfold getSelector. cbn [unmarked_page root]. rewrite node_at_unmarked.
  destruct (node_at (root d) p) as [[a cs]|]; [| reflexivity].
  cbn [fmap option_fmap option_map unmarked attrs set_wdhId elId].
  destruct (negb (String.eqb (elId a) "")); [reflexivity |].
  rewrite walk_up_unmarked. reflexivity.
Qed.

Lemma unmarked_alter_down v down r :
  unmarked (alter_down (set_wdhId v) down r) = unmarked r.
Proof.
  revert r. induction down as [|i rest IH]; intros [a cs].
  - reflexivity.
  - cbn [alter_down attrs children unmarked]. f_equal.
    apply list_eq. intros j. rewrite !list_lookup_fmap.
    destruct (decide (j = i)) as [-> | Hji].
    + rewrite list_lookup_alter_eq. destruct (cs !! i) as [c|]; [| reflexivity].
      cbn. f_equal. apply IH.
    + rewrite list_lookup_alter_ne by congruence. reflexivity.
Qed.

Lemma getSelector_alter_marker esc v p d q :
  getSelector esc (alter_at (set_wdhId v) p d) q = getSelector esc d q.
Proof.
  rewrite <- (getSelector_unmarked esc (alter_at _ _ _)),
    <- (getSelector_unmarked esc d).
  f_equal. unfold unmarked_page, alter_at. cbn [root body].
  rewrite unmarked_alter_down. reflexivity.
Qed.

(** ** The overlays against the store *)

(** What [selectElement] does to the page and to the overlays. *)
Lemma selectElement_page B element newId s e :
  node_at (root (document s)) element = Some e ->
  select_refused s element (attrs e) = false ->
  let s' := selectElement B element newId s in
  exists new,
    selectedElements s' = selectedElements s ++ [new]
    /\ id new = newId /\ color new = red
    /\ selector new = getSelector (CSS_escape B) (document s) element
    /\ document s' = alter_at (set_wdhId (Some newId)) element (document s)
    /\ overlayContainer s'
       = (fun l =>
            (l ++ [createFrameOverlay newId (top (box (attrs e)))
                     (left (box (attrs e))) (width (box (attrs e)))
                     (height (box (attrs e))) red 0])
            ++ [createNumberBadge newId (label new) (top (box (attrs e)))
                  (left (box (attrs e))) red 0])
         <$> overlayContainer s.
Proof.
  intros Hnode Href s'. subst s'. unfold selectElement.
  rewrite Hnode, Href.
  destruct (Js.truthy (focusedElementId s));
    [destruct (find_element _ (selectedElements s)) as [parent|] |];
    (eexists; split; [store_frame; reflexivity |]);
    cbn [id color selector label];
    (split; [reflexivity |]); (split; [reflexivity |]);
    (split; [apply getSelector_alter_marker |]);
    frame document; frame overlayContainer; state_cbn;
    (split; [reflexivity |]);
    destruct (overlayContainer s); reflexivity.
Qed.

Lemma view_is_frame i n :
  is_frame_of i n
  = match view_of n with FrameView j _ => bool_decide (j = i) | _ => false end.
Proof. destruct n; reflexivity. Qed.

Lemma view_is_badge i n :
  is_badge_of i n
  = match view_of n with BadgeView j _ _ _ => bool_decide (j = i) | _ => false end.
Proof. destruct n; reflexivity. Qed.

(** The overlays of a store begin with the frame and the badge of its first
    annotation. *)
Lemma mirror_cons nodes e l :
  map view_of nodes = expected_views (e :: l) ->
  exists nF nB rest,
    nodes = nF :: nB :: rest
    /\ view_of nF = frame_view e /\ view_of nB = badge_view e
    /\ map view_of rest = expected_views l.
Proof.
  destruct nodes as [|nF [|nB rest]]; cbn; try discriminate.
  intros H. injection H as H1 H2 H3. eauto 10.
Qed.

Lemma filter_other_ids i l :
  i ∉ ids l ->
  List.filter (fun e => negb (bool_decide (id e = i))) l = l.
Proof.
  induction l as [|e l IH]; intros Hi; [reflexivity |].
  cbn [ids map] in Hi. apply not_elem_of_cons in Hi as [Hne Hi].
  cbn [List.filter]. rewrite bool_decide_eq_false_2 by congruence.
  cbn [negb]. f_equal. apply IH, Hi.
Qed.

(** Removing the frame and the badge of [i] leaves the overlays of the store
    without the annotation [i]. *)
Lemma mirror_remove i l nodes :
  NoDup (ids l) ->
  map view_of nodes = expected_views l ->
  map view_of (remove_first (is_badge_of i) (remove_first (is_frame_of i) nodes))
  = expected_views (List.filter (fun e => negb (bool_decide (id e = i))) l).
Proof.
  revert nodes. induction l as [|e l IH]; intros nodes Hnd H.
  - destruct nodes; [reflexivity | discriminate].
  - apply mirror_cons in H as (nF & nB & rest & -> & HF & HB & Hrest).
    cbn [ids map] in Hnd. apply NoDup_cons in Hnd as [Hnotin Hnd].
    cbn [remove_first List.filter].
    rewrite (view_is_frame i nF), HF. cbn [frame_view].
    destruct (bool_decide (id e = i)) eqn:Hid.
    + apply bool_decide_eq_true in Hid. subst i.
      cbn [remove_first negb].
      rewrite (view_is_badge (id e) nB), HB. cbn [badge_view].
      rewrite bool_decide_eq_true_2 by reflexivity.
      rewrite filter_other_ids by exact Hnotin. exact Hrest.
    + cbn [negb remove_first].
      rewrite (view_is_frame i nB), HB. cbn [badge_view remove_first].
      rewrite (view_is_badge i nF), HF. cbn [frame_view remove_first].
      rewrite (view_is_badge i nB), HB. cbn [badge_view]. rewrite Hid.
      cbn [map expected_views flat_map app]. rewrite HF, HB.
      f_equal. f_equal. apply IH; assumption.
Qed.

(** An update of the frame and of the badge of the first annotation with the
    id [i], against the same update of that annotation. *)
Lemma mirror_alter i g fF fB tF tB l nodes el :
  find_element i l = Some el ->
  (forall n, is_frame_of i n = true ->
             is_badge_of i (fF n) = false /\ view_of (fF n) = tF (view_of n)) ->
  (forall n, is_badge_of i n = true -> view_of (fB n) = tB (view_of n)) ->
  tF (frame_view el) = frame_view (g el) ->
  tB (badge_view el) = badge_view (g el) ->
  map view_of nodes = expected_views l ->
  map view_of (alter_first (is_badge_of i) fB
                 (alter_first (is_frame_of i) fF nodes))
  = expected_views (alter_element i g l).
Proof.
  intros Hfind HfF HfB HtF HtB. revert nodes.
  induction l as [|e l IH]; intros nodes H; [discriminate |].
  apply mirror_cons in H as (nF & nB & rest & -> & HF & HB & Hrest).
  unfold find_element in Hfind. cbn [find] in Hfind.
  unfold alter_element. cbn [alter_first].
  pose proof (view_is_frame i nF) as HnF. rewrite HF in HnF. cbn in HnF.
  pose proof (view_is_badge i nB) as HnB. rewrite HB in HnB. cbn in HnB.
  pose proof (view_is_frame i nB) as HnB'. rewrite HB in HnB'. cbn in HnB'.
  pose proof (view_is_badge i nF) as HnF'. rewrite HF in HnF'. cbn in HnF'.
  destruct (bool_decide (id e = i)) eqn:Hid.
  - injection Hfind as ->. rewrite HnF.
    destruct (HfF nF HnF) as [Hnb Hv].
    cbn [alter_first]. rewrite Hnb, HnB.
    cbn [map expected_views flat_map app].
    rewrite Hv, HF, HtF, (HfB nB HnB), HB, HtB, Hrest. reflexivity.
  - rewrite HnF. cbn [alter_first]. rewrite HnB'. cbn [alter_first].
    rewrite HnF', HnB.
    cbn [map expected_views flat_map app]. rewrite HF, HB.
    f_equal. f_equal. apply (IH Hfind rest Hrest).
Qed.

Lemma alter_first_same {A} (p : A -> bool) (l : list A) :
  alter_first p (fun x => x) l = l.
Proof.
  induction l as [|x l IH]; [reflexivity |].
  cbn [alter_first]. destruct (p x); [reflexivity | f_equal; exact IH].
Qed.

Lemma expected_views_app l l' :
  expected_views (l ++ l') = expected_views l ++ expected_views l'.
Proof. unfold expected_views. apply flat_map_app. Qed.

Lemma ids_alter_element i g l :
  (forall e, id (g e) = id e) -> ids (alter_element i g l) = ids l.
Proof.
  intros Hg. unfold alter_element, ids.
  induction l as [|e l IH]; [reflexivity |].
  cbn [alter_first]. destruct (bool_decide (id e = i)); cbn [map].
  - rewrite Hg. reflexivity.
  - f_equal. exact IH.
Qed.

Lemma unmark_overlay i s : overlayContainer (unmark i s) = overlayContainer s.
Proof. unfold unmark. destruct (query_marker _ _); reflexivity. Qed.

Lemma dropBindings_overlay s i :
  overlayContainer (dropBindings s i)
  = (fun nodes =>
       remove_first (is_badge_of i) (remove_first (is_frame_of i) nodes))
    <$> overlayContainer s.
Proof.
  unfold dropBindings, removeOverlay. state_cbn. rewrite unmark_overlay.
  destruct (overlayContainer s); reflexivity.
Qed.

Lemma filter_filter_bool {A} (p q : A -> bool) (l : list A) :
  List.filter q (List.filter p l) = List.filter (fun x => p x && q x) l.
Proof.
  induction l as [|x l IH]; [reflexivity |].
  cbn [List.filter]. destruct (p x); cbn [List.filter andb];
    [destruct (q x); [f_equal |]; exact IH | exact IH].
Qed.

Lemma filter_all {A} (q : A -> bool) (l : list A) :
  (forall x, x ∈ l -> q x = true) -> List.filter q l = l.
Proof.
  induction l as [|x l IH]; intros H; [reflexivity |].
  cbn [List.filter]. rewrite (H x) by left. f_equal.
  apply IH. intros y Hy. apply H. right. exact Hy.
Qed.

Lemma filter_none {A} (q : A -> bool) (l : list A) :
  (forall x, x ∈ l -> q x = false) -> List.filter q l = [].
Proof.
  induction l as [|x l IH]; intros H; [reflexivity |].
  cbn [List.filter]. rewrite (H x) by left.
  apply IH. intros y Hy. apply H. right. exact Hy.
Qed.

(** The overlays after the loop of [clearAllSelections] over the ids [ks]. *)
Lemma fold_dropBindings_mirror ks l s nodes :
  NoDup (ids l) ->
  overlayContainer s = Some nodes ->
  map view_of nodes = expected_views l ->
  exists nodes',
    overlayContainer (fold_left dropBindings ks s) = Some nodes'
    /\ map view_of nodes'
       = expected_views
           (List.filter (fun e => negb (bool_decide (id e ∈ ks))) l).
Proof.
  revert l s nodes. induction ks as [|k ks IH]; intros l s nodes Hnd Hov H.
  - exists nodes. split; [exact Hov |]. rewrite H. f_equal.
    symmetry. apply filter_all. intros e _.
    rewrite bool_decide_eq_false_2; [reflexivity | apply not_elem_of_nil].
  - cbn [fold_left].
    destruct (IH (List.filter (fun e => negb (bool_decide (id e = k))) l)
                (dropBindings s k)
                (remove_first (is_badge_of k)
                   (remove_first (is_frame_of k) nodes)))
      as (nodes' & Hov' & H').
    + apply NoDup_ids_filter, Hnd.
    + rewrite dropBindings_overlay, Hov. reflexivity.
    + apply mirror_remove; assumption.
    + exists nodes'. split; [exact Hov' |]. rewrite H'. f_equal.
      rewrite filter_filter_bool. apply filter_ext. intros e.
      destruct (bool_decide_reflect (id e = k)) as [-> | Hne].
      * cbn [negb andb]. rewrite bool_decide_eq_true_2; [reflexivity | left].
      * cbn [negb andb].
        destruct (bool_decide_reflect (id e ∈ ks)) as [Hin | Hnin].
        -- rewrite bool_decide_eq_true_2; [reflexivity | right; exact Hin].
        -- rewrite bool_decide_eq_false_2; [reflexivity |].
           intros Hc. apply elem_of_cons in Hc as [? | ?]; contradiction.
Qed.

(** With ids that are unique, the annotations whose id is among the ids of
    those that satisfy [q] are those that satisfy [q]. *)
Lemma filter_by_ids (q : SelectedElement -> bool) l :
  NoDup (ids l) ->
  List.filter (fun e => negb (bool_decide (id e ∈ map id (List.filter q l)))) l
  = List.filter (fun e => negb (q e)) l.
Proof.
  intros Hnd. apply filter_ext_in. intros e He. f_equal.
  apply list_elem_of_In in He.
  destruct (q e) eqn:Hq.
  - apply bool_decide_eq_true. apply list_elem_of_fmap. exists e.
    split; [reflexivity |]. apply elem_of_filter_bool. auto.
  - apply bool_decide_eq_false. intros Hin.
    apply list_elem_of_fmap in Hin as (e' & Hid & He').
    apply elem_of_filter_bool in He' as [He' Hq'].
    pose proof (find_element_unique l e Hnd He) as H1.
    pose proof (find_element_unique l e' Hnd He') as H2.
    rewrite Hid in H1. rewrite H1 in H2. injection H2 as ->. congruence.
Qed.

Lemma clearAllSelections_overlay B s :
  overlayContainer (clearAllSelections B s)
  = overlayContainer
      (fold_left dropBindings
         (map id (if Js.truthy (focusedElementId s)
                  then List.filter
                         (fun e => bool_decide (parentId e = of_nullable (focusedElementId s)))
                         (selectedElements s)
                  else selectedElements s)) s).
Proof.
  unfold clearAllSelections.
  destruct (Js.truthy (focusedElementId s)); frame overlayContainer;
    state_cbn; reflexivity.
Qed.

(** An operation keeps the overlays in step with the store, provided the id
    a selection brings is new. *)
Lemma step_keeps_mirror B s o :
  overlays_mirror s ->
  match o with
  | OpSelect _ newId => newId ∉ ids (selectedElements s)
  | _ => True
  end ->
  overlays_mirror (step B s o).
Proof.
  intros [Hnd (nodes & Hov & Hm)] Hfresh.
  destruct o as [element newId | i | i t | i c | i px | i | |]; cbn [step];
    unfold overlays_mirror.
  - destruct (node_at (root (document s)) element) as [e|] eqn:Hnode;
      [| rewrite selectElement_no_element by assumption; split; eauto].
    destruct (select_refused s element (attrs e)) eqn:Href;
      [rewrite (selectElement_refused _ _ _ _ e) by assumption; split; eauto |].
    destruct (selectElement_page B element newId s e Hnode Href)
      as (new & Hs & Hid & Hcol & _ & _ & Ho).
    split.
    + rewrite Hs. unfold ids. rewrite map_app. apply NoDup_app.
      split; [exact Hnd |]. split.
      * intros x Hx Hx'. cbn in Hx'. apply list_elem_of_singleton in Hx'.
        subst x. rewrite Hid in Hx. contradiction.
      * cbn. apply NoDup_singleton.
    + rewrite Ho, Hov, Hs. eexists. split; [reflexivity |].
      rewrite !map_app, expected_views_app, Hm. rewrite <- app_assoc.
      f_equal. cbn. unfold frame_view, badge_view. rewrite Hid, Hcol.
      reflexivity.
  - destruct (deselectElement_store B i s) as (Hs & _).
    split; [rewrite Hs; apply NoDup_ids_filter, Hnd |].
    exists (remove_first (is_badge_of i) (remove_first (is_frame_of i) nodes)).
    split.
    + unfold deselectElement. frame overlayContainer. state_cbn.
      rewrite unmark_overlay, Hov. reflexivity.
    + rewrite Hs. apply mirror_remove; assumption.
  - destruct (update_store B s (OpUpdateLabel i t) i (with_label t) eq_refl)
      as (Hs & _).
    cbn [step] in Hs. rewrite Hs.
    unfold updateLabel.
    destruct (find_element i (selectedElements s)) as [el|] eqn:Hel;
      [| split; eauto].
    split; [rewrite ids_alter_element by reflexivity; exact Hnd |].
    eexists. split.
    + frame overlayContainer. state_cbn. rewrite Hov. reflexivity.
    + cbn [fmap option_fmap option_map].
      rewrite <- (alter_first_same (is_frame_of i) nodes) at 1.
      apply (mirror_alter i (with_label t) _ _ (fun v => v)
               (fun v => match v with
                         | BadgeView j _ _ hex =>
                             BadgeView j t (calculateBadgeWidth t) hex
                         | _ => v
                         end) _ _ el Hel).
      * intros n Hn. destruct n; [split; reflexivity | discriminate].
      * intros n Hn. destruct n; [discriminate | reflexivity].
      * reflexivity.
      * reflexivity.
      * exact Hm.
  - destruct (update_store B s (OpChangeColor i c) i (with_color c) eq_refl)
      as (Hs & _).
    cbn [step] in Hs. rewrite Hs.
    unfold changeElementColor.
    destruct (find_element i (selectedElements s)) as [el|] eqn:Hel;
      [| split; eauto].
    split; [rewrite ids_alter_element by reflexivity; exact Hnd |].
    eexists. split.
    + frame overlayContainer. state_cbn. rewrite Hov. reflexivity.
    + cbn [fmap option_fmap option_map].
      apply (mirror_alter i (with_color c) _ _
               (fun v => match v with
                         | FrameView j _ => FrameView j (getColorHex c)
                         | _ => v
                         end)
               (fun v => match v with
                         | BadgeView j text w _ =>
                             BadgeView j text w (getColorHex c)
                         | _ => v
                         end) _ _ el Hel).
      * intros n Hn. destruct n; [split; reflexivity | discriminate].
      * intros n Hn. destruct n; [discriminate | reflexivity].
      * reflexivity.
      * reflexivity.
      * exact Hm.
  - destruct (update_store B s (OpUpdatePadding i px) i (with_padding px)
                eq_refl) as (Hs & _).
    cbn [step] in Hs. rewrite Hs.
    unfold updatePadding.
    destruct (find_element i (selectedElements s)) as [el|] eqn:Hel;
      [| split; eauto].
    split; [rewrite ids_alter_element by reflexivity; exact Hnd |].
    eexists. split.
    + frame overlayContainer. state_cbn. rewrite Hov. reflexivity.
    + cbn [fmap option_fmap option_map].
      apply (mirror_alter i (with_padding px) _ _ (fun v => v)
               (fun v => match v with
                         | BadgeView j text _ hex =>
                             BadgeView j text (calculateBadgeWidth (label el))
                               hex
                         | _ => v
                         end) _ _ el Hel).
      * intros n Hn. destruct n; [split; reflexivity | discriminate].
      * intros n Hn. destruct n; [discriminate | reflexivity].
      * reflexivity.
      * reflexivity.
      * exact Hm.
  - unfold startFocus.
    destruct (find_element i (selectedElements s)); [| split; eauto].
    split; [store_frame; exact Hnd |].
    exists nodes. frame overlayContainer. store_frame. auto.
  - unfold endFocus. split; [store_frame; exact Hnd |].
    exists nodes. frame overlayContainer. store_frame. auto.
  - destruct (clearAllSelections_store B s) as (Hs & _).
    rewrite Hs, clearAllSelections_overlay.
    destruct (Js.truthy (focusedElementId s)).
    + split; [apply NoDup_ids_filter, Hnd |].
      destruct (fold_dropBindings_mirror
                  (map id (List.filter
                             (fun e => bool_decide
                                         (parentId e = of_nullable (focusedElementId s)))
                             (selectedElements s)))
                  (selectedElements s) s nodes Hnd Hov Hm)
        as (nodes' & Hov' & Hm').
      exists nodes'. split; [exact Hov' |]. rewrite Hm'.
      rewrite filter_by_ids by exact Hnd. reflexivity.
    + split; [constructor |].
      destruct (fold_dropBindings_mirror (map id (selectedElements s))
                  (selectedElements s) s nodes Hnd Hov Hm)
        as (nodes' & Hov' & Hm').
      exists nodes'. split; [exact Hov' |]. rewrite Hm'. f_equal.
      apply filter_none. intros e He.
      rewrite bool_decide_eq_true_2; [reflexivity |].
      apply list_elem_of_fmap. exists e. split; [reflexivity | exact He].
Qed.

(** ** Selecting, and selecting again *)

Lemma run_keeps_mirror B ops s :
  overlays_mirror s -> fresh_ids B s ops = true ->
  overlays_mirror (run B s ops).
Proof.
  revert s. induction ops as [|o ops IH]; intros s Hm Hfresh; [exact Hm |].
  cbn [fresh_ids] in Hfresh. apply andb_true_iff in Hfresh as [Ho Hfresh].
  cbn [run fold_left]. apply IH; [| exact Hfresh].
  apply step_keeps_mirror; [exact Hm |].
  destruct o; try exact I. apply bool_decide_eq_true in Ho. exact Ho.
Qed.

(** X4.  The overlay container mirrors the store through every sequence of
    operations in which each selection brings a new id: it holds, in the
    order of the store, one frame and one badge for each annotation and no
    other child; the frame has the colour of the annotation, the badge its
    label, its colour and the width computed from its label. *)
Theorem X4_overlays_mirror_store B s ops :
  overlays_mirror s -> fresh_ids B s ops = true ->
  overlays_mirror (run B s ops).
Proof. apply run_keeps_mirror. Qed.

Lemma X4_overlays_mirror_store_witness :
  overlays_mirror
    (run Demo.browser Demo.editing
       [ OpSelect Demo.card_a "wdh-1-a"; OpSelect Demo.card_b "wdh-1-b";
         OpUpdateLabel "wdh-1-a" "Header"; OpChangeColor "wdh-1-b" blue;
         OpUpdatePadding "wdh-1-a" 8; OpStartFocus "wdh-1-a";
         OpSelect Demo.span_1 "wdh-1-c"; OpClear; OpEndFocus;
         OpDeselect "wdh-1-a" ]).
Proof.
  apply X4_overlays_mirror_store.
  - split; [constructor |]. exists []. split; vm_compute; reflexivity.
  - vm_compute. reflexivity.
Defined.

Lemma map_eq_nil_inv {A C} (f : A -> C) (l : list A) : map f l = [] -> l = [].
Proof. destruct l; [reflexivity | discriminate]. Qed.

(** X5.  Outside focus mode [clearAllSelections] leaves the overlay
    container without a child and the store empty, in a session whose
    overlays mirror the store. *)
Theorem X5_clear_all_empties_overlays B s :
  overlays_mirror s -> Js.truthy (focusedElementId s) = false ->
  overlayContainer (clearAllSelections B s) = Some []
  /\ selectedElements (clearAllSelections B s) = [].
Proof.
  intros [Hnd (nodes & Hov & Hm)] Hfocus.
  destruct (clearAllSelections_store B s) as (Hs & _).
  rewrite Hs, clearAllSelections_overlay, Hfocus. split; [| reflexivity].
  destruct (fold_dropBindings_mirror (map id (selectedElements s))
              (selectedElements s) s nodes Hnd Hov Hm)
    as (nodes' & Hov' & Hm').
  rewrite Hov'. f_equal. apply (map_eq_nil_inv view_of).
  rewrite Hm'.
  rewrite filter_none; [reflexivity |]. intros e He.
  rewrite bool_decide_eq_true_2; [reflexivity |].
  apply list_elem_of_fmap. exists e. split; [reflexivity | exact He].
Qed.

Lemma X5_clear_all_empties_overlays_witness :
  (List.length <$> overlayContainer
                     (run Demo.browser Demo.editing
                        [ OpSelect Demo.card_a "wdh-1-a";
                          OpSelect Demo.card_b "wdh-1-b" ])) = Some 4%nat
  /\ overlayContainer
       (clearAllSelections Demo.browser
          (run Demo.browser Demo.editing
             [ OpSelect Demo.card_a "wdh-1-a";
               OpSelect Demo.card_b "wdh-1-b" ])) = Some [].
Proof.
  split; [vm_compute; reflexivity |].
  apply X5_clear_all_empties_overlays; [| vm_compute; reflexivity].
  apply run_keeps_mirror; [| vm_compute; reflexivity].
  split; [constructor |]. exists []. split; vm_compute; reflexivity.
Defined.

Lemma mirror_no_foreign_overlay l nodes i n :
  map view_of nodes = expected_views l -> i ∉ ids l -> n ∈ nodes ->
  is_frame_of i n = false /\ is_badge_of i n = false.
Proof.
  intros Hm Hi Hn.
  assert (Hv : In (view_of n) (expected_views l)).
  { rewrite <- Hm. apply in_map. apply list_elem_of_In. exact Hn. }
  unfold expected_views in Hv. apply in_flat_map in Hv as (e & He & Hv).
  assert (Hne : id e <> i).
  { intros <-. apply Hi. apply list_elem_of_fmap. exists e.
    split; [reflexivity |]. apply list_elem_of_In. exact He. }
  rewrite view_is_frame, view_is_badge.
  destruct Hv as [<- | [<- | []]]; cbn;
    rewrite ?bool_decide_eq_false_2 by exact Hne; auto.
Qed.

Lemma remove_first_app_skip {A} (p : A -> bool) (l l' : list A) :
  (forall x, x ∈ l -> p x = false) ->
  remove_first p (l ++ l') = l ++ remove_first p l'.
Proof.
  induction l as [|x l IH]; intros H; [reflexivity |].
  cbn [app remove_first]. rewrite (H x) by left. f_equal.
  apply IH. intros y Hy. apply H. right. exact Hy.
Qed.

(** X6.  [deselectElement] undoes [selectElement] on an element without a
    marker, when the id is new to the store and to the page: the store, the
    overlay container, the page and the focus are back to what they were.
    The counter that numbered the annotation is not: it stays one higher, so
    the label is not handed out again. *)
Theorem X6_deselect_undoes_select B s element newId e :
  overlays_mirror s ->
  newId ∉ ids (selectedElements s) ->
  query_marker (document s) newId = None ->
  node_at (root (document s)) element = Some e ->
  wdhId (attrs e) = None ->
  select_refused s element (attrs e) = false ->
  let s' := deselectElement B newId (selectElement B element newId s) in
  selectedElements s' = selectedElements s
  /\ overlayContainer s' = overlayContainer s
  /\ document s' = document s
  /\ focusedElementId s' = focusedElementId s
  /\ match focus_parent s with
     | Some _ => nextNumber s' = nextNumber s
                 /\ focusedSubNumber s' = focusedSubNumber s + 1
     | None => nextNumber s' = nextNumber s + 1
               /\ focusedSubNumber s' = focusedSubNumber s
     end.
Proof.
  intros [Hnd (nodes & Hov & Hm)] Hfresh Hq Hnode Hnone Href s'. subst s'.
  destruct (selectElement_page B element newId s e Hnode Href)
    as (new & Hs & Hid & _ & _ & Hdoc & Ho).
  destruct (selectElement_applied B element newId s e Hnode Href)
    as (new' & Hs' & _ & _ & _ & _ & _ & Hf & Hcount).
  cbn zeta in *.
  set (s1 := selectElement B element newId s) in *.
  destruct (deselectElement_store B newId s1) as (Hs2 & Hn2 & Hf2 & Hsub2).
  cbn zeta in *. rewrite Hn2, Hf2, Hsub2, Hf.
  split; [| split; [| split; [| split; [reflexivity |]]]].
  - rewrite Hs2, Hs, List.filter_app, filter_other_ids by exact Hfresh.
    cbn [List.filter]. rewrite bool_decide_eq_true_2 by exact Hid.
    apply app_nil_r.
  - unfold deselectElement. frame overlayContainer. state_cbn.
    rewrite unmark_overlay, Ho, Hov. cbn [fmap option_fmap option_map].
    f_equal. rewrite <- app_assoc.
    assert (Hskip : forall n, n ∈ nodes ->
              is_frame_of newId n = false /\ is_badge_of newId n = false)
      by (intros n; apply (mirror_no_foreign_overlay _ _ _ _ Hm Hfresh)).
    rewrite remove_first_app_skip by (intros n Hn; apply (Hskip n Hn)).
    cbn [app remove_first createFrameOverlay is_frame_of].
    rewrite bool_decide_eq_true_2 by reflexivity.
    rewrite remove_first_app_skip by (intros n Hn; apply (Hskip n Hn)).
    cbn [remove_first createNumberBadge is_badge_of].
    rewrite bool_decide_eq_true_2 by reflexivity. apply app_nil_r.
  - unfold deselectElement. frame document. state_cbn.
    unfold unmark. rewrite Hdoc.
    rewrite (query_marker_alter_fresh newId element (document s) e Hq Hnode).
    cbn [document set_document].
    apply (alter_at_set_unset newId element (document s) e Hnode Hnone).
  - destruct (focus_parent s); exact (proj2 (proj2 Hcount))
      || (destruct Hcount as (_ & _ & H1 & H2); auto).
Qed.

Lemma X6_deselect_undoes_select_witness :
  let s' := deselectElement Demo.browser "wdh-1-b"
              (selectElement Demo.browser Demo.card_b "wdh-1-b" Demo.one) in
  selectedElements s' = selectedElements Demo.one
  /\ overlayContainer s' = overlayContainer Demo.one
  /\ document s' = document Demo.one
  /\ nextNumber Demo.one = 2 /\ nextNumber s' = 3.
Proof.
  assert (Hm : overlays_mirror Demo.one).
  { apply (run_keeps_mirror Demo.browser [OpSelect Demo.card_a "wdh-1-a"]
             Demo.editing); [| vm_compute; reflexivity].
    split; [constructor |]. exists []. split; vm_compute; reflexivity. }
  destruct (X6_deselect_undoes_select Demo.browser Demo.one Demo.card_b
              "wdh-1-b"
              (Demo.el "DIV" "" "card b" None 70 20 100 50 []) Hm)
    as (H1 & H2 & H3 & _ & H4);
    try (vm_compute; reflexivity).
  - apply (bool_decide_unpack _). vm_compute. reflexivity.
  - split; [exact H1 |]. split; [exact H2 |]. split; [exact H3 |].
    split; vm_compute; reflexivity.
Defined.

(** X7.  A second click on an element that was just selected changes
    nothing: the marker [selectElement] put on the element makes the next
    [selectElement] on it return at once, whatever id it would bring. *)
Theorem X7_select_twice B s element newId otherId e :
  node_at (root (document s)) element = Some e ->
  select_refused s element (attrs e) = false ->
  newId <> "" ->
  selectElement B element otherId (selectElement B element newId s)
  = selectElement B element newId s.
Proof.
  intros Hnode Href Hid.
  destruct (selectElement_page B element newId s e Hnode Href)
    as (new & _ & _ & _ & _ & Hdoc & _).
  cbn zeta in Hdoc.
  apply (selectElement_refused B element otherId _
           (Elem (set_wdhId (Some newId) (attrs e)) (children e))).
  - rewrite Hdoc, node_at_alter_same, Hnode. reflexivity.
  - unfold select_refused. cbn [attrs set_wdhId wdhId].
    rewrite truthy_Some by exact Hid. reflexivity.
Qed.

Lemma X7_select_twice_witness :
  selectElement Demo.browser Demo.card_a "wdh-2-x" Demo.one = Demo.one.
Proof.
  apply (X7_select_twice Demo.browser Demo.editing Demo.card_a "wdh-1-a"
           "wdh-2-x" (Demo.el "DIV" "" "card a" None 10 20 100 50
                        [ Demo.el "SPAN" "" "" None 12 22 30 10 [];
                          Demo.el "SPAN" "" "3x" None 12 60 30 10 [] ]));
    vm_compute; (reflexivity || discriminate).
Defined.

(** X8.  The markers of the script never change a selector: [getSelector]
    gives the same text for every element whether or not any element of
    the page carries a marker.  The selector [selectElement] stores, which
    it computes after it has marked the element, is therefore the selector
    of the element on the page as it was before the click. *)
Theorem X8_getSelector_ignores_markers esc d :
  (forall v p q,
      getSelector esc (alter_at (set_wdhId v) p d) q = getSelector esc d q)
  /\ (forall q, getSelector esc (unmarked_page d) q = getSelector esc d q)
  /\ (forall B s element newId e,
        node_at (root (document s)) element = Some e ->
        select_refused s element (attrs e) = false ->
        exists new,
          selectedElements (selectElement B element newId s)
          = selectedElements s ++ [new]
          /\ selector new = getSelector (CSS_escape B) (document s) element).
Proof.
  split; [intros; apply getSelector_alter_marker |].
  split; [intros; apply getSelector_unmarked |].
  intros B s element newId e Hnode Href.
  destruct (selectElement_page B element newId s e Hnode Href)
    as (new & Hs & _ & _ & Hsel & _).
  exists new. auto.
Qed.

Lemma X8_getSelector_ignores_markers_witness :
  exists new,
    selectedElements (selectElement Demo.browser Demo.card_b "wdh-1-b" Demo.one)
    = selectedElements Demo.one ++ [new]
    /\ selector new = "div.card.b:nth-of-type(2)".
Proof.
  destruct (proj2 (proj2 (X8_getSelector_ignores_markers None Demo.page))
              Demo.browser Demo.one Demo.card_b "wdh-1-b"
              (Demo.el "DIV" "" "card b" None 70 20 100 50 []))
    as (new & Hs & Hsel); [vm_compute; reflexivity .. |].
  exists new. split; [exact Hs |]. rewrite Hsel. vm_compute. reflexivity.
Defined.

(** ** Restore of a whole snapshot *)

(** An entry whose selector leads to an element that is not bound yet and
    carries no marker of another annotation is bound to it. *)
Lemma restoreOne_binds B savedEl used s p n :
  querySelector B (document s) (selector savedEl) = Found p ->
  node_at (root (document s)) p = Some n ->
  p ∉ used ->
  (wdhId (attrs n) = Some (id savedEl) \/ Js.truthy (wdhId (attrs n)) = false) ->
  exists s1,
    restoreOne B savedEl used s = Some ({[p]} ∪ used, s1)
    /\ document s1 = alter_at (set_wdhId (Some (id savedEl))) p (document s)
    /\ selectedElements s1
       = selectedElements s ++ [restored (box (attrs n)) savedEl]
    /\ log s1 = log s.
Proof.
  intros Hq Hnode Hused Hmark. unfold restoreOne. rewrite Hq, Hnode.
  rewrite bool_decide_eq_false_2 by exact Hused.
  assert (Hc : Js.truthy (wdhId (attrs n))
               && negb (bool_decide (wdhId (attrs n) = Some (id savedEl)))
               = false).
  { destruct Hmark as [-> | ->]; [| reflexivity].
    rewrite bool_decide_eq_true_2 by reflexivity. apply andb_false_r. }
  rewrite Hc. eexists. split; [reflexivity |].
  state_cbn. split; [reflexivity |]. split; reflexivity.
Qed.

Lemma box_at_ext d d' p :
  attrs <$> node_at (root d') p = attrs <$> node_at (root d) p ->
  box_at d' p = box_at d p.
Proof.
  unfold box_at. intros H.
  destruct (node_at (root d') p), (node_at (root d) p); cbn in H;
    try discriminate; [injection H as ->|]; reflexivity.
Qed.

Lemma marker_at_ext d d' p :
  attrs <$> node_at (root d') p = attrs <$> node_at (root d) p ->
  marker_at d' p = marker_at d p.
Proof.
  unfold marker_at. intros H.
  destruct (node_at (root d') p), (node_at (root d) p); cbn in H;
    try discriminate; [injection H as ->|]; reflexivity.
Qed.

Lemma restoreLoop_binds_all B target d0 saved :
  forall used s,
    remarked d0 (document s) ->
    (forall e d', e ∈ saved -> remarked d0 d' ->
                  querySelector B d' (selector e) = Found (target e)) ->
    NoDup (map target saved) ->
    (forall e, e ∈ saved -> target e ∉ used) ->
    (forall e, e ∈ saved ->
       is_Some (node_at (root (document s)) (target e))
       /\ (marker_at (document s) (target e) = Some (id e)
           \/ Js.truthy (marker_at (document s) (target e)) = false)) ->
    exists s',
      restoreLoop B saved used s = Done s'
      /\ selectedElements s'
         = selectedElements s
           ++ map (fun e => restored (box_at (document s) (target e)) e) saved
      /\ log s' = log s
      /\ remarked d0 (document s')
      /\ (forall p, p ∉ map target saved ->
            attrs <$> node_at (root (document s')) p
            = attrs <$> node_at (root (document s)) p)
      /\ (forall e, e ∈ saved ->
            marker_at (document s') (target e) = Some (id e)).
Proof.
  induction saved as [|e rest IH]; intros used s Hrem Hq Hnd Hused Hnodes.
  - exists s. split; [reflexivity |]. split; [symmetry; apply app_nil_r |].
    split; [reflexivity |]. split; [exact Hrem |].
    split; [reflexivity |]. intros e He. inversion He.
  - cbn [map] in Hnd. apply NoDup_cons in Hnd as [Hnotin Hnd].
    destruct (Hnodes e ltac:(left)) as [[n Hn] Hmark].
    unfold marker_at in Hmark. rewrite Hn in Hmark.
    destruct (restoreOne_binds B e used s (target e) n
                (Hq e (document s) ltac:(left) Hrem) Hn
                (Hused e ltac:(left)) Hmark)
      as (s1 & Hone & Hdoc & Hstore & Hlog).
    assert (Hother : forall p, p <> target e ->
              attrs <$> node_at (root (document s1)) p
              = attrs <$> node_at (root (document s)) p).
    { intros p Hp. rewrite Hdoc. apply node_at_alter_other. exact Hp. }
    assert (Hne : forall e', e' ∈ rest -> target e' <> target e).
    { intros e' He' Heq. apply Hnotin. rewrite <- Heq.
      apply list_elem_of_fmap. eauto. }
    destruct (IH ({[target e]} ∪ used) s1) as (s' & Hloop & Hs' & Hl' & Hr' & Hf' & Hm').
    + rewrite Hdoc. apply remarked_step. exact Hrem.
    + intros e' d' He'. apply Hq. right. exact He'.
    + exact Hnd.
    + intros e' He' Hin. apply elem_of_union in Hin as [Hin | Hin].
      * apply elem_of_singleton in Hin. apply (Hne e' He' Hin).
      * apply (Hused e' ltac:(right; exact He') Hin).
    + intros e' He'.
      destruct (Hnodes e' ltac:(right; exact He')) as [[n' Hn'] Hmark'].
      pose proof (Hother (target e') (Hne e' He')) as Ha.
      split.
      * rewrite Hn' in Ha.
        destruct (node_at (root (document s1)) (target e')); [eauto |].
        discriminate.
      * rewrite (marker_at_ext _ _ _ Ha). exact Hmark'.
    + exists s'. cbn [restoreLoop]. rewrite Hone.
      split; [exact Hloop |].
      split.
      { rewrite Hs', Hstore, <- app_assoc. f_equal. cbn [map app].
        unfold box_at at 2. rewrite Hn. f_equal.
        apply map_ext_in. intros e' He'. f_equal.
        apply box_at_ext, Hother, Hne. apply list_elem_of_In. exact He'. }
      split; [congruence |]. split; [exact Hr' |].
      split.
      { intros p Hp. cbn [map] in Hp. apply not_elem_of_cons in Hp as [Hp1 Hp2].
        rewrite (Hf' p Hp2). apply Hother. exact Hp1. }
      intros e' He'. apply elem_of_cons in He' as [-> | He'].
      * rewrite (marker_at_ext (document s1) (document s')) by (apply Hf'; exact Hnotin).
        unfold marker_at. rewrite Hdoc, node_at_alter_same, Hn. reflexivity.
      * apply Hm'. exact He'.
Qed.

(** X9.  [restoreElements] binds a whole snapshot when every selector of it
    leads to an element of the page, no two of them to the same one, and
    none of these elements carries the marker of another annotation (the
    selector engine answering the same whatever markers the page carries).
    The store then receives the entries in the order of the snapshot, each
    with its id, label, parent, colour, selector and tag as saved, its
    padding ([0] when the snapshot has none) and the bounding box its
    element has now; each element carries the id of its entry as marker;
    and nothing is written to the console. *)
Theorem X9_restore_binds_all B saved target s :
  (forall e d', e ∈ saved -> remarked (document s) d' ->
                querySelector B d' (selector e) = Found (target e)) ->
  NoDup (map target saved) ->
  (forall e, e ∈ saved ->
     is_Some (node_at (root (document s)) (target e))
     /\ (marker_at (document s) (target e) = Some (id e)
         \/ Js.truthy (marker_at (document s) (target e)) = false)) ->
  exists s',
    restoreElements B saved s = Done s'
    /\ selectedElements s'
       = selectedElements s
         ++ map (fun e => restored (box_at (document s) (target e)) e) saved
    /\ (forall e, e ∈ saved ->
          marker_at (document s') (target e) = Some (id e))
    /\ log s' = log s.
Proof.
  intros Hq Hnd Hnodes.
  destruct (restoreLoop_binds_all B target (document s) saved ∅ s)
    as (s' & Hloop & Hs' & Hl' & _ & _ & Hm'); try assumption.
  - constructor.
  - intros e _. apply not_elem_of_empty.
  - exists s'. auto.
Qed.

Lemma X9_restore_binds_all_witness :
  exists s',
    restoreElements Demo.browser Fixture.three Demo.editing = Done s'
    /\ map (fun e => (id e, label e, parentId e, padding e, rect e))
         (selectedElements s')
       = [ ("wdh-1-a", "2", Null, Some 5,
            {| top := 10; left := 20; width := 100; height := 50 |});
           ("wdh-1-b", "2-3", Parent "wdh-1-a", Some 0,
            {| top := 70; left := 20; width := 100; height := 50 |});
           ("wdh-1-e", "9", Null, Some 0,
            {| top := 130; left := 20; width := 200; height := 40 |}) ]
    /\ marker_at (document s') Demo.main = Some "wdh-1-e".
Proof.
  destruct (X9_restore_binds_all Demo.browser Fixture.three Fixture.target
              Demo.editing) as (s' & Hdone & Hs & Hm & _).
  - intros e d' He _. unfold Fixture.three in He.
    repeat (apply elem_of_cons in He as [-> | He]);
      [reflexivity .. | inversion He].
  - vm_compute. repeat constructor; intros H;
      repeat (apply elem_of_cons in H as [H | H]; [discriminate |]);
      inversion H.
  - intros e He. unfold Fixture.three in He.
    repeat (apply elem_of_cons in He as [-> | He]);
      [split; [eexists; vm_compute; reflexivity | right; vm_compute; reflexivity] .. | inversion He].
  - exists s'. split; [exact Hdone |]. split.
    + rewrite Hs. vm_compute. reflexivity.
    + apply (Hm Demo.saved_main). unfold Fixture.three. set_solver.
Defined.

(** ** A snapshot that cannot be restored *)

Section RestoreObservers.

Context {A : Type} (obs : State -> A).
Hypothesis obs_emit : forall e s, obs (emit e s) = obs s.
Hypothesis obs_document : forall v s, obs (set_document v s) = obs s.
Hypothesis obs_overlay : forall v s, obs (set_overlayContainer v s) = obs s.
Hypothesis obs_store : forall v s, obs (set_selectedElements v s) = obs s.

Lemma restoreOne_obs B savedEl used s used' s' :
  restoreOne B savedEl used s = Some (used', s') -> obs s' = obs s.
Proof using obs_emit obs_document obs_overlay obs_store.
  unfold restoreOne.
  destruct (querySelector B (document s) (selector savedEl)) as [p| |];
    [| intros H; injection H as _ <-; apply obs_emit | discriminate].
  destruct (node_at (root (document s)) p) as [n|];
    [| intros H; injection H as _ <-; apply obs_emit].
  destruct (bool_decide (p ∈ used));
    [intros H; injection H as _ <-; apply obs_emit |].
  destruct (Js.truthy (wdhId (attrs n)) && _);
    intros H; injection H as _ <-; [apply obs_emit |].
  unfold appendOverlay.
  rewrite obs_store, !obs_overlay, obs_document. reflexivity.
Qed.

Lemma restoreLoop_obs B l used s :
  obs (outcome_state (restoreLoop B l used s)) = obs s.
Proof using obs_emit obs_document obs_overlay obs_store.
  revert used s. induction l as [|e l IH]; intros used s; [reflexivity |].
  cbn [restoreLoop].
  destruct (restoreOne B e used s) as [[used' s']|] eqn:E; [| reflexivity].
  rewrite IH. apply (restoreOne_obs B e used s used' s' E).
Qed.

Lemma fold_unmark_obs l s :
  obs (fold_left (fun s i => unmark i s) l s) = obs s.
Proof using obs_document.
  revert s. induction l as [|i l IH]; intros s; [reflexivity |].
  cbn [fold_left]. rewrite IH. unfold unmark.
  destruct (query_marker (document s) i); [apply obs_document | reflexivity].
Qed.

End RestoreObservers.

(** The loop throws when the selector of one entry cannot be parsed. *)
Lemma restoreLoop_throws B l bad :
  bad ∈ l -> (forall d, querySelector B d (selector bad) = SyntaxError) ->
  forall used s, exists s', restoreLoop B l used s = Thrown s'.
Proof.
  intros Hin Hbad. induction l as [|e l IH]; intros used s; [inversion Hin |].
  cbn [restoreLoop].
  destruct (restoreOne B e used s) as [[used' s']|] eqn:E; [| eauto].
  apply elem_of_cons in Hin as [<- | Hin]; [| apply IH, Hin].
  unfold restoreOne in E. rewrite Hbad in E. discriminate.
Qed.

(** Splits on whether the panel and the overlay container are there when
    [stopEditing] removes them. *)
Ltac stop_cases :=
  repeat match goal with
    | |- context [match overlayContainer ?x with
                  | Some _ => _ | None => _ end] =>
        destruct (overlayContainer x)
    | |- context [match panel ?x with Some _ => _ | None => _ end] =>
        destruct (panel x)
    end.

Lemma stopEditing_storage s :
  localStorage (stopEditing s) = localStorage s
  /\ href (stopEditing s) = href s
  /\ storageThrows (stopEditing s) = storageThrows s
  /\ log (stopEditing s) = log s.
Proof.
  unfold stopEditing. destruct (negb (isEditing s)); [auto |].
  cbv zeta. stop_cases; state_cbn;
    rewrite !(fold_unmark_obs localStorage), !(fold_unmark_obs href),
      !(fold_unmark_obs storageThrows), !(fold_unmark_obs log) by reflexivity;
    stop_cases; state_cbn;
    destruct (Js.truthy (focusedElementId s)); auto.
Qed.

Lemma stopEditing_off s : isEditing (stopEditing s) = false.
Proof.
  unfold stopEditing. destruct (isEditing s) eqn:E; [| exact E].
  cbn [negb]. cbv zeta. stop_cases; state_cbn;
    rewrite (fold_unmark_obs isEditing) by reflexivity;
    stop_cases; state_cbn;
    destruct (Js.truthy (focusedElementId s)); reflexivity.
Qed.

Lemma stopEditing_leaves s :
  isEditing s = true ->
  selectedElements (stopEditing s) = []
  /\ panel (stopEditing s) = None
  /\ overlayContainer (stopEditing s) = None.
Proof.
  intros Hon. unfold stopEditing. rewrite Hon. cbn [negb]. cbv zeta.
  match goal with
  | |- context [fold_left _ _ ?x] => set (s1 := x)
  end.
  assert (Hp : panel s1 = None).
  { subst s1.
    match goal with
    | |- panel (match panel ?x with Some _ => _ | None => _ end) = _ =>
        destruct (panel x) eqn:Ep; [reflexivity | exact Ep]
    end. }
  set (s2 := set_selectedElements [] _).
  assert (Hp2 : panel s2 = None).
  { subst s2. state_cbn. rewrite (fold_unmark_obs panel) by reflexivity.
    exact Hp. }
  destruct (overlayContainer s2) eqn:Eo; state_cbn; auto.
Qed.

Lemma startEditing_throws B s saved bad :
  isEditing s = false ->
  (loadState B s).1 = Some saved ->
  bad ∈ Saved.elements saved ->
  (forall d, querySelector B d (selector bad) = SyntaxError) ->
  exists s',
    startEditing B s = Thrown s'
    /\ isEditing s' = true /\ panel s' = panel s
    /\ localStorage s' = localStorage s /\ href s' = href s
    /\ storageThrows s' = storageThrows s.
Proof.
  intros Hoff Hload Hin Hbad. unfold startEditing. rewrite Hoff.
  set (s0 := set_document _
               (set_overlayContainer (Some []) (set_isEditing true s))).
  assert (Hload0 : (loadState B s0).1 = Some saved).
  { rewrite <- Hload. apply loadState_reads_storage; reflexivity. }
  pose proof (loadState_state B s0) as Hstate.
  destruct (loadState B s0) as [sv s1]. cbn [fst snd] in *. subst sv.
  assert (Hlen : (0 <? Z.of_nat (List.length (Saved.elements saved))) = true).
  { destruct (Saved.elements saved); [inversion Hin |]. reflexivity. }
  rewrite Hlen.
  destruct (restoreLoop_throws B (Saved.elements saved) bad Hin Hbad ∅
              (set_focusedElementId (Saved.focusedElementId saved) s1))
    as (s' & Hthrow).
  unfold restoreElements. rewrite Hthrow. exists s'. split; [reflexivity |].
  assert (Hs' : s' = outcome_state
                       (restoreLoop B (Saved.elements saved) ∅
                          (set_focusedElementId
                             (Saved.focusedElementId saved) s1)))
    by (rewrite Hthrow; reflexivity).
  rewrite Hs'.
  rewrite (restoreLoop_obs isEditing), (restoreLoop_obs panel),
    (restoreLoop_obs localStorage), (restoreLoop_obs href),
    (restoreLoop_obs storageThrows) by reflexivity.
  destruct Hstate as [-> | ->]; repeat split; reflexivity.
Qed.

(** X10.  A snapshot with an entry whose selector the browser cannot parse
    locks the page out of edit mode.  [startEditing] throws from
    [restoreElements], before the panel is created and with [isEditing]
    already set; it leaves the storage as it is; and after [stopEditing]
    the next [startEditing] meets the same snapshot and throws again. *)
Theorem X10_unparsable_selector_locks_out B s saved bad :
  isEditing s = false ->
  (loadState B s).1 = Some saved ->
  bad ∈ Saved.elements saved ->
  (forall d, querySelector B d (selector bad) = SyntaxError) ->
  exists s',
    startEditing B s = Thrown s'
    /\ isEditing s' = true /\ panel s' = panel s
    /\ localStorage s' = localStorage s
    /\ exists s'', startEditing B (stopEditing s') = Thrown s''
                   /\ panel s'' = None.
Proof.
  intros Hoff Hload Hin Hbad.
  destruct (startEditing_throws B s saved bad Hoff Hload Hin Hbad)
    as (s' & Hthrow & Hon & Hpanel & Hls & Hhref & Hthrows).
  exists s'. split; [exact Hthrow |]. split; [exact Hon |].
  split; [exact Hpanel |]. split; [exact Hls |].
  destruct (stopEditing_storage s') as (Hls' & Hhref' & Hthrows' & _).
  destruct (startEditing_throws B (stopEditing s') saved bad
              (stopEditing_off s')) as (s'' & Hthrow' & _ & Hpanel' & _);
    [| exact Hin | exact Hbad |].
  - rewrite <- Hload. apply loadState_reads_storage; congruence.
  - exists s''. split; [exact Hthrow' |]. rewrite Hpanel'.
    apply (stopEditing_leaves s' Hon).
Qed.

Lemma X10_unparsable_selector_locks_out_witness :
  getSelector None Demo.page [1%nat] = ""
  /\ exists s',
      startEditing Fixture.browser Fixture.locked = Thrown s'
      /\ isEditing s' = true /\ panel s' = None
      /\ exists s'', startEditing Fixture.browser (stopEditing s') = Thrown s''
                     /\ panel s'' = None.
Proof.
  split; [vm_compute; reflexivity |].
  destruct (X10_unparsable_selector_locks_out Fixture.browser Fixture.locked
              Fixture.with_body Fixture.saved_body)
    as (s' & Hthrow & Hon & Hpanel & _ & Hagain).
  - vm_compute. reflexivity.
  - vm_compute. reflexivity.
  - unfold Fixture.with_body. cbn [Saved.elements]. set_solver.
  - intros d. vm_compute. reflexivity.
  - exists s'. split; [exact Hthrow |]. split; [exact Hon |].
    split; [rewrite Hpanel; vm_compute; reflexivity | exact Hagain].
Defined.

(** ** Repositioning *)

Lemma set_overlayContainer_same s :
  set_overlayContainer (overlayContainer s) s = s.
Proof. destruct s; reflexivity. Qed.

Lemma find_existsb {A} (p : A -> bool) (l : list A) x :
  find p l = Some x -> existsb p l = true.
Proof.
  intros H. apply find_some in H as [Hin Hp].
  apply existsb_exists. eauto.
Qed.

(** In a container that mirrors the store, every annotation has a frame and
    a badge. *)
Lemma mirror_find l nodes e :
  map view_of nodes = expected_views l -> e ∈ l ->
  (exists st, find (is_frame_of (id e)) nodes = Some (FrameNode (id e) st))
  /\ (exists text st,
        find (is_badge_of (id e)) nodes = Some (BadgeNode (id e) text st)).
Proof.
  intros Hm He.
  assert (Hin : forall v, In v [frame_view e; badge_view e] ->
                          exists n, In n nodes /\ view_of n = v).
  { intros v Hv.
    assert (H : In v (map view_of nodes)).
    { rewrite Hm. unfold expected_views. apply in_flat_map.
      exists e. split; [apply list_elem_of_In, He | exact Hv]. }
    apply in_map_iff in H as (n & Hn & Hin). eauto. }
  split.
  - destruct (Hin (frame_view e) ltac:(left; reflexivity)) as (n & Hn & Hv).
    destruct (find (is_frame_of (id e)) nodes) as [x|] eqn:Hfind.
    + apply find_some in Hfind as [_ Hx]. destruct x as [j st|]; [| discriminate].
      apply bool_decide_eq_true in Hx. subst j. eauto.
    + pose proof (find_none _ _ Hfind n Hn) as Hc.
      rewrite view_is_frame, Hv in Hc. cbn in Hc.
      rewrite bool_decide_eq_true_2 in Hc by reflexivity. discriminate.
  - destruct (Hin (badge_view e) ltac:(right; left; reflexivity))
      as (n & Hn & Hv).
    destruct (find (is_badge_of (id e)) nodes) as [x|] eqn:Hfind.
    + apply find_some in Hfind as [_ Hx]. destruct x as [|j text st]; [discriminate |].
      apply bool_decide_eq_true in Hx. subst j. eauto.
    + pose proof (find_none _ _ Hfind n Hn) as Hc.
      rewrite view_is_badge, Hv in Hc. cbn in Hc.
      rewrite bool_decide_eq_true_2 in Hc by reflexivity. discriminate.
Qed.

(** One turn of the loop writes the overlay container and nothing else; the
    annotation it returns differs from the one it took in [rect] only. *)
Lemma repositionOne_shape s el :
  exists v r,
    repositionOne s el = (set_overlayContainer v s, with_rect r el)
    /\ mounted v = mounted (overlayContainer s).
Proof.
  assert (Hsame : repositionOne s el = (s, el) ->
                  exists v r,
                    repositionOne s el
                    = (set_overlayContainer v s, with_rect r el)
                    /\ mounted v = mounted (overlayContainer s)).
  { intros ->. exists (overlayContainer s), (rect el).
    rewrite set_overlayContainer_same. destruct el; auto. }
  unfold repositionOne in *.
  destruct (query_marker (document s) (id el)) as [p|]; [| auto].
  destruct (overlayContainer s) as [nodes|] eqn:Hov; [| auto].
  destruct (existsb _ nodes && existsb _ nodes); [| auto].
  destruct (node_at (root (document s)) p) as [n|]; [| auto].
  eexists _, _. unfold alterOverlay. state_cbn. rewrite Hov.
  split; reflexivity.
Qed.

(** A turn for another annotation leaves the frame and the badge of [i]
    alone. *)
Lemma repositionOne_other s el i :
  id el <> i ->
  frame_of i (repositionOne s el).1 = frame_of i s
  /\ badge_of i (repositionOne s el).1 = badge_of i s.
Proof.
  intros Hne. unfold repositionOne.
  destruct (query_marker (document s) (id el)) as [p|]; [| auto].
  destruct (overlayContainer s) as [nodes|] eqn:Hov; [| auto].
  destruct (existsb _ nodes && existsb _ nodes); [| auto].
  destruct (node_at (root (document s)) p) as [n|]; [| auto].
  cbn [fst]. unfold frame_of, badge_of, alterOverlay. state_cbn.
  rewrite Hov. cbn [fmap option_fmap option_map].
  split.
  - rewrite !find_alter_first_other; [reflexivity | |].
    + intros [j st|j t st]; cbn; [| discriminate]. intros Hj.
      apply bool_decide_eq_true in Hj. subst j.
      rewrite bool_decide_eq_false_2 by exact Hne. auto.
    + intros [j st|j t st]; cbn; [discriminate | auto].
  - rewrite !find_alter_first_other; [reflexivity | |].
    + intros [j st|j t st]; cbn; [auto | discriminate].
    + intros [j st|j t st]; cbn; [discriminate |]. intros Hj.
      apply bool_decide_eq_true in Hj. subst j.
      rewrite bool_decide_eq_false_2 by exact Hne. auto.
Qed.

(** A turn keeps the container in step with a store that holds the
    annotation. *)
Lemma repositionOne_mirror s el l nodes :
  NoDup (ids l) -> el ∈ l ->
  overlayContainer s = Some nodes ->
  map view_of nodes = expected_views l ->
  exists nodes',
    overlayContainer (repositionOne s el).1 = Some nodes'
    /\ map view_of nodes' = expected_views l.
Proof.
  intros Hnd Hel Hov Hm. unfold repositionOne. rewrite Hov.
  destruct (query_marker (document s) (id el)) as [p|]; [| eauto].
  destruct (existsb _ nodes && existsb _ nodes); [| eauto].
  destruct (node_at (root (document s)) p) as [n|]; [| eauto].
  cbn [fst]. unfold alterOverlay. state_cbn. rewrite Hov.
  cbn [fmap option_fmap option_map]. eexists. split; [reflexivity |].
  replace (expected_views l)
    with (expected_views (alter_element (id el) (fun x => x) l))
    by (unfold alter_element; rewrite alter_first_same; reflexivity).
  apply (mirror_alter (id el) (fun x => x) _ _ (fun v => v)
           (fun v => match v with
                     | BadgeView j text _ hex =>
                         BadgeView j text (calculateBadgeWidth (label el)) hex
                     | _ => v
                     end) _ _ el).
  - apply find_element_unique; assumption.
  - intros x Hx. destruct x; [split; reflexivity | discriminate].
  - intros x Hx. destruct x; [discriminate | reflexivity].
  - reflexivity.
  - reflexivity.
  - exact Hm.
Qed.

(** The loop of [updateOverlayPositions] over a part [l] of the store [L]. *)
Lemma reposition_loop l :
  forall L s0 done nodes,
    NoDup (ids L) -> (forall x, x ∈ l -> x ∈ L) ->
    overlayContainer s0 = Some nodes ->
    map view_of nodes = expected_views L ->
    exists v nodes' news,
      fold_left
        (fun '(s, done) el =>
           let '(s, el) := repositionOne s el in (s, done ++ [el]))
        l (s0, done)
      = (set_overlayContainer v s0, done ++ news)
      /\ v = Some nodes'
      /\ map view_of nodes' = expected_views L
      /\ Forall2 (fun e e' => exists r, e' = with_rect r e) l news
      /\ (forall i, i ∉ ids l ->
            frame_of i (set_overlayContainer v s0) = frame_of i s0
            /\ badge_of i (set_overlayContainer v s0) = badge_of i s0).
Proof.
  induction l as [|el l IH]; intros L s0 done nodes Hnd Hsub Hov Hm.
  - exists (overlayContainer s0), nodes, [].
    rewrite set_overlayContainer_same, app_nil_r.
    split; [reflexivity |]. split; [exact Hov |]. split; [exact Hm |].
    split; [constructor | auto].
  - cbn [fold_left].
    destruct (repositionOne_shape s0 el) as (v1 & r & Hone & _).
    destruct (repositionOne_mirror s0 el L nodes Hnd (Hsub el ltac:(left))
                Hov Hm) as (nodes1 & Hov1 & Hm1).
    pose proof (repositionOne_other s0 el) as Hother.
    rewrite Hone in *. cbn [fst] in *.
    destruct (IH L (set_overlayContainer v1 s0) (done ++ [with_rect r el])
                nodes1 Hnd ltac:(intros x Hx; apply Hsub; right; exact Hx)
                Hov1 Hm1)
      as (v & nodes' & news & Hfold & Hv & Hm' & Hall & Hframe).
    exists v, nodes', (with_rect r el :: news).
    split; [rewrite Hfold, <- app_assoc; reflexivity |].
    split; [exact Hv |]. split; [exact Hm' |].
    split; [constructor; eauto |].
    intros i Hi. cbn [ids map] in Hi. apply not_elem_of_cons in Hi as [Hne Hi].
    destruct (Hframe i Hi) as [H1 H2]. destruct (Hother i ltac:(congruence))
      as [H3 H4].
    change (set_overlayContainer v (set_overlayContainer v1 s0))
      with (set_overlayContainer v s0) in H1, H2.
    split; congruence.
Qed.

Lemma reposition_loop_shape l :
  forall s0 done,
    exists v news,
      fold_left
        (fun '(s, done) el =>
           let '(s, el) := repositionOne s el in (s, done ++ [el]))
        l (s0, done)
      = (set_overlayContainer v s0, done ++ news)
      /\ Forall2 (fun e e' => exists r, e' = with_rect r e) l news
      /\ mounted v = mounted (overlayContainer s0).
Proof.
  induction l as [|el l IH]; intros s0 done.
  - exists (overlayContainer s0), [].
    rewrite set_overlayContainer_same, app_nil_r.
    split; [reflexivity |]. split; [constructor | reflexivity].
  - cbn [fold_left].
    destruct (repositionOne_shape s0 el) as (v1 & r & -> & Hv1).
    destruct (IH (set_overlayContainer v1 s0) (done ++ [with_rect r el]))
      as (v & news & Hfold & Hall & Hv).
    exists v, (with_rect r el :: news).
    split; [rewrite Hfold, <- app_assoc; reflexivity |].
    split; [constructor; eauto |]. rewrite Hv. exact Hv1.
Qed.

(** [updateOverlayPositions] writes the overlay container and the [rect]s
    of the store. *)
Lemma reposition_shape s :
  exists v els,
    updateOverlayPositions s
    = set_selectedElements els (set_overlayContainer v s)
    /\ Forall2 (fun e e' => exists r, e' = with_rect r e)
         (selectedElements s) els
    /\ mounted v = mounted (overlayContainer s).
Proof.
  unfold updateOverlayPositions.
  destruct (reposition_loop_shape (selectedElements s) s [])
    as (v & news & -> & Hall & Hv).
  exists v, news. auto.
Qed.

Lemma repositioned_views l news :
  Forall2 (fun e e' => exists r, e' = with_rect r e) l news ->
  expected_views news = expected_views l /\ ids news = ids l.
Proof.
  induction 1 as [|e e' l news [r ->] _ [IH1 IH2]]; [auto |].
  unfold expected_views, ids in *. cbn [flat_map map].
  rewrite IH1, IH2. auto.
Qed.

(** X11.  [updateOverlayPositions] changes the boxes of the overlays and the
    [rect] of the annotations and nothing else: every annotation keeps its
    id, label, parent, selector, tag, colour and padding; the page, the
    panel, the focus, the counters, the storage and the log are as before
    (the new [rect]s are not saved); and a container that mirrors the store
    still mirrors it. *)
Theorem X11_reposition_keeps_annotations s :
  let s' := updateOverlayPositions s in
  Forall2 (fun e e' => exists r, e' = with_rect r e)
    (selectedElements s) (selectedElements s')
  /\ (document s', panel s', focusedElementId s', nextNumber s',
      focusedSubNumber s', isEditing s')
     = (document s, panel s, focusedElementId s, nextNumber s,
        focusedSubNumber s, isEditing s)
  /\ localStorage s' = localStorage s /\ log s' = log s
  /\ (overlays_mirror s -> overlays_mirror s').
Proof.
  cbn zeta.
  destruct (reposition_shape s) as (v & news & Hshape & Hall & _).
  split; [| split; [| split; [| split]]].
  - rewrite Hshape. exact Hall.
  - rewrite Hshape. reflexivity.
  - rewrite Hshape. reflexivity.
  - rewrite Hshape. reflexivity.
  - clear v news Hshape Hall. unfold updateOverlayPositions.
    intros [Hnd (nodes & Hov & Hm)].
    destruct (reposition_loop (selectedElements s) (selectedElements s) s []
                nodes Hnd ltac:(auto) Hov Hm)
      as (v' & nodes' & news' & Hfold' & -> & Hm' & Hall' & _).
    rewrite Hfold'. unfold overlays_mirror. state_cbn. cbn [app].
    destruct (repositioned_views _ _ Hall') as [Hv Hi].
    rewrite Hi, Hv. split; [exact Hnd | eauto].
Qed.

Lemma find_element_repositioned i l news :
  Forall2 (fun e e' => exists r, e' = with_rect r e) l news ->
  i ∉ ids l -> find_element i news = None.
Proof.
  intros Hall Hi. destruct (repositioned_views _ _ Hall) as [_ Hids].
  rewrite <- Hids in Hi. clear Hall Hids.
  unfold find_element. induction news as [|e news IH]; [reflexivity |].
  cbn [ids map] in Hi. apply not_elem_of_cons in Hi as [Hne Hi].
  cbn [find]. rewrite bool_decide_eq_false_2 by congruence. apply IH, Hi.
Qed.

(** The turn of the loop for an annotation whose element and overlays are
    found. *)
Lemma repositionOne_target s e p n nodes stF text stB :
  query_marker (document s) (id e) = Some p ->
  node_at (root (document s)) p = Some n ->
  overlayContainer s = Some nodes ->
  find (is_frame_of (id e)) nodes = Some (FrameNode (id e) stF) ->
  find (is_badge_of (id e)) nodes = Some (BadgeNode (id e) text stB) ->
  let b := box (attrs n) in
  let pad := or0 (padding e) in
  (repositionOne s e).2
  = with_rect {| top := top b; left := left b; width := width b;
                 height := height b |} e
  /\ frame_of (id e) (repositionOne s e).1
     = Some {| frameTop := top b - 3 - pad; frameLeft := left b - 3 - pad;
               frameWidth := width b + pad * 2;
               frameHeight := height b + pad * 2;
               frameBorderWidth := frameBorderWidth stF;
               frameBorderColor := frameBorderColor stF;
               frameBoxSizing := frameBoxSizing stF |}
  /\ badge_of (id e) (repositionOne s e).1
     = Some {| badgeTop := top b - pad - 3 - 28 / 2;
               badgeLeft := left b - pad - 3
                            - calculateBadgeWidth (label e) / 2;
               badgeWidth := calculateBadgeWidth (label e);
               badgeHeight := badgeHeight stB;
               badgeColor := badgeColor stB;
               badgeBorderWidth := badgeBorderWidth stB;
               badgeBorderColor := badgeBorderColor stB;
               badgeBoxSizing := badgeBoxSizing stB |}.
Proof.
  intros Hq Hn Hov HF HB b pad. unfold repositionOne.
  rewrite Hq, Hov, (find_existsb _ _ _ HF), (find_existsb _ _ _ HB), Hn.
  cbn [andb fst snd]. split; [reflexivity |].
  unfold frame_of, badge_of, alterOverlay. state_cbn. rewrite Hov.
  cbn [fmap option_fmap option_map]. split.
  - rewrite find_alter_first_other.
    + rewrite find_alter_first_same, HF by (intros [? ?|? ? ?]; reflexivity).
      reflexivity.
    + intros [j st|j t st]; cbn; [discriminate | auto].
  - rewrite find_alter_first_same by (intros [? ?|? ? ?]; reflexivity).
    rewrite find_alter_first_other, HB.
    + reflexivity.
    + intros [j st|j t st]; cbn; [auto | discriminate].
Qed.

Lemma overlays_set_store v s i :
  frame_of i (set_selectedElements v s) = frame_of i s
  /\ badge_of i (set_selectedElements v s) = badge_of i s.
Proof. split; reflexivity. Qed.

Lemma reposition_at s e p n :
  overlays_mirror s ->
  e ∈ selectedElements s ->
  query_marker (document s) (id e) = Some p ->
  node_at (root (document s)) p = Some n ->
  let s' := updateOverlayPositions s in
  let b := box (attrs n) in
  let pad := or0 (padding e) in
  (exists fs,
      frame_of (id e) s' = Some fs
      /\ (frameTop fs, frameLeft fs, frameWidth fs, frameHeight fs)
         = (top b - 3 - pad, left b - 3 - pad,
            width b + pad * 2, height b + pad * 2))
  /\ (exists bs bs0,
        badge_of (id e) s' = Some bs
        /\ badge_of (id e) s = Some bs0
        /\ (badgeTop bs, badgeLeft bs, badgeWidth bs)
           = (top b - pad - 3 - 28 / 2,
              left b - pad - 3 - calculateBadgeWidth (label e) / 2,
              calculateBadgeWidth (label e))
        /\ (badgeHeight bs, badgeBorderWidth bs, badgeBoxSizing bs)
           = (badgeHeight bs0, badgeBorderWidth bs0, badgeBoxSizing bs0))
  /\ find_element (id e) (selectedElements s')
     = Some (with_rect {| top := top b; left := left b; width := width b;
                          height := height b |} e).
Proof.
  intros [Hnd (nodes & Hov & Hm)] He Hq Hn. cbn zeta.
  set (e' := with_rect {| top := top (box (attrs n));
                          left := left (box (attrs n));
                          width := width (box (attrs n));
                          height := height (box (attrs n)) |} e).
  unfold updateOverlayPositions.
  enough (Hfold : exists s3 news1 news3 fs bs bs0,
    fold_left
      (fun '(s, done) el =>
         let '(s, el) := repositionOne s el in (s, done ++ [el]))
      (selectedElements s) (s, [])
    = (s3, (news1 ++ [e']) ++ news3)
    /\ frame_of (id e) s3 = Some fs
    /\ (frameTop fs, frameLeft fs, frameWidth fs, frameHeight fs)
       = (top (box (attrs n)) - 3 - or0 (padding e),
          left (box (attrs n)) - 3 - or0 (padding e),
          width (box (attrs n)) + or0 (padding e) * 2,
          height (box (attrs n)) + or0 (padding e) * 2)
    /\ badge_of (id e) s3 = Some bs
    /\ badge_of (id e) s = Some bs0
    /\ (badgeTop bs, badgeLeft bs, badgeWidth bs)
       = (top (box (attrs n)) - or0 (padding e) - 3 - 28 / 2,
          left (box (attrs n)) - or0 (padding e) - 3
          - calculateBadgeWidth (label e) / 2,
          calculateBadgeWidth (label e))
    /\ (badgeHeight bs, badgeBorderWidth bs, badgeBoxSizing bs)
       = (badgeHeight bs0, badgeBorderWidth bs0, badgeBoxSizing bs0)
    /\ find_element (id e) news1 = None).
  { destruct Hfold as (s3 & news1 & news3 & fs & bs & bs0 & -> & HF & HFb
                       & HB & HB0 & HBb & HBk & Hnone).
    split; [| split].
    - exists fs. rewrite (proj1 (overlays_set_store _ _ _)). auto.
    - exists bs, bs0. rewrite (proj2 (overlays_set_store _ _ _)). auto.
    - state_cbn. rewrite <- app_assoc, find_element_app, Hnone.
      cbn [app]. unfold find_element, e'. cbn [find id with_rect].
      rewrite bool_decide_eq_true_2 by reflexivity. reflexivity. }
  apply list_elem_of_split in He as (pre & post & Hsplit).
  assert (Hids : (id e ∉ ids pre) /\ (id e ∉ ids post)).
  { rewrite Hsplit in Hnd. unfold ids in Hnd. rewrite map_app in Hnd.
    cbn [map] in Hnd. apply NoDup_app in Hnd as (_ & Hdisj & Hpost).
    apply NoDup_cons in Hpost as [Hpost _]. split; [| exact Hpost].
    intros Hin. apply (Hdisj _ Hin). left. }
  destruct Hids as [Hpre Hpost].
  assert (Hsub : forall x, x ∈ pre ++ e :: post -> x ∈ selectedElements s)
    by (rewrite Hsplit; auto).
  assert (He : e ∈ selectedElements s)
    by (apply Hsub, elem_of_app; right; left).
  destruct (reposition_loop pre (selectedElements s) s [] nodes Hnd
              ltac:(intros x Hx; apply Hsub, elem_of_app; left; exact Hx)
              Hov Hm)
    as (v1 & nodes1 & news1 & Hfold1 & -> & Hm1 & Hall1 & Hkeep1).
  set (s1 := set_overlayContainer (Some nodes1) s) in *.
  destruct (mirror_find _ _ e Hm1 He) as [[stF HF] (text & stB & HB)].
  destruct (repositionOne_target s1 e p n nodes1 stF text stB Hq Hn eq_refl
              HF HB) as (Hel & Hframe & Hbadge).
  destruct (repositionOne_mirror s1 e (selectedElements s) nodes1 Hnd He
              eq_refl Hm1) as (nodes2 & Hov2 & Hm2).
  destruct (repositionOne s1 e) as [s2 e2] eqn:Hone. cbn [fst snd] in *.
  subst e2. fold e' in Hone.
  destruct (reposition_loop post (selectedElements s) s2 (news1 ++ [e'])
              nodes2 Hnd
              ltac:(intros x Hx; apply Hsub, elem_of_app; right; right;
                    exact Hx)
              Hov2 Hm2)
    as (v3 & nodes3 & news3 & Hfold3 & -> & _ & _ & Hkeep3).
  destruct (Hkeep3 (id e) Hpost) as [HkF HkB].
  destruct (Hkeep1 (id e) Hpre) as [_ Hk0].
  assert (HB0 : badge_of (id e) s = Some stB).
  { rewrite <- Hk0. unfold badge_of, s1. state_cbn. rewrite HB. reflexivity. }
  eexists _, news1, news3, _, _, stB.
  split; [| split; [rewrite HkF; exact Hframe |
            split; [reflexivity |
            split; [rewrite HkB; exact Hbadge |
            split; [exact HB0 |
            split; [reflexivity |
            split; [reflexivity |]]]]]]].
  - rewrite Hsplit, fold_left_app, Hfold1. cbn [fold_left app].
    rewrite Hone. exact Hfold3.
  - apply (find_element_repositioned _ _ _ Hall1 Hpre).
Qed.

(** X12.  After [updateOverlayPositions] the frame of an annotation whose
    element carries its marker stands around the box the element has now:
    its outer corner [3 + padding] above and left of the box, its width and
    height those of the box plus twice the padding.  This is the geometry of
    [createFrameOverlay]; a frame that [updatePadding] made six pixels wider
    and higher is back to it.  The badge gets the position and the width
    [createNumberBadge] computes for that box and keeps its height and its
    border, so a badge 28 pixels high with its border of 3 pixels is centred
    on the corner of the padded box, 3 pixels right of and below the outer
    corner of the frame.  The annotation records the box. *)
Theorem X12_reposition_restores_frame s e p n :
  overlays_mirror s ->
  e ∈ selectedElements s ->
  query_marker (document s) (id e) = Some p ->
  node_at (root (document s)) p = Some n ->
  let s' := updateOverlayPositions s in
  let b := box (attrs n) in
  let pad := or0 (padding e) in
  (exists fs,
      frame_of (id e) s' = Some fs
      /\ (frameTop fs, frameLeft fs, frameWidth fs, frameHeight fs)
         = (top b - 3 - pad, left b - 3 - pad,
            width b + pad * 2, height b + pad * 2)
      /\ frame_corner fs = (left b - pad - 3, top b - pad - 3))
  /\ (exists bs bs0,
        badge_of (id e) s' = Some bs
        /\ badge_of (id e) s = Some bs0
        /\ (badgeTop bs, badgeLeft bs, badgeWidth bs)
           = (top b - pad - 3 - 28 / 2,
              left b - pad - 3 - calculateBadgeWidth (label e) / 2,
              calculateBadgeWidth (label e))
        /\ (badgeHeight bs, badgeBorderWidth bs, badgeBoxSizing bs)
           = (badgeHeight bs0, badgeBorderWidth bs0, badgeBoxSizing bs0)
        /\ ((badgeHeight bs0, badgeBorderWidth bs0, badgeBoxSizing bs0)
            = (28, 3, content_box) ->
            badge_center bs = (left b - pad, top b - pad)))
  /\ find_element (id e) (selectedElements s')
     = Some (with_rect {| top := top b; left := left b; width := width b;
                          height := height b |} e).
Proof.
  intros Hm He Hq Hn s' b pad.
  destruct (reposition_at s e p n Hm He Hq Hn)
    as ((fs & Hfs & Hbox) & (bs & bs0 & Hbs & Hbs0 & Hpos & Hkeep) & Hfind).
  fold s' b pad in Hfs, Hbox, Hbs, Hpos, Hfind.
  split; [| split; [| exact Hfind]].
  - exists fs. split; [exact Hfs |]. split; [exact Hbox |].
    unfold frame_corner. injection Hbox as -> -> _ _. f_equal; lia.
  - exists bs, bs0. split; [exact Hbs |]. split; [exact Hbs0 |].
    split; [exact Hpos |]. split; [exact Hkeep |].
    intros H0. rewrite <- Hkeep in H0. injection H0 as Hh Hw Hb.
    injection Hpos as Ht Hl Hwd.
    unfold badge_center, center, badge_box, outer_size.
    cbn [top left width height]. rewrite Hh, Hw, Hb, Ht, Hl, Hwd.
    destruct (calculateBadgeWidth_even (label e)) as [k Hk].
    rewrite Hk, Z.div_mul by lia.
    replace (k * 2 + 2 * 3) with ((k + 3) * 2) by lia.
    rewrite Z.div_mul by lia.
    change (28 / 2) with 14. change ((28 + 2 * 3) / 2) with 17.
    f_equal; lia.
Qed.

Lemma X12_reposition_restores_frame_witness :
  ((frameWidth <$> frame_of "wdh-1-a" Fixture.padded) = Some 126)
  /\ (exists fs,
        frame_of "wdh-1-a" (updateOverlayPositions Fixture.padded) = Some fs
        /\ (frameTop fs, frameLeft fs, frameWidth fs, frameHeight fs)
           = (-3, 7, 120, 70))
  /\ exists bs,
      badge_of "wdh-1-a" (updateOverlayPositions Fixture.padded) = Some bs
      /\ badge_center bs = (10, 0).
Proof.
  split; [vm_compute; reflexivity |].
  destruct (X12_reposition_restores_frame Fixture.padded Fixture.padded_a
              Demo.card_a
              (Demo.el "DIV" "" "card a" (Some "wdh-1-a") 10 20 100 50
                 [ Demo.el "SPAN" "" "" None 12 22 30 10 [];
                   Demo.el "SPAN" "" "3x" None 12 60 30 10 [] ]))
    as ((fs & Hfs & Hbox & _) & (bs & bs0 & Hbs & Hbs0 & _ & _ & Hc) & _).
  - apply (run_keeps_mirror Demo.browser
             [OpSelect Demo.card_a "wdh-1-a"; OpUpdatePadding "wdh-1-a" 10]
             Demo.editing); [| vm_compute; reflexivity].
    split; [constructor |]. exists []. split; vm_compute; reflexivity.
  - replace (selectedElements Fixture.padded) with [Fixture.padded_a]
      by (vm_compute; reflexivity).
    left.
  - vm_compute. reflexivity.
  - vm_compute. reflexivity.
  - split.
    + exists fs. split; [exact Hfs |]. rewrite Hbox. vm_compute. reflexivity.
    + exists bs. split; [exact Hbs |]. rewrite Hc; [vm_compute; reflexivity |].
      vm_compute in Hbs0. injection Hbs0 as <-. reflexivity.
Defined.

Lemma X11_reposition_keeps_annotations_witness :
  overlays_mirror (updateOverlayPositions Fixture.padded)
  /\ selectedElements (updateOverlayPositions Fixture.padded)
     = [Fixture.padded_a].
Proof.
  split; [| vm_compute; reflexivity].
  apply (proj2 (proj2 (proj2 (proj2
           (X11_reposition_keeps_annotations Fixture.padded))))).
  apply (run_keeps_mirror Demo.browser
           [OpSelect Demo.card_a "wdh-1-a"; OpUpdatePadding "wdh-1-a" 10]
           Demo.editing); [| vm_compute; reflexivity].
  split; [constructor |]. exists []. split; vm_compute; reflexivity.
Defined.

(** ** The handlers *)

Lemma mounted_updatePanel s :
  mounted (panel (updatePanel s)) = mounted (panel s).
Proof. rewrite updatePanel_panel. destruct (panel s); reflexivity. Qed.

Lemma fold_dropBindings_mounted l s :
  mounted (overlayContainer (fold_left dropBindings l s))
  = mounted (overlayContainer s).
Proof.
  revert s. induction l as [|i l IH]; intros s; [reflexivity |].
  cbn [fold_left]. rewrite IH, dropBindings_overlay.
  destruct (overlayContainer s); reflexivity.
Qed.

(** An operation returns at once, or works on the store, the overlays and
    the page and then ends with [updatePanel] and [saveState], with
    [saveState] alone, or with [updatePanel] and [clearState]. *)
Lemma step_core B s o :
  step B s o = s
  \/ exists s1,
      (isEditing s1 = isEditing s /\ panel s1 = panel s
       /\ mounted (overlayContainer s1) = mounted (overlayContainer s))
      /\ (step B s o = saveState B (updatePanel s1)
          \/ step B s o = saveState B s1
          \/ step B s o = clearState (updatePanel s1)).
Proof.
  assert (Hov : forall f g : list OverlayNode -> list OverlayNode,
             mounted (f <$> (g <$> overlayContainer s))
             = mounted (overlayContainer s))
    by (intros; destruct (overlayContainer s); reflexivity).
  destruct o as [element newId | i | i t | i c | i px | i | |]; cbn [step].
  - unfold selectElement.
    destruct (node_at (root (document s)) element) as [e|]; [| auto].
    destruct (select_refused s element (attrs e)); [auto |].
    right.
    destruct (Js.truthy (focusedElementId s));
      [destruct (find_element _ (selectedElements s)) |];
      (eexists; split; [| left; reflexivity]); state_cbn;
      (split; [reflexivity |]); (split; [reflexivity |]); apply Hov.
  - right. unfold deselectElement.
    eexists; split; [| left; reflexivity]. state_cbn.
    frame isEditing. frame panel. rewrite unmark_overlay.
    split; [reflexivity |]. split; [reflexivity |]. apply Hov.
  - unfold updateLabel. destruct (find_element i (selectedElements s)); [| auto].
    right. eexists; split; [| right; left; reflexivity]. state_cbn.
    split; [reflexivity |]. split; [reflexivity |].
    destruct (overlayContainer s); reflexivity.
  - unfold changeElementColor.
    destruct (find_element i (selectedElements s)); [| auto].
    right. eexists; split; [| left; reflexivity]. state_cbn.
    split; [reflexivity |]. split; [reflexivity |]. apply Hov.
  - unfold updatePadding. destruct (find_element i (selectedElements s)); [| auto].
    right. eexists; split; [| right; left; reflexivity]. state_cbn.
    split; [reflexivity |]. split; [reflexivity |]. apply Hov.
  - unfold startFocus. destruct (find_element i (selectedElements s)); [| auto].
    right. eexists; split; [| left; reflexivity]. state_cbn. auto.
  - right. unfold endFocus.
    eexists; split; [| left; reflexivity]. state_cbn. auto.
  - right. unfold clearAllSelections.
    destruct (Js.truthy (focusedElementId s)).
    + eexists; split; [| left; reflexivity]. state_cbn.
      frame isEditing. frame panel. rewrite fold_dropBindings_mounted. auto.
    + eexists; split; [| right; right; reflexivity]. state_cbn.
      frame isEditing. frame panel. rewrite fold_dropBindings_mounted. auto.
Qed.

Lemma step_mounts B s o :
  isEditing (step B s o) = isEditing s
  /\ mounted (panel (step B s o)) = mounted (panel s)
  /\ mounted (overlayContainer (step B s o)) = mounted (overlayContainer s).
Proof.
  destruct (step_core B s o)
    as [-> | (s1 & (H1 & H2 & H3) & [-> | [-> | ->]])]; [auto | | |].
  - frame isEditing. frame (fun s => mounted (panel s)).
    frame (fun s => mounted (overlayContainer s)).
    rewrite mounted_updatePanel, H1, H2, H3. auto.
  - frame isEditing. frame (fun s => mounted (panel s)).
    frame (fun s => mounted (overlayContainer s)).
    rewrite H1, H2, H3. auto.
  - frame isEditing. frame (fun s => mounted (panel s)).
    frame (fun s => mounted (overlayContainer s)).
    rewrite mounted_updatePanel, H1, H2, H3. auto.
Qed.

Lemma maxSubNumber_nonneg l : 0 <= maxSubNumber l.
Proof. rewrite maxSubNumber_spec. apply max_list_nonneg. Qed.

Lemma maxNumber_nonneg l : 0 <= maxNumber l.
Proof. rewrite maxNumber_spec. apply max_list_nonneg. Qed.

Lemma clearAllSelections_counters B s :
  1 <= nextNumber s ->
  1 <= nextNumber (clearAllSelections B s)
  /\ focusedSubNumber (clearAllSelections B s) = 1.
Proof.
  intros Hn. unfold clearAllSelections.
  destruct (Js.truthy (focusedElementId s)); store_frame; split;
    (reflexivity || lia || exact Hn).
Qed.

(** The focus and the counters through an operation. *)
Lemma step_focus_counters B s o :
  (forall i, o = OpStartFocus i -> i <> "") ->
  focusedElementId s <> Some "" ->
  1 <= nextNumber s -> 1 <= focusedSubNumber s ->
  focusedElementId (step B s o) <> Some ""
  /\ 1 <= nextNumber (step B s o) /\ 1 <= focusedSubNumber (step B s o).
Proof.
  intros Hid Hf Hn Hsub.
  destruct o as [element newId | i | i t | i c | i px | i | |]; cbn [step].
  - destruct (node_at (root (document s)) element) as [e|] eqn:Hnode;
      [| rewrite selectElement_no_element by assumption; auto].
    destruct (select_refused s element (attrs e)) eqn:Href;
      [rewrite (selectElement_refused _ _ _ _ e) by assumption; auto |].
    destruct (selectElement_applied B element newId s e Hnode Href)
      as (new & _ & _ & _ & _ & _ & _ & Hf' & Hc).
    cbn zeta in *. rewrite Hf'.
    destruct (focus_parent s); destruct Hc as (_ & _ & -> & ->);
      repeat split; (assumption || lia).
  - destruct (deselectElement_store B i s) as (_ & -> & -> & ->). auto.
  - pose proof (update_store B s (OpUpdateLabel i t) _ _ eq_refl) as H.
    cbn [step] in H. destruct H as (_ & -> & -> & ->). auto.
  - pose proof (update_store B s (OpChangeColor i c) _ _ eq_refl) as H.
    cbn [step] in H. destruct H as (_ & -> & -> & ->). auto.
  - pose proof (update_store B s (OpUpdatePadding i px) _ _ eq_refl) as H.
    cbn [step] in H. destruct H as (_ & -> & -> & ->). auto.
  - destruct (find_element i (selectedElements s)) as [el|] eqn:Hel;
      [| rewrite startFocus_unknown by assumption; auto].
    destruct (startFocus_store B i s el Hel) as (_ & -> & -> & -> & _).
    pose proof (maxSubNumber_nonneg (children_of i (selectedElements s))).
    pose proof (Hid i eq_refl).
    repeat split; (congruence || lia).
  - destruct (endFocus_store B s) as (_ & -> & -> & ->).
    repeat split; (discriminate || lia).
  - destruct (clearAllSelections_store B s) as (_ & ->).
    destruct (clearAllSelections_counters B s Hn) as [H1 ->].
    split; [destruct (Js.truthy _); [assumption | discriminate] |].
    split; [exact H1 | lia].
Qed.

Lemma step_editing_ok B s o :
  (forall i, o = OpStartFocus i -> i <> "") ->
  editing_ok s ->
  editing_ok (step B s o)
  /\ mounted (panel (step B s o)) = mounted (panel s).
Proof.
  intros Hid (He & Ho & Hf & Hn & Hsub).
  destruct (step_mounts B s o) as (H1 & H2 & H3).
  destruct (step_focus_counters B s o Hid Hf Hn Hsub) as (H4 & H5 & H6).
  unfold editing_ok. rewrite H1, H3. auto 10.
Qed.




Lemma recount_fields s :
  isEditing (recount s) = isEditing s /\ panel (recount s) = panel s
  /\ overlayContainer (recount s) = overlayContainer s
  /\ focusedElementId (recount s) = focusedElementId s
  /\ 1 <= nextNumber (recount s) /\ 1 <= focusedSubNumber (recount s).
Proof.
  unfold recount.
  pose proof (maxNumber_nonneg
                (List.filter (fun e => bool_decide (parentId e = Null))
                   (selectedElements s))).
  destruct (Js.truthy (focusedElementId _)) eqn:E; state_cbn;
    repeat split; try lia.
  match goal with |- 1 <= maxSubNumber ?l + 1 =>
    pose proof (maxSubNumber_nonneg l); lia end.
Qed.













(** ** Labels *)

Lemma parseInt_of_number n : 0 <= n -> Js.parseInt (Js.of_number n) = Some n.
Proof.
  intros Hn. destruct (of_number_digits n Hn) as (Hne & Hall & Hval).
  rewrite <- (of_chars_chars (Js.of_number n)).
  rewrite parseInt_digits by assumption. rewrite Hval. reflexivity.
Qed.

Lemma numbers_from_cons n k :
  numbers_from n (S k) = n :: numbers_from (n + 1) k.
Proof.
  unfold numbers_from. cbn [seq map]. f_equal; [lia |].
  rewrite <- seq_shift, map_map. apply map_ext. intros j. lia.
Qed.

Lemma select_run_labels B ops :
  forall s,
    forallb is_select ops = true ->
    Js.truthy (focusedElementId s) = false ->
    exists news,
      selectedElements (run B s ops) = selectedElements s ++ news
      /\ map label news
         = map Js.of_number (numbers_from (nextNumber s) (List.length news))
      /\ nextNumber (run B s ops)
         = nextNumber s + Z.of_nat (List.length news)
      /\ (List.length news <= List.length ops)%nat
      /\ Forall (fun e => parentId e = Null) news
      /\ focusedElementId (run B s ops) = focusedElementId s.
Proof.
  induction ops as [|o ops IH]; intros s Hops Hfocus.
  - exists []. cbn. rewrite app_nil_r, Z.add_0_r. repeat split; auto.
  - cbn [forallb] in Hops. apply andb_true_iff in Hops as [Ho Hops].
    destruct o as [element newId | | | | | | |]; try discriminate.
    change (run B s (OpSelect element newId :: ops))
      with (run B (selectElement B element newId s) ops).
    assert (Hskip : selectElement B element newId s = s ->
              exists news,
                selectedElements (run B (selectElement B element newId s) ops)
                = selectedElements s ++ news
                /\ map label news
                   = map Js.of_number
                       (numbers_from (nextNumber s) (List.length news))
                /\ nextNumber (run B (selectElement B element newId s) ops)
                   = nextNumber s + Z.of_nat (List.length news)
                /\ (List.length news <= List.length (OpSelect element newId :: ops))%nat
                /\ Forall (fun e => parentId e = Null) news
                /\ focusedElementId
                     (run B (selectElement B element newId s) ops)
                   = focusedElementId s).
    { intros ->.
      destruct (IH s Hops Hfocus) as (news & H1 & H2 & H3 & H4 & H5 & H6).
      exists news. cbn [List.length].
      split; [exact H1 |]. split; [exact H2 |]. split; [exact H3 |].
      split; [lia |]. split; [exact H5 | exact H6]. }
    destruct (node_at (root (document s)) element) as [e|] eqn:Hnode;
      [| apply Hskip, selectElement_no_element, Hnode].
    destruct (select_refused s element (attrs e)) eqn:Href;
      [apply Hskip, (selectElement_refused _ _ _ _ e); assumption |].
    clear Hskip.
    destruct (selectElement_applied B element newId s e Hnode Href)
      as (new & Hs & _ & _ & _ & _ & _ & Hf & Hc).
    cbn zeta in *. unfold focus_parent in Hc. rewrite Hfocus in Hc.
    destruct Hc as (Hlab & Hpar & Hnext & _).
    set (s1 := selectElement B element newId s) in *.
    destruct (IH s1 Hops ltac:(rewrite Hf; exact Hfocus))
      as (news & H1 & H2 & H3 & H4 & H5 & H6).
    exists (new :: news). cbn [List.length map].
    rewrite numbers_from_cons. cbn [map].
    rewrite H1, Hs, <- app_assoc, H2, H3, Hnext, Hlab, H6, Hf.
    split; [reflexivity |]. split; [reflexivity |]. split; [lia |].
    split; [lia |]. split; [constructor; assumption | reflexivity].
Qed.

(** X14.  Outside focus mode, a series of clicks numbers the annotations it
    creates consecutively from the counter: after any number of
    [selectElement] calls, some of which may be refused, the new annotations
    are top-level and carry the labels [String(n)], [String(n + 1)], ... in
    order, without a gap for a refused click, and the counter stands after
    the last one.  Each of these labels is read back by [parseInt] as its
    number. *)
Theorem X14_consecutive_labels B s ops :
  forallb is_select ops = true ->
  Js.truthy (focusedElementId s) = false ->
  0 <= nextNumber s ->
  exists news,
    selectedElements (run B s ops) = selectedElements s ++ news
    /\ (List.length news <= List.length ops)%nat
    /\ map label news
       = map Js.of_number (numbers_from (nextNumber s) (List.length news))
    /\ map (fun e => Js.parseInt (label e)) news
       = map Some (numbers_from (nextNumber s) (List.length news))
    /\ Forall (fun e => parentId e = Null) news
    /\ nextNumber (run B s ops) = nextNumber s + Z.of_nat (List.length news).
Proof.
  intros Hops Hfocus Hn.
  destruct (select_run_labels B ops s Hops Hfocus)
    as (news & H1 & H2 & H3 & H4 & H5 & _).
  exists news. repeat split; try assumption.
  rewrite <- (map_map label Js.parseInt), H2, map_map.
  apply map_ext_in. intros k Hk. apply parseInt_of_number.
  unfold numbers_from in Hk. apply in_map_iff in Hk as (j & <- & _). lia.
Qed.

Lemma X14_consecutive_labels_witness :
  exists news,
    selectedElements
      (run Demo.browser Demo.editing
         [ OpSelect Demo.card_a "wdh-1-a"; OpSelect Demo.card_a "wdh-1-x";
           OpSelect Demo.card_b "wdh-1-b"; OpSelect Demo.main "wdh-1-c" ])
    = selectedElements Demo.editing ++ news
    /\ map label news = ["1"; "2"; "3"].
Proof.
  destruct (X14_consecutive_labels Demo.browser Demo.editing
              [ OpSelect Demo.card_a "wdh-1-a"; OpSelect Demo.card_a "wdh-1-x";
                OpSelect Demo.card_b "wdh-1-b"; OpSelect Demo.main "wdh-1-c" ])
    as (news & Hs & _ & Hlab & _);
    [vm_compute; reflexivity | vm_compute; reflexivity
     | vm_compute; discriminate |].
  exists news. split; [exact Hs |].
  rewrite Hlab.
  assert (Hlen : List.length news = 3%nat).
  { apply (f_equal (@List.length _)) in Hs. rewrite length_app in Hs.
    vm_compute in Hs. symmetry. exact Hs. }
  rewrite Hlen. vm_compute. reflexivity.
Defined.

(** ** The fallback of [escapeClassName] *)

Lemma plain_not_backslash c :
  Js.is_word c || Ascii.eqb c "-" = true -> Ascii.eqb c "\" = false.
Proof.
  intros H. destruct (Ascii.eqb_spec c "\") as [-> |]; [| reflexivity].
  vm_compute in H. discriminate.
Qed.

Lemma special_not_three c : Js.is_word c = false -> Ascii.eqb c "3" = false.
Proof.
  intros H. destruct (Ascii.eqb_spec c "3") as [-> |]; [| reflexivity].
  vm_compute in H. discriminate.
Qed.

Lemma unescape_pairs_escaped l :
  unescape_pairs
    (flat_map (fun c => if Js.is_word c || Ascii.eqb c "-"
                        then [c] else ["\"%char; c]) l)
  = l.
Proof.
  induction l as [|c l IH]; [reflexivity |].
  cbn [flat_map]. destruct (Js.is_word c || Ascii.eqb c "-") eqn:E.
  - cbn [app unescape_pairs]. rewrite (plain_not_backslash c E), IH.
    reflexivity.
  - cbn [app unescape_pairs]. change (Ascii.eqb "\" "\") with true.
    cbn iota. rewrite IH. reflexivity.
Qed.

Lemma unescape_not_prefixed l :
  match l with
  | b :: t :: _ => Ascii.eqb b "\" && Ascii.eqb t "3" = false
  | _ => True
  end ->
  unescape (Js.of_chars l) = Js.of_chars (unescape_pairs l).
Proof.
  intros H. unfold unescape. rewrite chars_of_chars.
  destruct l as [|b [|t [|d [|sp r]]]]; try reflexivity.
  rewrite H. reflexivity.
Qed.

Lemma unescape_escape_manual s : unescape (escape_manual s) = s.
Proof.
  unfold escape_manual. rewrite <- (of_chars_chars s) at 2.
  destruct (Js.chars s) as [|c r] eqn:Hs; [reflexivity |].
  pose proof (unescape_pairs_escaped (c :: r)) as Hall.
  pose proof (unescape_pairs_escaped r) as Hrest.
  cbn [flat_map] in *.
  destruct (Js.is_word c || Ascii.eqb c "-") eqn:E; cbn [app] in *.
  - destruct (Js.is_digit c) eqn:Hd.
    + unfold unescape. rewrite chars_of_chars.
      change (Ascii.eqb "\" "\") with true.
      change (Ascii.eqb "3" "3") with true.
      change (Ascii.eqb " " " ") with true. rewrite Hd. cbn [andb].
      rewrite Hrest. reflexivity.
    + rewrite unescape_not_prefixed, Hall; [reflexivity |].
      destruct (flat_map _ r); [exact I |].
      rewrite (plain_not_backslash c E). reflexivity.
  - change (Js.is_digit "\") with false. cbn iota.
    rewrite unescape_not_prefixed, Hall; [reflexivity |].
    apply orb_false_iff in E as [Hw _].
    rewrite (special_not_three c Hw). apply andb_false_r.
Qed.

Lemma escape_plain l :
  Forall (fun c => Js.is_word c || Ascii.eqb c "-" = true) l ->
  flat_map (fun c => if Js.is_word c || Ascii.eqb c "-"
                     then [c] else ["\"%char; c]) l
  = l.
Proof.
  induction 1 as [|c l Hc _ IH]; [reflexivity |].
  cbn [flat_map]. rewrite Hc, IH. reflexivity.
Qed.

(** X15.  The fallback of [escapeClassName], taken when the browser has no
    [CSS.escape]: it leaves a name made of letters, digits, [_] and [-]
    that does not start with a digit as it is; its result never starts with
    a digit; and it loses nothing: reading [\3d ] at the start as the digit
    [d] and a backslash elsewhere as escaping the next character gives the
    class name back, so two class names never get the same escaped text. *)
Theorem X15_escape_manual :
  (forall s,
      Forall (fun c => Js.is_word c || Ascii.eqb c "-" = true) (Js.chars s) ->
      match Js.chars s with
      | c :: _ => Js.is_digit c = false
      | [] => True
      end ->
      escapeClassName None s = s)
  /\ (forall s,
        match Js.chars (escapeClassName None s) with
        | c :: _ => Js.is_digit c = false
        | [] => True
        end)
  /\ (forall s, unescape (escapeClassName None s) = s)
  /\ (forall s t,
        escapeClassName None s = escapeClassName None t -> s = t).
Proof.
  cbn [escapeClassName].
  split; [| split; [| split]].
  - intros s Hplain Hfirst. unfold escape_manual.
    rewrite escape_plain by exact Hplain.
    destruct (Js.chars s) as [|c r] eqn:Hs.
    + rewrite <- (of_chars_chars s), Hs. reflexivity.
    + rewrite Hfirst, <- Hs. apply of_chars_chars.
  - intros s. unfold escape_manual. rewrite chars_of_chars.
    destruct (Js.chars s) as [|c r]; [exact I |]. cbn [flat_map].
    destruct (Js.is_word c || Ascii.eqb c "-"); cbn [app].
    + destruct (Js.is_digit c) eqn:Hd; [reflexivity | exact Hd].
    + reflexivity.
  - apply unescape_escape_manual.
  - intros s t H. apply (f_equal unescape) in H.
    rewrite !unescape_escape_manual in H. exact H.
Qed.

Lemma X15_escape_manual_witness :
  escapeClassName None "card-a_1" = "card-a_1"
  /\ escapeClassName None "3x" = "\33 x"
  /\ escapeClassName None "md:w-1/2" = "md\:w-1\/2"
  /\ forall t, escapeClassName None "md:w-1/2" = escapeClassName None t ->
               "md:w-1/2" = t.
Proof.
  split; [| split; [| split]].
  - apply (proj1 X15_escape_manual "card-a_1").
    + vm_compute. repeat constructor.
    + vm_compute. reflexivity.
  - vm_compute. reflexivity.
  - vm_compute. reflexivity.
  - intros t. apply (proj2 (proj2 (proj2 X15_escape_manual))).
Defined.

(** ** The panel *)

Lemma renderPanel_items b s :
  panel_items (renderPanel b s)
  = map (panelItem (focusedElementId s))
      (List.filter (shown_in_panel s) (selectedElements s)).
Proof.
  assert (Hshow :
    (if Js.truthy (focusedElementId s)
     then List.filter
            (fun e => bool_decide (Some (id e) = focusedElementId s)
                      || bool_decide (parentId e = of_nullable (focusedElementId s)))
            (selectedElements s)
     else List.filter (fun e => bool_decide (parentId e = Null))
            (selectedElements s))
    = List.filter (shown_in_panel s) (selectedElements s)).
  { unfold shown_in_panel. destruct (Js.truthy (focusedElementId s));
      reflexivity. }
  unfold renderPanel, panel_items. cbn [panelContent]. rewrite Hshow.
  destruct (List.filter (shown_in_panel s) (selectedElements s));
    reflexivity.
Qed.

(** ** The region of the export *)

(** X17.  In focus mode the export, which has scrolled the page to its
    origin, cuts out the frame of the focused annotation, as
    [createFrameOverlay] and [updateOverlayPositions] place it, with its
    border and a margin of 20 pixels on each side.  The badge of an
    annotation with this box and padding, where [createNumberBadge] places
    it, is inside the region vertically; it is inside it horizontally
    exactly when its label has at most two characters: the badge of a longer
    label, whose content is 42 pixels or more wide, reaches further left
    than the margin. *)
Theorem X17_capture_region i label rect color padding :
  let r := captureRegion rect padding in
  forall fs bs,
    frame_style (createFrameOverlay i (top rect) (left rect) (width rect)
                   (height rect) color (or0 padding)) = Some fs ->
    badge_style (createNumberBadge i label (top rect) (left rect) color
                   (or0 padding)) = Some bs ->
    (captureX r = frameLeft fs - 20 /\ captureY r = frameTop fs - 20
     /\ captureX r + captureWidth r
        = frameLeft fs + frameWidth fs + 2 * frameBorderWidth fs + 20
     /\ captureY r + captureHeight r
        = frameTop fs + frameHeight fs + 2 * frameBorderWidth fs + 20)
    /\ captureY r <= badgeTop bs
    /\ (captureX r <= badgeLeft bs <-> Js.length label <= 2).
Proof.
  intros r fs bs [= <-] [= <-]. subst r.
  unfold captureRegion, borderWidth. generalize (or0 padding). intros pad.
  cbn [captureX captureY captureWidth captureHeight frameLeft
       frameTop frameWidth frameHeight frameBorderWidth badgeTop badgeLeft].
  change (28 / 2) with 14.
  split; [repeat split; lia |]. split; [lia |].
  unfold calculateBadgeWidth.
  destruct (Js.length label <=? 2) eqn:E.
  - apply Z.leb_le in E. change (28 / 2) with 14. split; [intros _; exact E | lia].
  - apply Z.leb_gt in E.
    assert (Hw : Z.max 28 (Js.length label * 10 + 12)
                 = 2 * (Js.length label * 5 + 6)) by lia.
    rewrite Hw, Z.mul_comm, Z.div_mul by lia. split; lia.
Qed.

Lemma X17_capture_region_witness :
  let rect := {| top := 10; left := 20; width := 100; height := 50 |} in
  captureRegion rect (Some 10)
  = {| captureX := -13; captureY := -23; captureWidth := 166;
       captureHeight := 116 |}
  /\ captureX (captureRegion rect (Some 10)) <= 20 - 10 - 3 - 28 / 2
  /\ ~ captureX (captureRegion rect (Some 10))
       <= 20 - 10 - 3 - calculateBadgeWidth "1-1" / 2.
Proof.
  cbn zeta. split; [vm_compute; reflexivity |].
  destruct (X17_capture_region "wdh-1-a" "1-1"
              {| top := 10; left := 20; width := 100; height := 50 |} red
              (Some 10) _ _ eq_refl eq_refl) as (_ & _ & Hlong).
  destruct (X17_capture_region "wdh-1-a" "1"
              {| top := 10; left := 20; width := 100; height := 50 |} red
              (Some 10) _ _ eq_refl eq_refl) as (_ & _ & Hshort).
  split.
  - apply Hshort. vm_compute. discriminate.
  - intros H. apply Hlong in H. vm_compute in H. apply H. reflexivity.
Defined.

(** ** What a restore draws *)

Lemma restoreOne_draws B e used s used' s' :
  restoreOne B e used s = Some (used', s') ->
  (selectedElements s' = selectedElements s
   /\ overlayContainer s' = overlayContainer s)
  \/ exists r,
      selectedElements s' = selectedElements s ++ [restored_pair (e, r)]
      /\ overlayContainer s'
         = (fun nodes => nodes ++ drawn (e, r)) <$> overlayContainer s.
Proof.
  unfold restoreOne.
  destruct (querySelector B (document s) (selector e)) as [p| |];
    [| intros [= <- <-]; auto | discriminate].
  destruct (node_at (root (document s)) p) as [n|];
    [| intros [= <- <-]; auto].
  destruct (bool_decide (p ∈ used)); [intros [= <- <-]; auto |].
  destruct (Js.truthy (wdhId (attrs n)) && _); intros [= <- <-]; [auto |].
  right. exists (box (attrs n)). state_cbn. split; [reflexivity |].
  destruct (overlayContainer s); cbn; [| reflexivity].
  rewrite <- app_assoc. reflexivity.
Qed.

Lemma restoreLoop_draws B l :
  forall used s,
    (forall e d, e ∈ l -> querySelector B d (selector e) <> SyntaxError) ->
    exists s' bound,
      restoreLoop B l used s = Done s'
      /\ map fst bound `sublist_of` l
      /\ selectedElements s' = selectedElements s ++ map restored_pair bound
      /\ overlayContainer s'
         = (fun nodes => nodes ++ flat_map drawn bound) <$> overlayContainer s.
Proof.
  induction l as [|e l IH]; intros used s Hq.
  - exists s, []. cbn. rewrite app_nil_r. repeat split; [constructor |].
    destruct (overlayContainer s); cbn; [rewrite app_nil_r |]; reflexivity.
  - cbn [restoreLoop].
    destruct (restoreOne B e used s) as [[used' s1]|] eqn:Hone.
    + destruct (IH used' s1) as (s' & bound & Hloop & Hsub & Hs & Ho).
      { intros e' d He'. apply Hq. right. exact He'. }
      destruct (restoreOne_draws _ _ _ _ _ _ Hone)
        as [[Hs1 Ho1] | (r & Hs1 & Ho1)].
      * exists s', bound. split; [exact Hloop |].
        split; [apply sublist_cons, Hsub |]. split; congruence.
      * exists s', ((e, r) :: bound). split; [exact Hloop |].
        split; [cbn [map fst]; apply sublist_skip, Hsub |].
        rewrite Hs, Hs1, Ho, Ho1, <- app_assoc. split; [reflexivity |].
        destruct (overlayContainer s); cbn; [| reflexivity].
        rewrite <- app_assoc. reflexivity.
    + exfalso. unfold restoreOne in Hone.
      destruct (querySelector B (document s) (selector e)) eqn:Hsel;
        [| discriminate |].
      * destruct (node_at (root (document s)) p); [| discriminate].
        destruct (bool_decide (p ∈ used)); [discriminate |].
        destruct (Js.truthy _ && _); discriminate.
      * apply (Hq e (document s)); [left | exact Hsel].
Qed.

Lemma drawn_views bound :
  map view_of (flat_map drawn bound)
  = expected_views (map restored_pair bound).
Proof.
  induction bound as [|[e r] bound IH]; [reflexivity |].
  cbn [flat_map map app]. unfold expected_views in *. cbn [flat_map app].
  rewrite <- IH. reflexivity.
Qed.

Lemma ids_restored bound : ids (map restored_pair bound) = ids (map fst bound).
Proof.
  unfold ids. rewrite !map_map. apply map_ext. intros [e r]. reflexivity.
Qed.

(** [startEditing] on a snapshot without an unparsable selector and without
    a repeated id. *)
Lemma startEditing_mirror B s :
  isEditing s = false -> selectedElements s = [] ->
  (forall saved,
      (loadState B s).1 = Some saved ->
      NoDup (ids (Saved.elements saved))
      /\ forall e d, e ∈ Saved.elements saved ->
                     querySelector B d (selector e) <> SyntaxError) ->
  exists s' bound,
    startEditing B s = Done s'
    /\ overlays_mirror s'
    /\ selectedElements s' = map restored_pair bound
    /\ map fst bound
       `sublist_of` default [] (Saved.elements <$> (loadState B s).1).
Proof.
  intros Hoff Hempty Hsaved. unfold startEditing. rewrite Hoff.
  set (s0 := set_document _
               (set_overlayContainer (Some []) (set_isEditing true s))).
  assert (Hload0 : (loadState B s0).1 = (loadState B s).1)
    by (apply loadState_reads_storage; reflexivity).
  pose proof (loadState_state B s0) as Hstate.
  destruct (loadState B s0) as [sv s1]. cbn [fst snd] in *.
  rewrite <- Hload0 in *. clear Hload0.
  assert (H1 : selectedElements s1 = [] /\ overlayContainer s1 = Some []).
  { destruct Hstate as [-> | ->]; subst s0; state_cbn; auto. }
  destruct H1 as [Hs1 Ho1].
  assert (Hfinish : forall s2 bound d,
            NoDup (ids (map fst bound)) ->
            selectedElements s2 = map restored_pair bound ->
            overlayContainer s2 = Some (flat_map drawn bound) ->
            overlays_mirror
              (updatePanel (set_document d (set_panel (Some createPanel) s2)))
            /\ selectedElements
                 (updatePanel
                    (set_document d (set_panel (Some createPanel) s2)))
               = map restored_pair bound).
  { intros s2 bound d Hnd Hs2 Ho2. unfold overlays_mirror.
    frame selectedElements. frame overlayContainer. state_cbn.
    rewrite Hs2, Ho2, ids_restored.
    split; [| reflexivity]. split; [exact Hnd |].
    eexists. split; [reflexivity | apply drawn_views]. }
  assert (Hnone : forall d, exists s' bound,
            Done (updatePanel
                    (set_document d (set_panel (Some createPanel) s1)))
            = Done s'
            /\ overlays_mirror s'
            /\ selectedElements s' = map restored_pair bound
            /\ map fst bound
               `sublist_of` default [] (Saved.elements <$> sv)).
  { intros d.
    destruct (Hfinish s1 [] d ltac:(constructor) Hs1 Ho1) as [Hm Hs].
    eexists _, []. split; [reflexivity |]. split; [exact Hm |].
    split; [exact Hs | apply sublist_nil_l]. }
  destruct sv as [saved|]; [| apply Hnone].
  destruct (0 <? Z.of_nat (List.length (Saved.elements saved)));
    [| apply Hnone].
  clear Hnone. destruct (Hsaved saved eq_refl) as [Hnd Hq].
  unfold restoreElements.
  destruct (restoreLoop_draws B (Saved.elements saved) ∅
              (set_focusedElementId (Saved.focusedElementId saved) s1) Hq)
    as (s2 & bound & -> & Hsub & Hs2 & Ho2).
  state_cbn. rewrite Hs1 in Hs2. rewrite Ho1 in Ho2. cbn in Hs2, Ho2.
  destruct (recount_store s2) as (Hrs & _).
  destruct (recount_fields s2) as (_ & _ & Hro & _).
  destruct (Hfinish (recount s2) bound
              (appendToBody (script_node "wdh-panel" (panelBox B))
                 (document (set_panel (Some createPanel) (recount s2)))))
    as [Hm Hs].
  - apply (sublist_NoDup _ (ids (Saved.elements saved)) Hnd).
    exact (fmap_sublist id _ _ Hsub).
  - congruence.
  - congruence.
  - eexists _, bound. split; [reflexivity |]. split; [exact Hm |].
    split; [exact Hs | exact Hsub].
Qed.

(** X18.  When [startEditing] finds a snapshot in which no id occurs twice
    and no selector is unparsable (or finds none), it ends with the overlay
    container mirroring the store: one frame and one badge for each restored
    annotation, in order, with its colour and label.  The restored
    annotations are entries of the snapshot, in the order of the snapshot,
    the skipped ones left out. *)
Theorem X18_startEditing_draws_store B s :
  isEditing s = false -> selectedElements s = [] ->
  (forall saved,
      (loadState B s).1 = Some saved ->
      NoDup (ids (Saved.elements saved))
      /\ forall e d, e ∈ Saved.elements saved ->
                     querySelector B d (selector e) <> SyntaxError) ->
  exists s' bound,
    startEditing B s = Done s'
    /\ overlays_mirror s'
    /\ selectedElements s' = map restored_pair bound
    /\ map fst bound
       `sublist_of` default [] (Saved.elements <$> (loadState B s).1).
Proof. apply startEditing_mirror. Qed.

Lemma X18_startEditing_draws_store_witness :
  exists s',
    startEditing Demo.browser (Demo.stored "five") = Done s'
    /\ overlays_mirror s'
    /\ ids (selectedElements s') = ["wdh-1-a"; "wdh-1-b"; "wdh-1-e"].
Proof.
  destruct (X18_startEditing_draws_store Demo.browser (Demo.stored "five"))
    as (s' & bound & Hstart & Hm & _).
  - vm_compute. reflexivity.
  - vm_compute. reflexivity.
  - intros saved H. vm_compute in H. injection H as <-.
    cbn [Saved.elements]. split.
    + apply (bool_decide_unpack _). vm_compute. reflexivity.
    + intros e d He.
      repeat (apply elem_of_cons in He as [-> | He]);
        [vm_compute; discriminate .. | inversion He].
  - exists s'. split; [exact Hstart |]. split; [exact Hm |].
    assert (H : Done s' = startEditing Demo.browser (Demo.stored "five"))
      by (symmetry; exact Hstart).
    vm_compute in H. injection H as ->. vm_compute. reflexivity.
Defined.

(** ** Further properties of the operations *)

(** X19.  [updatePadding] moves the frame and the badge of the annotation
    together, by the new padding from the stored box of the element: the
    outer corner of the frame goes [padding + 3] pixels above and left of
    the box, and the badge (28 pixels high, with its border of 3 pixels)
    is centred on the corner of the padded box, 3 pixels right of and below
    that outer corner, where [createNumberBadge] centres it. *)
Theorem X19_updatePadding_badge_position B i px s el fs bs :
  find_element i (selectedElements s) = Some el ->
  frame_of i s = Some fs -> badge_of i s = Some bs ->
  badgeHeight bs = 28 -> badgeBorderWidth bs = 3 ->
  badgeBoxSizing bs = content_box ->
  exists fs' bs',
    frame_of i (updatePadding B i px s) = Some fs'
    /\ badge_of i (updatePadding B i px s) = Some bs'
    /\ frame_corner fs' = (left (rect el) - px - 3, top (rect el) - px - 3)
    /\ badge_center bs' = (left (rect el) - px, top (rect el) - px).
Proof. apply updatePadding_badge_center. Qed.

Lemma X19_updatePadding_badge_position_witness :
  exists fs' bs',
    frame_of "wdh-1-a" (updatePadding Demo.browser "wdh-1-a" 10 Demo.one)
    = Some fs'
    /\ badge_of "wdh-1-a" (updatePadding Demo.browser "wdh-1-a" 10 Demo.one)
       = Some bs'
    /\ frame_corner fs' = (7, -3)
    /\ badge_center bs' = (10, 0).
Proof.
  destruct (X19_updatePadding_badge_position Demo.browser "wdh-1-a" 10
              Demo.one
              (Demo.annotation "wdh-1-a" "1" Null "div.card.a:nth-of-type(1)"
                 "div" (Some 0)
                 {| top := 10; left := 20; width := 100; height := 50 |})
              {| frameTop := 7; frameLeft := 17; frameWidth := 100;
                 frameHeight := 50; frameBorderWidth := 3;
                 frameBorderColor := "#ff0000";
                 frameBoxSizing := content_box |}
              {| badgeTop := -7; badgeLeft := 3; badgeWidth := 28;
                 badgeHeight := 28; badgeColor := "#ff0000";
                 badgeBorderWidth := 3; badgeBorderColor := "#ff0000";
                 badgeBoxSizing := content_box |})
    as (fs' & bs' & H1 & H2 & H3 & H4); try (vm_compute; reflexivity).
  exists fs', bs'. split; [exact H1 |]. split; [exact H2 |].
  split; [rewrite H3 | rewrite H4]; vm_compute; reflexivity.
Defined.

(** X20.  Leaving the focus and entering it again loses no sub-number:
    after a sub-annotation was selected in the focus of [i], [endFocus]
    followed by [startFocus] on [i] finds the sub-counter where the
    selection left it. *)
Theorem X20_refocus_keeps_counter B s i parent element e newId focusedElement :
  find_element i (selectedElements s) = Some parent ->
  i <> "" ->
  let s1 := startFocus B i s in
  node_at (root (document s1)) element = Some e ->
  Js.truthy (wdhId (attrs e)) = false ->
  closest_class "wdh-panel" (root (document s1)) element = false ->
  closest_class "wdh-overlay-container" (root (document s1)) element = false ->
  query_marker (document s1) i = Some focusedElement ->
  contains focusedElement element = true ->
  let s2 := selectElement B element newId s1 in
  focusedSubNumber (startFocus B i (endFocus B s2)) = focusedSubNumber s2.
Proof. apply refocus_keeps_counter. Qed.

Lemma X20_refocus_keeps_counter_witness :
  focusedSubNumber Demo.with_child = 2
  /\ focusedSubNumber
       (startFocus Demo.browser "wdh-1-a"
          (endFocus Demo.browser Demo.with_child)) = 2.
Proof.
  split; [vm_compute; reflexivity |].
  transitivity (focusedSubNumber Demo.with_child);
    [| vm_compute; reflexivity].
  eapply (X20_refocus_keeps_counter Demo.browser Demo.one "wdh-1-a" _
            Demo.span_1 _ "wdh-1-b" Demo.card_a);
    vm_compute; (reflexivity || discriminate).
Defined.

(** X21.  With [selectElement] and [deselectElement] alone, from an empty
    store outside focus mode and with every generated id new, no
    sub-annotation ever exists: every annotation is top-level, and the ids
    of the store are pairwise different. *)
Theorem X21_select_deselect_only B ops s :
  selectedElements s = [] -> focusedElementId s = None ->
  forallb select_or_deselect ops = true ->
  fresh_ids B s ops = true ->
  store_ok (selectedElements (run B s ops))
  /\ forall a, a ∈ selectedElements (run B s ops) -> parentId a = Null.
Proof. apply select_deselect_only. Qed.

Lemma X21_select_deselect_only_witness :
  store_ok
    (selectedElements
       (run Demo.browser Demo.editing
          [ OpSelect Demo.card_a "wdh-1-a"; OpSelect Demo.card_b "wdh-1-b";
            OpDeselect "wdh-1-a" ])).
Proof.
  apply (X21_select_deselect_only Demo.browser
           [ OpSelect Demo.card_a "wdh-1-a"; OpSelect Demo.card_b "wdh-1-b";
             OpDeselect "wdh-1-a" ] Demo.editing);
    vm_compute; reflexivity.
Defined.

(** X22.  [stopEditing] never touches the storage and writes nothing to the
    console: the snapshot the last operation saved is still there, and
    [loadState] returns after [stopEditing] what it returned before.  Of
    the session itself nothing is left: edit mode is off, the store is
    empty, and there is no panel and no overlay container. *)
Theorem X22_stopEditing_keeps_snapshot B s :
  localStorage (stopEditing s) = localStorage s
  /\ log (stopEditing s) = log s
  /\ (loadState B (stopEditing s)).1 = (loadState B s).1
  /\ isEditing (stopEditing s) = false
  /\ (isEditing s = true ->
      selectedElements (stopEditing s) = []
      /\ panel (stopEditing s) = None
      /\ overlayContainer (stopEditing s) = None).
Proof.
  destruct (stopEditing_storage s) as (H1 & H2 & H3 & H4).
  split; [exact H1 |]. split; [exact H4 |].
  split; [apply loadState_reads_storage; assumption |].
  split; [apply stopEditing_off |].
  apply stopEditing_leaves.
Qed.

Lemma X22_stopEditing_keeps_snapshot_witness :
  is_Some (localStorage (stopEditing Demo.with_child)
           !! getStorageKey Demo.with_child)
  /\ selectedElements (stopEditing Demo.with_child) = []
  /\ overlayContainer (stopEditing Demo.with_child) = None.
Proof.
  destruct (X22_stopEditing_keeps_snapshot Demo.browser Demo.with_child)
    as (Hls & _ & _ & _ & Hleft).
  destruct (Hleft ltac:(vm_compute; reflexivity)) as (H1 & _ & H3).
  split; [rewrite Hls; vm_compute; eauto | auto].
Defined.

(** ** Two edge cases of the panel *)

Lemma find_element_removed f l :
  find_element f (List.filter (fun e => negb (bool_decide (id e = f))) l) = None.
Proof.
  unfold find_element. induction l as [|e l IH]; [reflexivity |].
  cbn [List.filter]. destruct (bool_decide (id e = f)) eqn:E; cbn [negb].
  - exact IH.
  - cbn [find]. rewrite E. exact IH.
Qed.

(** X23.  Removing the annotation in focus does not leave focus mode: after
    [deselectElement] on the focused annotation [focusedElementId] still
    names it, though the store no longer holds it.  The next click that
    [selectElement] accepts then creates a top-level annotation, numbered by
    the main counter, and the panel, which in focus mode lists the focused
    annotation and its sub-annotations, does not list it. *)
Theorem X23_focus_survives_its_annotation B s f :
  focusedElementId s = Some f -> f <> "" ->
  let s1 := deselectElement B f s in
  focusedElementId s1 = Some f
  /\ find_element f (selectedElements s1) = None
  /\ forall element newId e,
       node_at (root (document s1)) element = Some e ->
       select_refused s1 element (attrs e) = false ->
       newId <> f ->
       let s2 := selectElement B element newId s1 in
       exists new,
         selectedElements s2 = selectedElements s1 ++ [new]
         /\ id new = newId /\ parentId new = Null
         /\ label new = Js.of_number (nextNumber s1)
         /\ nextNumber s2 = nextNumber s1 + 1
         /\ focusedElementId s2 = Some f
         /\ shown_in_panel s2 new = false.
Proof.
  intros Hfocus Hf. cbn zeta.
  destruct (deselectElement_store B f s) as (Hs & _ & Hf1 & _).
  cbn zeta in *. rewrite Hfocus in Hf1.
  assert (Hgone : find_element f (selectedElements (deselectElement B f s))
                  = None)
    by (rewrite Hs; apply find_element_removed).
  split; [exact Hf1 |]. split; [exact Hgone |].
  intros element newId e Hnode Href Hnew.
  destruct (selectElement_applied B element newId _ e Hnode Href)
    as (new & H1 & H2 & _ & _ & _ & _ & H7 & H8).
  cbn zeta in *. unfold focus_parent in H8.
  rewrite Hf1, truthy_Some in H8 by exact Hf.
  cbn [from_option Datatypes.id] in H8. rewrite Hgone in H8.
  destruct H8 as (Hlab & Hpar & Hnext & _).
  exists new. rewrite H7, Hf1.
  repeat (split; [assumption || reflexivity |]).
  unfold shown_in_panel. rewrite H7, Hf1, truthy_Some by exact Hf.
  rewrite Hpar, H2.
  rewrite !bool_decide_eq_false_2; [reflexivity | discriminate | congruence].
Qed.

Lemma X23_focus_survives_its_annotation_witness :
  let s1 := deselectElement Demo.browser "wdh-1-a" Demo.with_child in
  let s2 := selectElement Demo.browser Demo.card_b "wdh-1-c" s1 in
  focusedElementId s1 = Some "wdh-1-a"
  /\ ids (selectedElements s1) = ["wdh-1-b"]
  /\ exists new,
      selectedElements s2 = selectedElements s1 ++ [new]
      /\ parentId new = Null /\ label new = "2"
      /\ shown_in_panel s2 new = false.
Proof.
  cbn zeta.
  destruct (X23_focus_survives_its_annotation Demo.browser Demo.with_child
              "wdh-1-a") as (Hf & _ & Hnext);
    [vm_compute; reflexivity | discriminate |].
  split; [exact Hf |]. split; [vm_compute; reflexivity |].
  destruct (Hnext Demo.card_b "wdh-1-c"
              (Demo.el "DIV" "" "card b" None 70 20 100 50 []))
    as (new & H1 & _ & H3 & H4 & _ & _ & H7);
    [vm_compute; reflexivity | vm_compute; reflexivity | discriminate |].
  exists new. split; [exact H1 |]. split; [exact H3 |].
  split; [rewrite H4; vm_compute; reflexivity | exact H7].
Defined.

Lemma find_alter_element i f l :
  (forall e, id (f e) = id e) ->
  find_element i (alter_element i f l) = f <$> find_element i l.
Proof.
  intros Hid. unfold find_element, alter_element.
  apply find_alter_first_same. intros e. rewrite Hid. reflexivity.
Qed.

(** X24.  What the padding field of the panel stores.  For the field of an
    annotation of the store the [input] listener stores the integer
    [parseInt] reads at the start of the text, and 0 when there is none:
    the padding is a number whatever was typed.  The bounds the field
    declares are not applied: a negative number is stored as it is. *)
Theorem X24_padding_input B ss i value el :
  i <> "" ->
  find_element i (selectedElements (state ss)) = Some el ->
  let ss' := panelInput B PaddingField (Some i) value ss in
  find_element i (selectedElements (state ss'))
  = Some (with_padding (default 0 (Js.parseInt value)) el)
  /\ listening ss' = listening ss.
Proof.
  intros Hi Hel. cbn zeta. unfold panelInput.
  rewrite truthy_Some by exact Hi. cbn [state listening from_option Datatypes.id].
  split; [| reflexivity].
  pose proof (update_store B (state ss)
                (OpUpdatePadding i
                   match Js.parseInt value with
                   | Some n => if n =? 0 then 0 else n
                   | None => 0
                   end) _ _ eq_refl) as (Hs & _).
  cbn [step] in Hs. rewrite Hs, Hel, find_alter_element, Hel by reflexivity.
  cbn [fmap option_fmap option_map]. do 2 f_equal.
  destruct (Js.parseInt value) as [n|]; [| reflexivity].
  cbn [from_option Datatypes.id]. destruct (Z.eqb_spec n 0); congruence.
Qed.

Lemma X24_padding_input_witness :
  (padding
     <$> find_element "wdh-1-a"
           (selectedElements
              (state (panelInput Demo.browser PaddingField (Some "wdh-1-a")
                        "12px" {| state := Demo.one; listening := true |}))))
  = Some (Some 12)
  /\ (padding
        <$> find_element "wdh-1-a"
              (selectedElements
                 (state (panelInput Demo.browser PaddingField
                           (Some "wdh-1-a") "wide"
                           {| state := Demo.one; listening := true |}))))
     = Some (Some 0)
  /\ (padding
        <$> find_element "wdh-1-a"
              (selectedElements
                 (state (panelInput Demo.browser PaddingField
                           (Some "wdh-1-a") "-5"
                           {| state := Demo.one; listening := true |}))))
     = Some (Some (-5)).
Proof.
  assert (H : forall v,
    find_element "wdh-1-a"
      (selectedElements
         (state (panelInput Demo.browser PaddingField (Some "wdh-1-a") v
                   {| state := Demo.one; listening := true |})))
    = Some (with_padding (default 0 (Js.parseInt v))
              (Demo.annotation "wdh-1-a" "1" Null
                 "div.card.a:nth-of-type(1)" "div" (Some 0)
                 {| top := 10; left := 20; width := 100; height := 50 |}))).
  { intros v.
    apply (X24_padding_input Demo.browser
             {| state := Demo.one; listening := true |} "wdh-1-a" v);
      [discriminate | vm_compute; reflexivity]. }
  rewrite !H. vm_compute. repeat split; reflexivity.
Defined.

(** ** The name of the exported file *)

Lemma dashed_plain l :
  Forall (fun c => plain_char c = true) l ->
  map (fun c => if Ascii.eqb c ":" || Ascii.eqb c "." then "-"%char else c) l
  = l.
Proof.
  induction 1 as [|c l Hc _ IH]; [reflexivity |].
  cbn [map]. unfold plain_char in Hc. apply negb_true_iff in Hc.
  rewrite Hc, IH. reflexivity.
Qed.

Lemma dashed_all_plain l :
  Forall (fun c => plain_char c = true)
    (map (fun c => if Ascii.eqb c ":" || Ascii.eqb c "." then "-"%char else c)
       l).
Proof.
  induction l as [|c l IH]; constructor; [| exact IH].
  destruct (Ascii.eqb c ":" || Ascii.eqb c ".") eqn:E; [reflexivity |].
  unfold plain_char. rewrite E. reflexivity.
Qed.

(** X25.  The time stamp in the name of an exported file has at most 19
    characters and neither [:] nor [.] among them.  For the text
    [toISOString] gives, a date of ten characters, [T], and hours, minutes
    and seconds of two digits each, separated by [:] and followed by [.]
    and the rest, it is the date and the time to the second with [-] for
    [:]: the milliseconds and the zone are cut off. *)
Theorem X25_export_timestamp :
  (forall iso,
      (List.length (Js.chars (export_timestamp iso)) <= 19)%nat
      /\ Forall (fun c => plain_char c = true)
           (Js.chars (export_timestamp iso)))
  /\ (forall date hh mm ss rest,
        String.length date = 10%nat -> String.length hh = 2%nat ->
        String.length mm = 2%nat -> String.length ss = 2%nat ->
        Forall (fun c => plain_char c = true)
          (Js.chars (date +:+ "T" +:+ hh +:+ mm +:+ ss)) ->
        export_timestamp
          (date +:+ "T" +:+ hh +:+ ":" +:+ mm +:+ ":" +:+ ss +:+ "." +:+ rest)
        = date +:+ "T" +:+ hh +:+ "-" +:+ mm +:+ "-" +:+ ss).
Proof.
  split.
  - intros iso. unfold export_timestamp. rewrite chars_of_chars. split.
    + rewrite length_take. lia.
    + apply Forall_take, dashed_all_plain.
  - intros date hh mm ss rest Hd Hh Hm Hs Hplain.
    unfold export_timestamp.
    rewrite <- (of_chars_chars (date +:+ "T" +:+ hh +:+ "-" +:+ mm +:+ "-"
                                +:+ ss)).
    f_equal. rewrite !chars_app in *.
    change (Js.chars "T") with ["T"%char] in *.
    change (Js.chars ":") with [":"%char].
    change (Js.chars ".") with ["."%char].
    change (Js.chars "-") with ["-"%char].
    assert (Hlen : forall s, List.length (Js.chars s) = String.length s).
    { intros s. unfold Js.chars. induction s; cbn; congruence. }
    apply Forall_app in Hplain as [Pd Hplain].
    apply Forall_app in Hplain as [_ Hplain].
    apply Forall_app in Hplain as [Ph Hplain].
    apply Forall_app in Hplain as [Pm Ps].
    rewrite !map_app. cbn [map].
    rewrite !dashed_plain by assumption.
    change (Ascii.eqb "T" ":" || Ascii.eqb "T" ".") with false.
    change (Ascii.eqb ":" ":" || Ascii.eqb ":" ".") with true.
    change (Ascii.eqb "." ":" || Ascii.eqb "." ".") with true.
    cbn iota.
    replace (Js.chars date ++ ["T"%char] ++ Js.chars hh ++ ["-"%char]
             ++ Js.chars mm ++ ["-"%char] ++ Js.chars ss ++ ["-"%char]
             ++ map _ (Js.chars rest))
      with ((Js.chars date ++ ["T"%char] ++ Js.chars hh ++ ["-"%char]
             ++ Js.chars mm ++ ["-"%char] ++ Js.chars ss)
            ++ ["-"%char] ++ map
                 (fun c => if Ascii.eqb c ":" || Ascii.eqb c "."
                           then "-"%char else c) (Js.chars rest))
      by (rewrite <- !app_assoc; reflexivity).
    apply take_app_length'.
    rewrite !length_app, !Hlen, Hd, Hh, Hm, Hs. reflexivity.
Qed.

Lemma X25_export_timestamp_witness :
  export_timestamp "2024-03-09T07:05:59.123Z" = "2024-03-09T07-05-59"
  /\ export_filename (Some "1") "2024-03-09T07:05:59.123Z"
     = "design-spec-1-2024-03-09T07-05-59.png".
Proof.
  split; [| vm_compute; reflexivity].
  apply (proj2 X25_export_timestamp "2024-03-09" "07" "05" "59" "123Z");
    try reflexivity.
  vm_compute. repeat constructor.
Defined.

(** ** The hover highlight *)

Lemma hover_step_keeps h ev :
  (forall p, p ∈ highlighted h -> hoveredElement h = Some p) ->
  forall p, p ∈ highlighted (hover_step h ev) ->
            hoveredElement (hover_step h ev) = Some p.
Proof.
  intros Inv p. destruct ev as [s [target | target | target]];
    cbn [hover_step]; unfold handleMouseOver, handleMouseOut, click_unhighlight.
  - destruct (negb (isEditing s) || _ || _); [apply Inv |].
    cbn [highlighted hoveredElement]. intros Hp.
    apply elem_of_union in Hp as [Hp | Hp].
    + apply elem_of_singleton in Hp. congruence.
    + destruct (hoveredElement h) as [old|] eqn:Hold.
      * apply elem_of_difference in Hp as [Hp Hne].
        pose proof (Inv p Hp) as H. injection H as ->.
        exfalso. apply Hne. apply elem_of_singleton. reflexivity.
      * pose proof (Inv p Hp). discriminate.
  - cbn [highlighted hoveredElement]. intros Hp.
    apply elem_of_difference in Hp as [Hp Hne].
    rewrite (Inv p Hp). rewrite bool_decide_eq_false_2; [reflexivity |].
    intros [= ->]. apply Hne. apply elem_of_singleton. reflexivity.
  - destruct (negb (isEditing s) || _ || _); [apply Inv |].
    cbn [highlighted hoveredElement]. intros Hp.
    apply elem_of_difference in Hp as [Hp _]. apply Inv, Hp.
Qed.

(** X26.  At most one element of the page is highlighted at a time, and it
    is the one [hoveredElement] names: after any sequence of [mouseover],
    [mouseout] and [click] events, in whatever states of the script they
    arrive, every element that carries [wdh-hover-highlight] is
    [hoveredElement]. *)
Theorem X26_one_hover_highlight evs p :
  p ∈ highlighted (fold_left hover_step evs no_hover) ->
  hoveredElement (fold_left hover_step evs no_hover) = Some p.
Proof.
  revert p.
  assert (H0 : forall p, p ∈ highlighted no_hover ->
                         hoveredElement no_hover = Some p).
  { intros p Hp. cbn in Hp. apply elem_of_empty in Hp. contradiction. }
  revert H0. generalize no_hover.
  induction evs as [|ev evs IH]; intros h Inv; [exact Inv |].
  cbn [fold_left]. apply IH. apply hover_step_keeps, Inv.
Qed.

Lemma X26_one_hover_highlight_witness :
  hoveredElement
    (fold_left hover_step
       [ (Demo.one, MouseOver Demo.card_a); (Demo.one, MouseOver Demo.span_1);
         (Demo.one, MouseOut Demo.card_a); (Demo.one, MouseClick Demo.card_b) ]
       no_hover)
  = Some Demo.span_1.
Proof.
  apply X26_one_hover_highlight.
  apply (bool_decide_unpack _). vm_compute. reflexivity.
Defined.

(** ** Restore, entry by entry *)






(** ** The invariant of the store under all its operations *)

(** X16.  Start from the empty store and run any sequence of operations of
    the store in which every generated id is new, the focus is put on
    top-level annotations only (the only ones the panel offers a focus
    button for), and no annotation is removed while a sub-annotation of it
    is in the store.  Then the ids of the store are pairwise different and
    every [parentId] that names a parent names a top-level annotation of
    the store. *)
Theorem X16_store_invariant B s ops :
  selectedElements s = [] ->
  admissible_run B s ops = true ->
  store_ok (selectedElements (run B s ops)).
Proof.
  intros Hempty Hadm.
  apply (run_keeps_invariant B ops s (empty_store_invariant s Hempty) Hadm).
Qed.

Lemma X16_store_invariant_witness :
  store_ok
    (selectedElements
       (run Demo.browser Demo.editing
          [ OpSelect Demo.card_a "wdh-1-a"; OpStartFocus "wdh-1-a";
            OpSelect Demo.span_1 "wdh-1-b"; OpDeselect "wdh-1-b";
            OpEndFocus; OpDeselect "wdh-1-a" ])).
Proof.
  apply X16_store_invariant; vm_compute; reflexivity.
Defined.

(** X27.  [deselectElement] removes the annotation with the given id and no
    other: a sub-annotation of it stays in the store, with a [parentId] that
    then names no annotation of the store. *)
Theorem X27_deselect_parent_orphans B s i c :
  c ∈ selectedElements s -> parentId c = Parent i -> id c <> i ->
  let s' := deselectElement B i s in
  c ∈ selectedElements s'
  /\ find_element i (selectedElements s') = None
  /\ (forall b, b ∈ selectedElements s' -> id b <> i)
  /\ ~ parents_resolve (selectedElements s').
Proof.
  intros Hc Hpar Hid s'.
  destruct (deselectElement_store B i s) as (Hs & _). fold s' in Hs.
  assert (Hin : c ∈ selectedElements s').
  { rewrite Hs. apply elem_of_filter_bool. split; [exact Hc |].
    apply negb_true_iff, bool_decide_eq_false. exact Hid. }
  assert (Hnone : forall b, b ∈ selectedElements s' -> id b <> i).
  { intros b Hb. rewrite Hs in Hb. apply elem_of_filter_bool in Hb as [_ Hb].
    apply negb_true_iff, bool_decide_eq_false in Hb. exact Hb. }
  split; [exact Hin |].
  split; [rewrite Hs; apply find_element_removed |].
  split; [exact Hnone |].
  intros Hres. destruct (Hres c i Hin Hpar) as (b & Hb & Hib & _).
  exact (Hnone b Hb Hib).
Qed.

Lemma X27_deselect_parent_orphans_witness :
  skeleton (selectedElements (run Demo.browser Demo.editing orphaning_ops))
  = [("wdh-1-b", Parent "wdh-1-a")]
  /\ ~ parents_resolve
        (selectedElements (run Demo.browser Demo.editing orphaning_ops)).
Proof.
  split; [vm_compute; reflexivity |].
  pose (c := nth 1 (selectedElements Demo.with_child)
               (Demo.annotation "" "" Null "" "" None Demo.zero_rect)).
  destruct (X27_deselect_parent_orphans Demo.browser Demo.with_child
              "wdh-1-a" c) as (_ & _ & _ & H).
  - vm_compute. right. left.
  - vm_compute. reflexivity.
  - vm_compute. discriminate.
  - exact H.
Defined.
